(** * traderbot: the signal generator and the automated trading loop

    A shallow embedding of [services/signalGenerator.js],
    [services/automatedTrader.js] and the route that starts the loop
    ([POST /api/automation/start] in [routes/automation.js]).

    Conventions of the embedding.
    - A JavaScript number is an exact rational ([Q]); rounding of IEEE
      doubles is not modelled.  Values that the code keeps integral
      (milliseconds, share counts, seeds) are in [Z].
    - [Math.sin], [Number.prototype.toFixed] and the other renderings of the
      runtime are fields of a [Platform]; [Date.now()] and [Math.random()]
      read two input tapes held by the world.
    - The two services are module-level singletons; their fields, the
      brokerage gateway, the armed interval timers and the observable trace
      (log lines, gateway requests, sleeps) form the [World] that every
      operation threads through.
    - A JavaScript exception is the [Thrown] outcome; [try]/[catch] is
      [try_catch]. *)

From Stdlib Require Import ZArith QArith Qround Qminmax Qabs Lqa Lia.
From Stdlib Require Import List String Ascii Bool.
Import ListNotations.

Open Scope Q_scope.

(** ** Numbers *)

(** [x < y] on numbers, as a boolean. *)
Definition Qltb (x y : Q) : bool := negb (Qle_bool y x).

(** [x >= y] on numbers, as a boolean. *)
Definition Qgeb (x y : Q) : bool := Qle_bool y x.

(** Truthiness of a number in an [if (x)] test: everything but zero. *)
Definition truthy (x : Q) : bool := negb (Qeq_bool x 0).

Definition Math_floor (x : Q) : Z := Qfloor x.

(** ** The runtime *)

Record Platform := {
  (** [Math.sin] *)
  Math_sin : Q -> Q;
  (** [x.toFixed(digits)] *)
  toFixed : nat -> Q -> string;
  (** a number inside a template literal *)
  Number_toString : Q -> string;
  (** [`${Date.now()}_${Math.random().toString(36).substr(2, 9)}`] *)
  unique_suffix : Z -> Q -> string
}.

(** [Math.sin] stays within [-1, 1]. *)
Definition sin_bounded (P : Platform) : Prop :=
  forall x, -1 <= Math_sin P x <= 1.

(** ** Data *)

Inductive SignalKind := BUY | SELL | HOLD.

Definition SignalKind_eqb (a b : SignalKind) : bool :=
  match a, b with
  | BUY, BUY | SELL, SELL | HOLD, HOLD => true
  | _, _ => false
  end.

(** The string held by [signal.signal]. *)
Definition kind_name (k : SignalKind) : string :=
  match k with BUY => "BUY" | SELL => "SELL" | HOLD => "HOLD" end.

(** [signal.signal.toLowerCase()] *)
Definition toLowerCase (k : SignalKind) : string :=
  match k with BUY => "buy" | SELL => "sell" | HOLD => "hold" end.

(** The object returned by [generateMockIndicators].  The copy stored in a
    signal has no [isMockData] field; it is [false] there. *)
Record Indicators := {
  rsi : Q;
  sma20 : Q;
  sma50 : Q;
  currentPrice : Q;
  isMockData : bool
}.

Record Signal := {
  symbol : string;
  signal : SignalKind;
  confidence : Q;
  reason : string;
  indicators : option Indicators;   (* absent in the error record *)
  timestamp : Z;
  shouldExecute : bool
}.

(** An open order as the gateway reports it. *)
Record Order := {
  order_id : string;
  order_symbol : string;
  order_side : string
}.

(** The body of [POST /v2/orders]. *)
Record OrderData := {
  od_symbol : string;
  od_qty : Z;
  od_side : string;
  od_type : string;
  od_time_in_force : string;
  od_client_order_id : string
}.

(** What [executeTradeFromSignal] returns; a field the object literal does
    not have is [None]. *)
Record TradeResult := {
  success : bool;
  orderId : option string;
  error : option string;
  result_signal : Signal;
  positionSize : option Z
}.

(** The argument of [updateParameters]; a field left out is [None]. *)
Record Params := {
  param_symbols : option (list string);
  param_maxPositionSize : option Q;
  param_minConfidence : option Q
}.

(** The object [getStatus] returns. *)
Record Status := {
  status_isRunning : bool;
  status_watchedSymbols : list string;
  status_maxPositionSize : Q;
  status_minConfidence : Q;
  status_nextCheck : string
}.

(** The JSON body of [POST /api/automation/start]. *)
Record StartBody := {
  body_symbols : option (list string);
  body_intervalMinutes : option Z
}.

(** The HTTP answer of a route: status code and the [success] flag. *)
Record Response := {
  http_status : nat;
  http_success : bool;
  http_message : string
}.

(** Fields of the [SignalGenerator] singleton. *)
Module SG.
Record state := {
  rsiOversold : Q;
  rsiOverbought : Q;
  minConfidence : Q
}.
(** The constructor. *)
Definition init : state :=
  {| rsiOversold := 30; rsiOverbought := 70; minConfidence := 6 # 10 |}.
End SG.

(** Fields of the [AutomatedTrader] singleton. *)
Module AT.
Record state := {
  isRunning : bool;
  tradingInterval : option nat;     (* the handle of [setInterval] *)
  watchedSymbols : list string;
  maxPositionSize : Q;
  minConfidence : Q
}.
(** The constructor. *)
Definition init : state :=
  {| isRunning := false;
     tradingInterval := None;
     watchedSymbols := ["AAPL"; "MSFT"; "GOOGL"; "TSLA"; "SPY"]%string;
     maxPositionSize := 10;
     minConfidence := 7 # 10 |}.
(** Assignments to one field of [this]. *)
Definition set_isRunning (b : bool) (t : state) : state :=
  {| isRunning := b; tradingInterval := tradingInterval t;
     watchedSymbols := watchedSymbols t;
     maxPositionSize := maxPositionSize t; minConfidence := minConfidence t |}.
Definition set_tradingInterval (h : option nat) (t : state) : state :=
  {| isRunning := isRunning t; tradingInterval := h;
     watchedSymbols := watchedSymbols t;
     maxPositionSize := maxPositionSize t; minConfidence := minConfidence t |}.
Definition set_watchedSymbols (l : list string) (t : state) : state :=
  {| isRunning := isRunning t; tradingInterval := tradingInterval t;
     watchedSymbols := l;
     maxPositionSize := maxPositionSize t; minConfidence := minConfidence t |}.
Definition set_maxPositionSize (m : Q) (t : state) : state :=
  {| isRunning := isRunning t; tradingInterval := tradingInterval t;
     watchedSymbols := watchedSymbols t;
     maxPositionSize := m; minConfidence := minConfidence t |}.
Definition set_minConfidence (c : Q) (t : state) : state :=
  {| isRunning := isRunning t; tradingInterval := tradingInterval t;
     watchedSymbols := watchedSymbols t;
     maxPositionSize := maxPositionSize t; minConfidence := c |}.
End AT.

(** ** Signal generator: the pure parts *)

(** [symbol.split('').reduce((a, b) => a + b.charCodeAt(0), 0)] *)
Definition symbolHash (s : string) : Z :=
  fold_left (fun a b => (a + Z.of_nat (nat_of_ascii b))%Z)
            (list_ascii_of_string s) 0%Z.

(** [Math.floor(Date.now() / period)] *)
Definition timeBucket (now period : Z) : Z := (now / period)%Z.

Definition FIVE_MINUTES : Z := (1000 * 60 * 5)%Z.
Definition THREE_MINUTES : Z := (1000 * 60 * 3)%Z.

(** [generateMockIndicators], given the reading of [Date.now()] and the two
    draws of [Math.random()] it makes ([r20] for [sma20], then [r50]). *)
Definition generateMockIndicators (P : Platform) (now : Z) (r20 r50 : Q)
    (sym : string) : Indicators :=
  let timeBasedSeed := timeBucket now FIVE_MINUTES in
  let seed := Z.rem (timeBasedSeed + symbolHash sym) 1000 in
  let rsi0 := 20 + inject_Z (Z.rem seed 60)
              + Math_sin P (inject_Z seed * (1 # 10)) * 10 in
  let basePrice := 100 + inject_Z (Z.rem seed 100) in
  let price := basePrice + Math_sin P (inject_Z seed * (5 # 100)) * 20 in
  {| rsi := Qmax 0 (Qmin 100 rsi0);
     sma20 := price + (r20 - (1 # 2)) * 10;
     sma50 := price + (r50 - (1 # 2)) * 15;
     currentPrice := price;
     isMockData := true |}.

Definition calculateBuyConfidence (g : SG.state) (ind : Indicators) : Q :=
  let c0 := 6 # 10 in
  let rsiStrength := (SG.rsiOversold g - rsi ind) / SG.rsiOversold g in
  let c1 := c0 + rsiStrength * (3 # 10) in
  let c2 := if Qltb (sma20 ind) (currentPrice ind) then c1 + (1 # 10) else c1 in
  let c3 := if Qltb (sma50 ind) (sma20 ind) then c2 + (1 # 10) else c2 in
  Qmin c3 1.

Definition calculateSellConfidence (g : SG.state) (ind : Indicators) : Q :=
  let c0 := 6 # 10 in
  let rsiStrength :=
    (rsi ind - SG.rsiOverbought g) / (100 - SG.rsiOverbought g) in
  let c1 := c0 + rsiStrength * (3 # 10) in
  let c2 := if Qltb (currentPrice ind) (sma20 ind) then c1 + (1 # 10) else c1 in
  let c3 := if Qltb (sma20 ind) (sma50 ind) then c2 + (1 # 10) else c2 in
  Qmin c3 1.

(** [getPositionSize(confidence, maxPosition)] *)
Definition getPositionSize (conf maxPosition : Q) : Z :=
  let baseSize := Math_floor (conf * maxPosition) in
  Z.max 1 baseSize.

(** ** The world and the effects *)

Inductive level := Info | Warn | Error.

(** What an observer of the process sees, in order. *)
Inductive event :=
| EvLog (lvl : level) (text : string) (args : list string)
| EvGetOrders (sym : string)          (* GET /v2/orders?status=open&symbol=.. *)
| EvCancelOrder (id : string)         (* DELETE /v2/orders/:id *)
| EvSubmitOrder (od : OrderData)      (* POST /v2/orders *)
| EvSleep (ms : Z)                    (* await of a setTimeout promise *)
| EvSetInterval (handle : nat) (ms : Z)
| EvClearInterval (handle : nat).

Inductive outcome (A : Type) :=
| Returned (a : A)
| Thrown (message : string).
Arguments Returned {A} a.
Arguments Thrown {A} message.

(** The brokerage client ([config/alpaca.js]): every call either answers or
    rejects with an error message, and may change the broker's state [G]. *)
Record Gateway (G : Type) := {
  get_open_orders : string -> G -> outcome (list Order) * G;
  delete_order : string -> G -> outcome unit * G;
  post_order : OrderData -> G -> outcome string * G   (* [response.data.id] *)
}.
Arguments get_open_orders {G} _ _ _.
Arguments delete_order {G} _ _ _.
Arguments post_order {G} _ _ _.

Record World (G : Type) := {
  broker : G;
  trace : list event;
  trader : AT.state;
  generator : SG.state;
  timers : list (nat * Z);            (* armed intervals: handle, period in ms *)
  next_handle : nat;
  clock : nat -> Z;                   (* successive readings of [Date.now()] *)
  clock_reads : nat;
  dice : nat -> Q;                    (* successive draws of [Math.random()] *)
  dice_rolls : nat
}.
Arguments broker {G} _.
Arguments trace {G} _.
Arguments trader {G} _.
Arguments generator {G} _.
Arguments timers {G} _.
Arguments next_handle {G} _.
Arguments clock {G} _.
Arguments clock_reads {G} _.
Arguments dice {G} _.
Arguments dice_rolls {G} _.

Section Effects.
Context {G : Type}.

Definition M (A : Type) : Type := World G -> outcome A * World G.

Definition ret {A} (a : A) : M A := fun w => (Returned a, w).

Definition bind {A B} (m : M A) (k : A -> M B) : M B :=
  fun w => match m w with
           | (Returned a, w') => k a w'
           | (Thrown e, w') => (Thrown e, w')
           end.

Definition throw {A} (e : string) : M A := fun w => (Thrown e, w).

(** [try { body } catch (error) { handler(error.message) }] *)
Definition try_catch {A} (body : M A) (handler : string -> M A) : M A :=
  fun w => match body w with
           | (Returned a, w') => (Returned a, w')
           | (Thrown e, w') => handler e w'
           end.

Definition with_trace (tr : list event) (w : World G) : World G :=
  {| broker := broker w; trace := tr; trader := trader w;
     generator := generator w; timers := timers w;
     next_handle := next_handle w; clock := clock w;
     clock_reads := clock_reads w; dice := dice w;
     dice_rolls := dice_rolls w |}.

Definition with_broker (g : G) (w : World G) : World G :=
  {| broker := g; trace := trace w; trader := trader w;
     generator := generator w; timers := timers w;
     next_handle := next_handle w; clock := clock w;
     clock_reads := clock_reads w; dice := dice w;
     dice_rolls := dice_rolls w |}.

Definition with_trader (t : AT.state) (w : World G) : World G :=
  {| broker := broker w; trace := trace w; trader := t;
     generator := generator w; timers := timers w;
     next_handle := next_handle w; clock := clock w;
     clock_reads := clock_reads w; dice := dice w;
     dice_rolls := dice_rolls w |}.

Definition with_generator (g : SG.state) (w : World G) : World G :=
  {| broker := broker w; trace := trace w; trader := trader w;
     generator := g; timers := timers w;
     next_handle := next_handle w; clock := clock w;
     clock_reads := clock_reads w; dice := dice w;
     dice_rolls := dice_rolls w |}.

Definition with_timers (ts : list (nat * Z)) (n : nat) (w : World G)
    : World G :=
  {| broker := broker w; trace := trace w; trader := trader w;
     generator := generator w; timers := ts;
     next_handle := n; clock := clock w;
     clock_reads := clock_reads w; dice := dice w;
     dice_rolls := dice_rolls w |}.

Definition emit (e : event) : M unit :=
  fun w => (Returned tt, with_trace (trace w ++ [e]) w).

Definition log (lvl : level) (text : string) (args : list string) : M unit :=
  emit (EvLog lvl text args).

(** [await new Promise(resolve => setTimeout(resolve, ms))] *)
Definition sleep (ms : Z) : M unit := emit (EvSleep ms).

Definition Date_now : M Z :=
  fun w => (Returned (clock w (clock_reads w)),
            {| broker := broker w; trace := trace w; trader := trader w;
               generator := generator w; timers := timers w;
               next_handle := next_handle w; clock := clock w;
               clock_reads := S (clock_reads w); dice := dice w;
               dice_rolls := dice_rolls w |}).

Definition Math_random : M Q :=
  fun w => (Returned (dice w (dice_rolls w)),
            {| broker := broker w; trace := trace w; trader := trader w;
               generator := generator w; timers := timers w;
               next_handle := next_handle w; clock := clock w;
               clock_reads := clock_reads w; dice := dice w;
               dice_rolls := S (dice_rolls w) |}).

Definition this_trader : M AT.state := fun w => (Returned (trader w), w).
Definition set_trader (t : AT.state) : M unit :=
  fun w => (Returned tt, with_trader t w).
Definition this_generator : M SG.state :=
  fun w => (Returned (generator w), w).
Definition set_generator (g : SG.state) : M unit :=
  fun w => (Returned tt, with_generator g w).

(** [setInterval(callback, ms)]: a fresh handle, armed. *)
Definition setInterval (ms : Z) : M nat :=
  fun w => let h := next_handle w in
           (Returned h,
            with_trace (trace w ++ [EvSetInterval h ms])
              (with_timers (timers w ++ [(h, ms)]) (S h) w)).

(** [clearInterval(handle)] *)
Definition clearInterval (h : nat) : M unit :=
  fun w => (Returned tt,
            with_trace (trace w ++ [EvClearInterval h])
              (with_timers
                 (filter (fun t => negb (Nat.eqb (fst t) h)) (timers w))
                 (next_handle w) w)).

(** A call of the gateway: the request is observed, then the broker
    answers or rejects. *)
Definition call {A} (e : event) (f : G -> outcome A * G) : M A :=
  fun w => let w1 := with_trace (trace w ++ [e]) w in
           let (r, g) := f (broker w1) in (r, with_broker g w1).

(** [for (const x of xs) { await body(x) }] *)
Fixpoint for_each {A} (xs : list A) (body : A -> M unit) : M unit :=
  match xs with
  | [] => ret tt
  | x :: rest => bind (body x) (fun _ => for_each rest body)
  end.
End Effects.

Declare Scope js_scope.
Delimit Scope js_scope with js.
Notation "x <- m ;; k" := (bind m (fun x => k))
  (at level 61, m at next level, right associativity) : js_scope.
Notation "m ;; k" := (bind m (fun _ => k))
  (at level 61, right associativity) : js_scope.
Open Scope js_scope.
Open Scope string_scope.

(** ** services/signalGenerator.js *)

Section Services.
Context {G : Type} (P : Platform) (alpaca : Gateway G).

(** [updateRSIThresholds(oversold, overbought)] *)
Definition updateRSIThresholds (oversold overbought : Q) : M (G:=G) unit :=
  g <- this_generator ;;
  set_generator {| SG.rsiOversold := oversold;
                   SG.rsiOverbought := overbought;
                   SG.minConfidence := SG.minConfidence g |} ;;
  log Info ("RSI thresholds updated: oversold=" ++ Number_toString P oversold
            ++ ", overbought=" ++ Number_toString P overbought) [].

(** [this.generateMockIndicators(symbol)] inside the process: one reading of
    the clock, two draws. *)
Definition mockIndicators (sym : string) : M (G:=G) Indicators :=
  now <- Date_now ;;
  r20 <- Math_random ;;
  r50 <- Math_random ;;
  ret (generateMockIndicators P now r20 r50 sym).

(** The body of [generateRSISignal]'s [try] block from the indicators on:
    the RSI decision, the optional test signal for mock data, the
    moving-average confirmation and the result object. *)
Definition signalFromIndicators (sym : string) (ind : Indicators)
    : M (G:=G) Signal :=
  g <- this_generator ;;
  let shown := toFixed P 2 (rsi ind) in
  decision <-
    (if Qltb (rsi ind) (SG.rsiOversold g) then
       ret (BUY, calculateBuyConfidence g ind,
            "RSI oversold (" ++ shown ++ " < "
              ++ Number_toString P (SG.rsiOversold g) ++ ")")
     else if Qltb (SG.rsiOverbought g) (rsi ind) then
       ret (SELL, calculateSellConfidence g ind,
            "RSI overbought (" ++ shown ++ " > "
              ++ Number_toString P (SG.rsiOverbought g) ++ ")")
     else
       let neutral := "RSI neutral (" ++ shown ++ ")" in
       if isMockData ind then
         now <- Date_now ;;
         let timeBasedSeed := timeBucket now THREE_MINUTES in
         let randomFactor :=
           inject_Z (Z.rem (timeBasedSeed + symbolHash sym) 100) / 100 in
         if Qltb randomFactor (25 # 100) then
           if Qltb randomFactor (125 # 1000) then
             ret (BUY, (5 # 10) + randomFactor * (3 # 10),
                  "Mock BUY signal for testing (RSI: " ++ shown ++ ")")
           else
             ret (SELL, (5 # 10) + (randomFactor - (125 # 1000)) * (24 # 10),
                  "Mock SELL signal for testing (RSI: " ++ shown ++ ")")
         else ret (HOLD, 0, neutral)
       else ret (HOLD, 0, neutral)) ;;
  let '(sig, conf0, reason0) := decision in
  let '(conf, rsn) :=
    match sig with
    | BUY => if Qltb (sma20 ind) (currentPrice ind)
             then (conf0 + (1 # 10), reason0 ++ " + Price above SMA20")
             else (conf0, reason0)
    | SELL => if Qltb (currentPrice ind) (sma20 ind)
              then (conf0 + (1 # 10), reason0 ++ " + Price below SMA20")
              else (conf0, reason0)
    | HOLD => (conf0, reason0)
    end in
  now <- Date_now ;;
  let result :=
    {| symbol := sym;
       signal := sig;
       confidence := Qmin conf 1;
       reason := rsn;
       indicators := Some {| rsi := rsi ind; sma20 := sma20 ind;
                             sma50 := sma50 ind;
                             currentPrice := currentPrice ind;
                             isMockData := false |};
       timestamp := now;
       shouldExecute := Qgeb conf (SG.minConfidence g) |} in
  log Info ("RSI Signal for " ++ sym ++ ": " ++ kind_name sig
            ++ " (confidence: " ++ toFixed P 1 (conf * 100) ++ "%)") [] ;;
  ret result.

(** The record both [catch] blocks of the generator build. *)
Definition errorSignal (sym : string) (message : string) : M (G:=G) Signal :=
  now <- Date_now ;;
  ret {| symbol := sym; signal := HOLD; confidence := 0;
         reason := "Error: " ++ message; indicators := None;
         timestamp := now; shouldExecute := false |}.

(** [generateRSISignal(symbol)] *)
Definition generateRSISignal (sym : string) : M (G:=G) Signal :=
  try_catch
    (log Info ("Generating RSI signal for " ++ sym) [] ;;
     ind <- mockIndicators sym ;;
     signalFromIndicators sym ind)
    (fun message =>
       log Error ("Error generating RSI signal for " ++ sym ++ ":") [message] ;;
       errorSignal sym message).

(** [generateSignalsForSymbols(symbols)]: the loop, with the array built so
    far. *)
Fixpoint collectSignals (symbols : list string) (signals : list Signal)
    : M (G:=G) (list Signal) :=
  match symbols with
  | [] => ret signals
  | sym :: rest =>
      signals' <-
        try_catch
          (s <- generateRSISignal sym ;;
           sleep 100 ;;
           ret (signals ++ [s])%list)
          (fun message =>
             log Error ("Error processing " ++ sym ++ ":") [message] ;;
             s <- errorSignal sym message ;;
             ret (signals ++ [s])%list) ;;
      collectSignals rest signals'
  end.

Definition generateSignalsForSymbols (symbols : list string)
    : M (G:=G) (list Signal) :=
  collectSignals symbols [].

(** ** services/automatedTrader.js *)

(** A number that is an integer, inside a template literal. *)
Definition show_Z (n : Z) : string := Number_toString P (inject_Z n).
Definition show_nat (n : nat) : string := show_Z (Z.of_nat n).

(** [alpaca.get('/v2/orders', {params: {status: 'open', symbol}})], then
    [.data] *)
Definition alpaca_get_orders (sym : string) : M (G:=G) (list Order) :=
  call (EvGetOrders sym) (get_open_orders alpaca sym).

(** [alpaca.delete(`/v2/orders/${id}`)] *)
Definition alpaca_delete_order (id : string) : M (G:=G) unit :=
  call (EvCancelOrder id) (delete_order alpaca id).

(** [alpaca.post('/v2/orders', orderData)], then [.data.id] *)
Definition alpaca_post_order (od : OrderData) : M (G:=G) string :=
  call (EvSubmitOrder od) (post_order alpaca od).

(** The predicate of [existingOrders.filter]. *)
Definition oppositeSide (sig : Signal) (order : Order) : bool :=
  negb (String.eqb (order_side order) (toLowerCase (signal sig))).

(** One turn of the cancellation loop, with its own [try]/[catch]. *)
Definition cancelOrder (sig : Signal) (order : Order) : M (G:=G) unit :=
  try_catch
    (alpaca_delete_order (order_id order) ;;
     log Info ("Cancelled order " ++ order_id order ++ " for " ++ symbol sig) [])
    (fun message =>
       log Warn ("Failed to cancel order " ++ order_id order ++ ":") [message]).

(** [executeTradeFromSignal(signal)] *)
Definition executeTradeFromSignal (sig : Signal) : M (G:=G) TradeResult :=
  try_catch
    (t <- this_trader ;;
     let size := getPositionSize (confidence sig) (AT.maxPositionSize t) in
     log Info ("Executing " ++ kind_name (signal sig) ++ " order for "
               ++ show_Z size ++ " shares of " ++ symbol sig
               ++ " (confidence: " ++ toFixed P 1 (confidence sig * 100)
               ++ "%)") [] ;;
     existingOrders <- alpaca_get_orders (symbol sig) ;;
     let oppositeSideOrders := filter (oppositeSide sig) existingOrders in
     (if (0 <? List.length oppositeSideOrders)%nat then
        log Info ("Cancelling " ++ show_nat (List.length oppositeSideOrders)
                  ++ " opposite side orders for " ++ symbol sig
                  ++ " to prevent wash trade") [] ;;
        for_each oppositeSideOrders (cancelOrder sig) ;;
        sleep 1000
      else ret tt) ;;
     now <- Date_now ;;
     r <- Math_random ;;
     let orderData :=
       {| od_symbol := symbol sig;
          od_qty := size;
          od_side := toLowerCase (signal sig);
          od_type := "market";
          od_time_in_force := "day";
          od_client_order_id := "automation_" ++ unique_suffix P now r |} in
     id <- alpaca_post_order orderData ;;
     log Info "Order placed successfully:"
         [id; symbol sig; kind_name (signal sig); show_Z size;
          Number_toString P (confidence sig); reason sig] ;;
     ret {| success := true; orderId := Some id; error := None;
            result_signal := sig; positionSize := Some size |})
    (fun message =>
       log Error ("Failed to execute trade for " ++ symbol sig ++ ":")
           [message] ;;
       ret {| success := false; orderId := None; error := Some message;
              result_signal := sig; positionSize := None |}).

(** The predicate of [signals.filter] in [checkAndExecuteTrades]. *)
Definition executable (t : AT.state) (s : Signal) : bool :=
  shouldExecute s
  && Qgeb (confidence s) (AT.minConfidence t)
  && negb (SignalKind_eqb (signal s) HOLD).

(** [checkAndExecuteTrades()] *)
Definition checkAndExecuteTrades : M (G:=G) unit :=
  try_catch
    (log Info "Checking trading signals..." [] ;;
     t <- this_trader ;;
     signals <- generateSignalsForSymbols (AT.watchedSymbols t) ;;
     t <- this_trader ;;
     let executableSignals := filter (executable t) signals in
     log Info ("Found " ++ show_nat (List.length executableSignals)
               ++ " executable signals out of " ++ show_nat (List.length signals)
               ++ " total") [] ;;
     for_each executableSignals
       (fun s => executeTradeFromSignal s ;; sleep 1000) ;;
     let buySignals :=
       List.length (filter (fun s => SignalKind_eqb (signal s) BUY)
                      executableSignals) in
     let sellSignals :=
       List.length (filter (fun s => SignalKind_eqb (signal s) SELL)
                      executableSignals) in
     log Info ("Trading cycle complete: " ++ show_nat buySignals
               ++ " BUY signals, " ++ show_nat sellSignals
               ++ " SELL signals") [])
    (fun message => log Error "Error in automated trading cycle:" [message]).

(** [startTrading] up to its first [await]: the test of [isRunning], the
    watchlist, the flag.  Answers whether the call goes on. *)
Definition startTrading_enter (symbols : option (list string))
    (intervalMinutes : Z) : M (G:=G) bool :=
  t <- this_trader ;;
  if AT.isRunning t then
    log Warn "Automated trading is already running" [] ;;
    ret false
  else
    (match symbols with
     | Some l => set_trader (AT.set_watchedSymbols l t)
     | None => ret tt
     end) ;;
    t <- this_trader ;;
    set_trader (AT.set_isRunning true t) ;;
    t <- this_trader ;;
    log Info ("Starting automated trading for symbols: "
              ++ String.concat ", " (AT.watchedSymbols t)) [] ;;
    log Info ("Check interval: " ++ show_Z intervalMinutes ++ " minutes") [] ;;
    ret true.

(** [startTrading] after the awaited first cycle: the interval is armed
    and its handle kept. *)
Definition startTrading_arm (intervalMinutes : Z) : M (G:=G) unit :=
  h <- setInterval (intervalMinutes * 60 * 1000)%Z ;;
  t <- this_trader ;;
  set_trader (AT.set_tradingInterval (Some h) t) ;;
  log Info "Automated trading started successfully" [].

(** [startTrading(symbols = null, intervalMinutes = 10)] *)
Definition startTrading (symbols : option (list string)) (intervalMinutes : Z)
    : M (G:=G) unit :=
  go <- startTrading_enter symbols intervalMinutes ;;
  if go : bool then
    checkAndExecuteTrades ;;
    startTrading_arm intervalMinutes
  else ret tt.

(** [stopTrading()] *)
Definition stopTrading : M (G:=G) unit :=
  t <- this_trader ;;
  if negb (AT.isRunning t) then
    log Warn "Automated trading is not running" []
  else
    set_trader (AT.set_isRunning false t) ;;
    t <- this_trader ;;
    (match AT.tradingInterval t with
     | Some h =>
         clearInterval h ;;
         t <- this_trader ;;
         set_trader (AT.set_tradingInterval None t)
     | None => ret tt
     end) ;;
    log Info "Automated trading stopped" [].

(** The callback given to [setInterval], run when the timer [h] fires. *)
Definition timer_fires (h : nat) : M (G:=G) unit :=
  fun w => if existsb (fun t => Nat.eqb (fst t) h) (timers w)
           then checkAndExecuteTrades w
           else (Returned tt, w).

(** [getStatus()] *)
Definition getStatus : M (G:=G) Status :=
  t <- this_trader ;;
  ret {| status_isRunning := AT.isRunning t;
         status_watchedSymbols := AT.watchedSymbols t;
         status_maxPositionSize := AT.maxPositionSize t;
         status_minConfidence := AT.minConfidence t;
         status_nextCheck :=
           match AT.tradingInterval t with
           | Some _ => "Running"
           | None => "Stopped"
           end |}.

(** [updateParameters(params)] *)
Definition updateParameters (params : Params) : M (G:=G) unit :=
  t0 <- this_trader ;;
  let '(t1, updated1) :=
    match param_symbols params with
    | Some l => (AT.set_watchedSymbols l t0, true)   (* an array is truthy *)
    | None => (t0, false)
    end in
  let '(t2, updated2) :=
    match param_maxPositionSize params with
    | Some m => if truthy m then (AT.set_maxPositionSize m t1, true)
                else (t1, updated1)
    | None => (t1, updated1)
    end in
  let '(t3, updated) :=
    match param_minConfidence params with
    | Some c => if truthy c then (AT.set_minConfidence c t2, true)
                else (t2, updated2)
    | None => (t2, updated2)
    end in
  set_trader t3 ;;
  if updated : bool then
    log Info "Trading parameters updated:"
        [String.concat "," (AT.watchedSymbols t3);
         Number_toString P (AT.maxPositionSize t3);
         Number_toString P (AT.minConfidence t3)] ;;
    if AT.isRunning t3 then
      log Info "New parameters will be applied in the next trading cycle" []
    else ret tt
  else ret tt.

(** ** routes/automation.js *)

(** [isInt({ min: 1, max: 1440 })] on an optional field. *)
Definition valid_intervalMinutes (i : option Z) : bool :=
  match i with
  | Some n => (1 <=? n)%Z && (n <=? 1440)%Z
  | None => true
  end.

(** [POST /api/automation/start] *)
Definition post_start (body : StartBody) : M (G:=G) Response :=
  try_catch
    (if negb (valid_intervalMinutes (body_intervalMinutes body)) then
       ret {| http_status := 400; http_success := false;
              http_message := "Validation failed" |}
     else
       let intervalMinutes :=
         match body_intervalMinutes body with Some n => n | None => 10%Z end in
       startTrading (body_symbols body) intervalMinutes ;;
       ret {| http_status := 200; http_success := true;
              http_message := "Automated trading started successfully" |})
    (fun message =>
       log Error "Error starting automated trading:" [message] ;;
       ret {| http_status := 500; http_success := false;
              http_message := "Failed to start automated trading" |}).

End Services.

Arguments M : clear implicits.

(** ** Concrete runtimes, brokers and worlds, to run the model on *)

(** A runtime with a flat sine that renders every number as ["#"]. *)
Definition flat_runtime : Platform :=
  {| Math_sin := fun _ => 0;
     toFixed := fun _ _ => "#";
     Number_toString := fun _ => "#";
     unique_suffix := fun _ _ => "#" |}.

(** A small broker: its open orders, the ids whose cancellation it rejects,
    and whether it is reachable at all. *)
Record Book := {
  open_orders : list Order;
  frozen : list string;
  offline : bool
}.

Definition book_gateway : Gateway Book :=
  {| get_open_orders := fun sym b =>
       if offline b then (Thrown "Network Error", b)
       else (Returned (filter (fun o => String.eqb (order_symbol o) sym)
                              (open_orders b)), b);
     delete_order := fun id b =>
       if existsb (String.eqb id) (frozen b)
       then (Thrown "order is not cancelable", b)
       else (Returned tt,
             {| open_orders :=
                  filter (fun o => negb (String.eqb (order_id o) id))
                         (open_orders b);
                frozen := frozen b; offline := offline b |});
     post_order := fun od b =>
       if offline b then (Thrown "Network Error", b)
       else (Returned ("order:" ++ od_client_order_id od), b) |}.

(** The process right after both modules are loaded. *)
Definition boot {G : Type} (g : G) (clock : nat -> Z) (dice : nat -> Q)
    : World G :=
  {| broker := g; trace := []; trader := AT.init; generator := SG.init;
     timers := []; next_handle := 0%nat;
     clock := clock; clock_reads := 0%nat;
     dice := dice; dice_rolls := 0%nat |}.

Definition empty_book : Book :=
  {| open_orders := []; frozen := []; offline := false |}.

(** The indicator values of the spec's worked example. *)
Definition example_indicators : Indicators :=
  {| rsi := 25; sma20 := 110; sma50 := 100; currentPrice := 112;
     isMockData := false |}.

(** ** Vocabulary of the statements *)

(** What a call leaves alone unless it is one of the loop's own operations:
    both services' fields, the armed timers and the input tapes; and it only
    ever adds to the trace. *)
Definition steady {G : Type} (w w' : World G) : Prop :=
  trader w' = trader w /\ generator w' = generator w
  /\ timers w' = timers w /\ next_handle w' = next_handle w
  /\ clock w' = clock w /\ dice w' = dice w
  /\ exists seg, trace w' = (trace w ++ seg)%list.

(** A computation that keeps the world steady, and one that never throws. *)
Definition calm {G A : Type} (m : M G A) : Prop :=
  forall w, steady w (snd (m w)).
Definition total {G A : Type} (m : M G A) : Prop :=
  forall w, exists a, fst (m w) = Returned a.

(** The events of a cancellation pass over [orders]: each order gets its
    request, followed by the line logged on success or by the warning logged
    on failure, and the pass goes on either way. *)
Inductive cancel_pass (sig : Signal) : list Order -> list event -> Prop :=
| pass_done : cancel_pass sig [] []
| pass_cancelled (o : Order) (rest : list Order) (evs : list event) :
    cancel_pass sig rest evs ->
    cancel_pass sig (o :: rest)
      (EvCancelOrder (order_id o)
       :: EvLog Info ("Cancelled order " ++ order_id o ++ " for " ++ symbol sig)
                []
       :: evs)
| pass_failed (o : Order) (message : string) (rest : list Order)
    (evs : list event) :
    cancel_pass sig rest evs ->
    cancel_pass sig (o :: rest)
      (EvCancelOrder (order_id o)
       :: EvLog Warn ("Failed to cancel order " ++ order_id o ++ ":") [message]
       :: evs).

(** The cancel requests among some events, in order. *)
Definition cancel_requests (evs : list event) : list string :=
  flat_map (fun e => match e with EvCancelOrder id => [id] | _ => [] end) evs.

(** What [executeTradeFromSignal] puts on the trace between reading the open
    orders and submitting: nothing when no order is on the opposite side;
    otherwise the announcement, the pass and the settle delay. *)
Definition cancellation_segment (P : Platform) (sig : Signal)
    (opp : list Order) (cancels : list event) : list event :=
  match opp with
  | [] => []
  | _ :: _ =>
      (EvLog Info ("Cancelling " ++ show_nat P (List.length opp)
                  ++ " opposite side orders for " ++ symbol sig
                  ++ " to prevent wash trade") []
      :: cancels ++ [EvSleep 1000])%list
  end.

(** The record of the [catch] block of [executeTradeFromSignal]. *)
Definition failed (sig : Signal) (message : string) : TradeResult :=
  {| success := false; orderId := None; error := Some message;
     result_signal := sig; positionSize := None |}.

(** A BUY signal for symbol ["X"] at confidence 0.9. *)
Definition buy_X : Signal :=
  {| symbol := "X"; signal := BUY; confidence := 9 # 10;
     reason := "RSI oversold"; indicators := None; timestamp := 0;
     shouldExecute := true |}.

(** A book with two open SELL orders and one open BUY order for ["X"]; the
    broker refuses to cancel the second SELL. *)
Definition book_X : Book :=
  {| open_orders :=
       [ {| order_id := "s1"; order_symbol := "X"; order_side := "sell" |};
         {| order_id := "s2"; order_symbol := "X"; order_side := "sell" |};
         {| order_id := "b1"; order_symbol := "X"; order_side := "buy" |} ];
     frozen := ["s2"];
     offline := false |}.

(** A broker that cannot be reached. *)
Definition unreachable : Book :=
  {| open_orders := []; frozen := []; offline := true |}.

(** An event that is a submission of a new order. *)
Definition is_submit (e : event) : bool :=
  match e with EvSubmitOrder _ => true | _ => false end.

(** The interval as the spec words it, clamped to [1, 1440] minutes; only
    for comparison with what the code arms. *)
Definition spec_clamped_interval (n : Z) : Z := Z.max 1 (Z.min 1440 n).

(** Flag, handle and armed timers agree: a handle is held exactly while
    running, and the armed timers are exactly the one held. *)
Definition consistent {G : Type} (w : World G) : Prop :=
  match AT.tradingInterval (trader w) with
  | Some h => AT.isRunning (trader w) = true
              /\ exists ms, timers w = [(h, ms)]
  | None => AT.isRunning (trader w) = false /\ timers w = []
  end.

(** The calls a client of the loop can make, each run to completion. *)
Inductive request :=
| Start (symbols : option (list string)) (intervalMinutes : Z)
| Stop
| Update (params : Params)
| Check
| Tick (handle : nat).

(** Since the world [w0], the event [e] has been observed. *)
Definition since {G : Type} (w0 : World G) (e : event) (w : World G) : Prop :=
  exists a b, trace w = (trace w0 ++ a ++ e :: b)%list.

Section Requests.
Context {G : Type} (P : Platform) (alpaca : Gateway G).

Definition serve (r : request) : M G unit :=
  match r with
  | Start symbols n => startTrading P alpaca symbols n
  | Stop => stopTrading
  | Update params => updateParameters P params
  | Check => checkAndExecuteTrades P alpaca
  | Tick h => timer_fires P alpaca h
  end.

(** [start] is suspended in its awaited first cycle when [stop] is served;
    the cycle ends, [start] resumes and arms its timer; [start] is called
    again. *)
Definition stop_during_first_cycle (n n' : Z) : M G unit :=
  _ <- startTrading_enter P None n ;;
  stopTrading ;;
  checkAndExecuteTrades P alpaca ;;
  startTrading_arm n ;;
  startTrading P alpaca None n'.

End Requests.

(** The thresholds the spec calls valid. *)
Definition valid_thresholds (g : SG.state) : Prop :=
  0 <= SG.rsiOversold g /\ SG.rsiOversold g < SG.rsiOverbought g
  /\ SG.rsiOverbought g <= 100
  /\ 0 <= SG.minConfidence g /\ SG.minConfidence g <= 1.

(** [0.1] when the comparison holds, nothing otherwise. *)
Definition boost (b : bool) : Q := if b then 1 # 10 else 0.

(** The moving-average confirmation added at the end of [generateRSISignal]. *)
Definition confirmed (k : SignalKind) (ind : Indicators) (c : Q) : Q :=
  match k with
  | BUY => if Qltb (sma20 ind) (currentPrice ind) then c + (1 # 10) else c
  | SELL => if Qltb (currentPrice ind) (sma20 ind) then c + (1 # 10) else c
  | HOLD => c
  end.

(** ** Vocabulary for the orders of a cycle *)

(** A computation whose new events all satisfy [Q]. *)
Definition emits {G A : Type} (Q : event -> Prop) (m : M G A) : Prop :=
  forall w, exists seg,
    trace (snd (m w)) = (trace w ++ seg)%list /\ Forall Q seg.

(** Log lines and sleeps: events that reach neither the gateway nor the
    timers. *)
Definition is_local (e : event) : Prop :=
  match e with
  | EvLog _ _ _ | EvSleep _ => True
  | _ => False
  end.

(** The order [executeTradeFromSignal] builds for the signal [s] when the
    trader's fields are [t]. *)
Definition automation_order (t : AT.state) (s : Signal) (od : OrderData)
    : Prop :=
  od_symbol od = symbol s
  /\ od_side od = toLowerCase (signal s)
  /\ od_qty od = getPositionSize (confidence s) (AT.maxPositionSize t)
  /\ od_type od = "market" /\ od_time_in_force od = "day"
  /\ String.prefix "automation_" (od_client_order_id od) = true.

(** What one trade may put on the trace: requests about the symbol of its
    signal, its own order, log lines and sleeps; never a timer. *)
Definition trade_event (t : AT.state) (s : Signal) (e : event) : Prop :=
  match e with
  | EvSubmitOrder od => automation_order t s od
  | EvGetOrders sym => sym = symbol s
  | EvSetInterval _ _ | EvClearInterval _ => False
  | _ => True
  end.

(** The submissions among some events. *)
Definition submissions (evs : list event) : list OrderData :=
  flat_map (fun e => match e with EvSubmitOrder od => [od] | _ => [] end) evs.


(** [placed] is [all] with some entries left out, the rest in order. *)
Inductive picked {A : Type} : list A -> list A -> Prop :=
| picked_nil : picked [] []
| picked_take (x : A) (l l' : list A) : picked l l' -> picked (x :: l) (x :: l')
| picked_skip (x : A) (l l' : list A) : picked l l' -> picked l (x :: l').

(** What a cycle over the watchlist [watched] may put on the trace. *)
Definition cycle_event (watched : list string) (e : event) : Prop :=
  match e with
  | EvGetOrders sym => In sym watched
  | EvSetInterval _ _ | EvClearInterval _ => False
  | _ => True
  end.

(** ** routes/automation.js, the other routes *)

(** The JSON body of [PUT /api/automation/parameters]: [symbols], when
    there, an array of strings, and the numbers JSON numbers; a field left
    out is [None]. *)
Record ParametersBody := {
  put_symbols : option (list string);
  put_maxPositionSize : option Q;
  put_minConfidence : option Q;
  put_rsiOversold : option Q;
  put_rsiOverbought : option Q
}.

(** What a route of [routes/automation.js] sends: the status code and, of
    the JSON object, [success], [message] and [data]; a field it does not
    set is [None]. *)
Record Reply := {
  reply_status : nat;
  reply_success : bool;
  reply_message : option string;
  reply_data : option Status
}.

(** [isInt({ min, max })] of express-validator on a JSON number. *)
Definition isInt (min max : Z) (x : Q) : bool :=
  Qeq_bool x (inject_Z (Qfloor x))
  && (min <=? Qfloor x)%Z && (Qfloor x <=? max)%Z.

(** [isFloat({ min, max })] on a JSON number. *)
Definition isFloat (min max : Q) (x : Q) : bool :=
  Qle_bool min x && Qle_bool x max.

(** [.optional()]: a field left out is not checked. *)
Definition optional {A : Type} (check : A -> bool) (field : option A) : bool :=
  match field with
  | Some x => check x
  | None => true
  end.

(** [validationResult(req).isEmpty()] for the chain of [PUT /parameters]. *)
Definition valid_parameters (body : ParametersBody) : bool :=
  optional (isInt 1 100) (put_maxPositionSize body)
  && optional (isFloat 0 1) (put_minConfidence body)
  && optional (isInt 10 40) (put_rsiOversold body)
  && optional (isInt 60 90) (put_rsiOverbought body).

Section Routes.
Context {G : Type} (P : Platform) (alpaca : Gateway G).

(** The 500 answer of a [catch] block. *)
Definition server_error (logged message : string) (e : string) : M G Reply :=
  log Error logged [e] ;;
  ret {| reply_status := 500; reply_success := false;
         reply_message := Some message; reply_data := None |}.

(** [GET /api/automation/status] *)
Definition get_status : M G Reply :=
  try_catch
    (status <- getStatus ;;
     ret {| reply_status := 200; reply_success := true;
            reply_message := None; reply_data := Some status |})
    (server_error "Error getting automation status:"
                  "Failed to get automation status").

(** [POST /api/automation/start], with the [data] of its answer. *)
Definition post_start_reply (body : StartBody) : M G Reply :=
  r <- post_start P alpaca body ;;
  if http_success r then
    status <- getStatus ;;
    ret {| reply_status := http_status r; reply_success := true;
           reply_message := Some (http_message r);
           reply_data := Some status |}
  else
    ret {| reply_status := http_status r; reply_success := false;
           reply_message := Some (http_message r);
           reply_data := None |}.

(** [POST /api/automation/stop] *)
Definition post_stop : M G Reply :=
  try_catch
    (stopTrading ;;
     status <- getStatus ;;
     ret {| reply_status := 200; reply_success := true;
            reply_message := Some "Automated trading stopped successfully";
            reply_data := Some status |})
    (server_error "Error stopping automated trading:"
                  "Failed to stop automated trading").

(** [PUT /api/automation/parameters] *)
Definition put_parameters (body : ParametersBody) : M G Reply :=
  try_catch
    (if negb (valid_parameters body) then
       ret {| reply_status := 400; reply_success := false;
              reply_message := Some "Validation failed";
              reply_data := None |}
     else
       updateParameters P
         {| param_symbols := put_symbols body;
            param_maxPositionSize := put_maxPositionSize body;
            param_minConfidence := put_minConfidence body |} ;;
       (match put_rsiOversold body, put_rsiOverbought body with
        | Some oversold, Some overbought =>
            updateRSIThresholds P oversold overbought
        | _, _ => ret tt
        end) ;;
       status <- getStatus ;;
       ret {| reply_status := 200; reply_success := true;
              reply_message := Some "Trading parameters updated successfully";
              reply_data := Some status |})
    (server_error "Error updating trading parameters:"
                  "Failed to update trading parameters").

(** [POST /api/automation/check] *)
Definition post_check : M G Reply :=
  try_catch
    (checkAndExecuteTrades P alpaca ;;
     ret {| reply_status := 200; reply_success := true;
            reply_message := Some "Trading check completed successfully";
            reply_data := None |})
    (server_error "Error in manual trading check:"
                  "Failed to complete trading check").

End Routes.

(** The requests of [routes/automation.js]. *)
Inductive api_request :=
| GetStatus
| PostStart (body : StartBody)
| PostStop
| PutParameters (body : ParametersBody)
| PostCheck.

Definition route {G : Type} (P : Platform) (alpaca : Gateway G)
    (r : api_request) : M G Reply :=
  match r with
  | GetStatus => get_status
  | PostStart body => post_start_reply P alpaca body
  | PostStop => post_stop
  | PutParameters body => put_parameters P body
  | PostCheck => post_check P alpaca
  end.

(** Requests answered one after the other, each before the next arrives. *)
Fixpoint route_all {G : Type} (P : Platform) (alpaca : Gateway G)
    (rs : list api_request) : M G (list Reply) :=
  match rs with
  | [] => ret []
  | r :: rest =>
      reply <- route P alpaca r ;;
      replies <- route_all P alpaca rest ;;
      ret (reply :: replies)
  end.

(** The numbers the validators of [PUT /parameters] let through. *)
Definition within_validators {G : Type} (w : World G) : Prop :=
  1 <= AT.maxPositionSize (trader w) <= 100
  /\ 0 <= AT.minConfidence (trader w) <= 1
  /\ 10 <= SG.rsiOversold (generator w) <= 40
  /\ 60 <= SG.rsiOverbought (generator w) <= 90.

(** The [data] of an answer: [getStatus()] of the trader [t]. *)
Definition status_of (t : AT.state) : Status :=
  {| status_isRunning := AT.isRunning t;
     status_watchedSymbols := AT.watchedSymbols t;
     status_maxPositionSize := AT.maxPositionSize t;
     status_minConfidence := AT.minConfidence t;
     status_nextCheck :=
       match AT.tradingInterval t with
       | Some _ => "Running"
       | None => "Stopped"
       end |}.

(** What happens to the server: a request of the automation API arrives, or
    an armed timer fires. *)
Inductive occurrence :=
| Request (r : api_request)
| TimerFires (handle : nat).

Definition occur {G : Type} (P : Platform) (alpaca : Gateway G)
    (o : occurrence) : M G unit :=
  match o with
  | Request r => route P alpaca r ;; ret tt
  | TimerFires h => timer_fires P alpaca h
  end.

(** An event other than the submission of an order. *)
Definition no_order (e : event) : Prop := is_submit e = false.

(** Between the worlds [w] and [w'] only orders that satisfy [Q] were
    submitted. *)
Definition places {G : Type} (Q : OrderData -> Prop) (w w' : World G) : Prop :=
  exists seg, trace w' = (trace w ++ seg)%list /\ Forall Q (submissions seg).

(** An order of the automated trader within the limits of the API: a market
    order for the day, a buy or a sell of 1 to 100 shares, tagged as the
    trader's. *)
Definition order_within_limits (od : OrderData) : Prop :=
  (1 <= od_qty od <= 100)%Z
  /\ (od_side od = "buy" \/ od_side od = "sell")
  /\ od_type od = "market" /\ od_time_in_force od = "day"
  /\ String.prefix "automation_" (od_client_order_id od) = true.

(** ** routes/signals.js *)

(** The answers of the signal routes; a field the JSON object does not have
    is [None]. *)
Record SignalReply := {
  sr_status : nat;
  sr_success : bool;
  sr_message : option string;
  sr_signal : option Signal
}.

Record BatchReply := {
  br_status : nat;
  br_success : bool;
  br_message : option string;
  br_signals : option (list Signal);
  br_total : option nat;
  br_executed : option nat
}.

Record PriceReply := {
  pr_status : nat;
  pr_success : bool;
  pr_message : option string;
  pr_symbol : option string;
  pr_price : option Q;
  pr_timestamp : option Z
}.

Section SignalRoutes.
Context {G : Type} (P : Platform) (toUpperCase : string -> string).

(** [GET /api/signals/:symbol] *)
Definition get_signal (symbol : string) : M G SignalReply :=
  try_catch
    (if String.eqb symbol "" then
       ret {| sr_status := 400; sr_success := false;
              sr_message := Some "Symbol is required"; sr_signal := None |}
     else
       log Info ("Generating signal for " ++ symbol) [] ;;
       signal <- generateRSISignal P (toUpperCase symbol) ;;
       ret {| sr_status := 200; sr_success := true; sr_message := None;
              sr_signal := Some signal |})
    (fun message =>
       log Error "Error generating signal:" [message] ;;
       ret {| sr_status := 500; sr_success := false;
              sr_message := Some "Failed to generate signal";
              sr_signal := None |}).

(** [POST /api/signals/batch]; [None] is a body whose [symbols] is not an
    array of strings. *)
Definition post_batch (symbols : option (list string)) : M G BatchReply :=
  try_catch
    (match symbols with
     | None =>
         ret {| br_status := 400; br_success := false;
                br_message := Some "Validation failed";
                br_signals := None; br_total := None; br_executed := None |}
     | Some symbols =>
         if (List.length symbols =? 0)%nat then
           ret {| br_status := 400; br_success := false;
                  br_message := Some "At least one symbol is required";
                  br_signals := None; br_total := None;
                  br_executed := None |}
         else
           log Info ("Generating signals for "
                     ++ show_nat P (List.length symbols) ++ " symbols: "
                     ++ String.concat ", " symbols) [] ;;
           signals <- generateSignalsForSymbols P (map toUpperCase symbols) ;;
           ret {| br_status := 200; br_success := true; br_message := None;
                  br_signals := Some signals;
                  br_total := Some (List.length signals);
                  br_executed :=
                    Some (List.length (filter shouldExecute signals)) |}
     end)
    (fun message =>
       log Error "Error generating batch signals:" [message] ;;
       ret {| br_status := 500; br_success := false;
              br_message := Some "Failed to generate signals";
              br_signals := None; br_total := None; br_executed := None |}).

(** [GET /api/signals/price/:symbol] *)
Definition get_price (symbol : string) : M G PriceReply :=
  try_catch
    (if String.eqb symbol "" then
       ret {| pr_status := 400; pr_success := false;
              pr_message := Some "Symbol is required";
              pr_symbol := None; pr_price := None; pr_timestamp := None |}
     else
       log Info ("Getting current price for " ++ symbol) [] ;;
       indicators <- mockIndicators P (toUpperCase symbol) ;;
       now <- Date_now ;;
       ret {| pr_status := 200; pr_success := true; pr_message := None;
              pr_symbol := Some (toUpperCase symbol);
              pr_price := Some (currentPrice indicators);
              pr_timestamp := Some now |})
    (fun message =>
       log Error "Error getting current price:" [message] ;;
       ret {| pr_status := 500; pr_success := false;
              pr_message := Some "Failed to get current price";
              pr_symbol := None; pr_price := None; pr_timestamp := None |}).

End SignalRoutes.

(** ** routes/trading.js *)

(** An error of the brokerage client as the routes look at it:
    [error.message], and of [error.response] the status and
    [data.message]. *)
Record ApiError := {
  error_message : string;
  error_response : option (nat * option string)
}.

Inductive answer (A : Type) :=
| Answered (a : A)
| Refused (e : ApiError).
Arguments Answered {A} a.
Arguments Refused {A} e.

(** An order as [GET /v2/orders] lists it. *)
Record BrokerOrder := {
  bo_id : string;
  bo_symbol : string;
  bo_side : string;
  bo_client_order_id : option string
}.

(** The body [POST /trade] sends to [POST /v2/orders]. *)
Record ManualOrder := {
  mo_symbol : string;
  mo_qty : string;
  mo_side : string;
  mo_type : string;
  mo_time_in_force : string;
  mo_client_order_id : string
}.

(** The requests the routes make of the brokerage client. *)
Inductive desk_request :=
| AskOpenOrders (sym : string)   (* GET /v2/orders, status open, one symbol *)
| AskAllOpenOrders               (* GET /v2/orders?status=open *)
| AskAccount                     (* GET /v2/account *)
| AskCancel (id : string)        (* DELETE /v2/orders/:id *)
| AskSubmit (od : ManualOrder).  (* POST /v2/orders *)

(** What an observer sees of a route: log lines, each request with the
    error it was refused with, if any, and delays. *)
Inductive desk_event :=
| DkLog (lvl : level) (text : string)
| DkCall (req : desk_request) (refused : option ApiError)
| DkSleep (ms : Z).

(** The brokerage client behind the routes.  The account is read for
    [parseFloat(account.buying_power)] alone; [None] is [NaN]. *)
Record Desk (D : Type) := {
  desk_open_orders : string -> D -> answer (list BrokerOrder) * D;
  desk_all_open_orders : D -> answer (list BrokerOrder) * D;
  desk_account : D -> answer (option Q) * D;
  desk_cancel : string -> D -> answer unit * D;
  desk_submit : ManualOrder -> D -> answer string * D
}.
Arguments desk_open_orders {D} _ _ _.
Arguments desk_all_open_orders {D} _ _.
Arguments desk_account {D} _ _.
Arguments desk_cancel {D} _ _ _.
Arguments desk_submit {D} _ _ _.

Record Session (D : Type) := {
  desk_state : D;
  journal : list desk_event
}.
Arguments desk_state {D} _.
Arguments journal {D} _.

(** The JSON body of [POST /trade], its quantity a number; a field left
    out is [None]. *)
Record TradeBody := {
  trade_symbol : option string;
  trade_qty : option Q;
  trade_side : option string;
  trade_type : option string;
  trade_time_in_force : option string
}.

(** [req.body] after a validation without errors: the symbol trimmed, the
    defaults of the destructuring filled in. *)
Record TradeOrder := {
  to_symbol : string;
  to_qty : Q;
  to_side : string;
  to_type : string;
  to_time_in_force : string
}.

(** The answer of [POST /trade]. *)
Record TradeReply := {
  tr_status : nat;
  tr_success : bool;
  tr_error : option string;
  tr_message : option string;
  tr_order_id : option string;      (* [data.id] *)
  tr_required : option Q
}.

(** The answer of [DELETE /orders]. *)
Record CancelReply := {
  cr_status : nat;
  cr_success : bool;
  cr_cancelled : option nat;
  cr_failed : option nat;
  cr_total : option nat
}.

Section DeskEffects.
Context {D : Type}.

Definition T (A : Type) : Type := Session D -> answer A * Session D.

Definition retT {A} (a : A) : T A := fun s => (Answered a, s).

Definition bindT {A B} (m : T A) (k : A -> T B) : T B :=
  fun s => match m s with
           | (Answered a, s') => k a s'
           | (Refused e, s') => (Refused e, s')
           end.

(** [try { body } catch (error) { handler(error) }] *)
Definition tryT {A} (body : T A) (handler : ApiError -> T A) : T A :=
  fun s => match body s with
           | (Answered a, s') => (Answered a, s')
           | (Refused e, s') => handler e s'
           end.

Definition record (e : desk_event) : T unit :=
  fun s => (Answered tt,
            {| desk_state := desk_state s;
               journal := (journal s ++ [e])%list |}).

Definition logT (lvl : level) (text : string) : T unit :=
  record (DkLog lvl text).

Definition sleepT (ms : Z) : T unit := record (DkSleep ms).

(** A request: it is answered or refused, and observed with that. *)
Definition ask {A} (req : desk_request) (f : D -> answer A * D) : T A :=
  fun s => let (r, d) := f (desk_state s) in
           (r, {| desk_state := d;
                  journal :=
                    (journal s
                     ++ [DkCall req
                           match r with
                           | Answered _ => None
                           | Refused e => Some e
                           end])%list |}).

Fixpoint for_eachT {A} (xs : list A) (body : A -> T unit) : T unit :=
  match xs with
  | [] => retT tt
  | x :: rest => bindT (body x) (fun _ => for_eachT rest body)
  end.

(** [xs.map(body)] awaited as a whole, each request answered before the
    next is started. *)
Fixpoint map_allT {A B} (xs : list A) (body : A -> T B) : T (list B) :=
  match xs with
  | [] => retT []
  | x :: rest =>
      bindT (body x) (fun b =>
      bindT (map_allT rest body) (fun bs => retT (b :: bs)))
  end.

End DeskEffects.
Arguments T : clear implicits.

Declare Scope desk_scope.
Delimit Scope desk_scope with desk.
Notation "x <- m ;; k" := (bindT m (fun x => k))
  (at level 61, m at next level, right associativity) : desk_scope.
Notation "m ;; k" := (bindT m (fun _ => k))
  (at level 61, right associativity) : desk_scope.

(** [toUpperCase] and [toLowerCase] on ASCII letters, which is all the
    validators of [POST /trade] let through. *)
Definition upper_char (c : ascii) : ascii :=
  let n := nat_of_ascii c in
  if ((97 <=? n) && (n <=? 122))%nat then ascii_of_nat (n - 32) else c.

Definition lower_char (c : ascii) : ascii :=
  let n := nat_of_ascii c in
  if ((65 <=? n) && (n <=? 90))%nat then ascii_of_nat (n + 32) else c.

Fixpoint String_map (f : ascii -> ascii) (s : string) : string :=
  match s with
  | EmptyString => EmptyString
  | String c rest => String (f c) (String_map f rest)
  end.

Definition String_toUpperCase : string -> string := String_map upper_char.
Definition String_toLowerCase : string -> string := String_map lower_char.

(** [/^[A-Z]+$/.test(s)] *)
Fixpoint all_capitals (s : string) : bool :=
  match s with
  | EmptyString => true
  | String c rest =>
      ((65 <=? nat_of_ascii c) && (nat_of_ascii c <=? 90))%nat
      && all_capitals rest
  end.

Definition matches_capitals (s : string) : bool :=
  negb (String.eqb s "") && all_capitals s.

(** [isIn(values)] *)
Definition isIn (values : list string) (s : string) : bool :=
  existsb (String.eqb s) values.

(** [validateTradeOrder], then the destructuring of [req.body]: [None] when
    [validationResult(req)] has errors.  [trim] is the sanitizer of the
    symbol. *)
Definition validateTradeOrder (trim : string -> string) (body : TradeBody)
    : option TradeOrder :=
  match trade_symbol body, trade_qty body, trade_side body with
  | Some symbol0, Some qty, Some side =>
      let symbol := trim symbol0 in
      if ((1 <=? String.length symbol) && (String.length symbol <=? 10))%nat
         && matches_capitals symbol
         && Qle_bool (1 # 100) qty
         && isIn ["buy"; "sell"] side
         && optional (isIn ["market"; "limit"; "stop"; "stop_limit"])
              (trade_type body)
         && optional (isIn ["day"; "gtc"; "ioc"; "fok"])
              (trade_time_in_force body)
      then Some {| to_symbol := symbol;
                   to_qty := qty;
                   to_side := side;
                   to_type :=
                     match trade_type body with
                     | Some t => t
                     | None => "market"
                     end;
                   to_time_in_force :=
                     match trade_time_in_force body with
                     | Some t => t
                     | None => "day"
                     end |}
      else None
  | _, _, _ => None
  end.

(** [order.client_order_id && order.client_order_id.startsWith(tag)] *)
Definition tagged (tag : string) (order : BrokerOrder) : bool :=
  match bo_client_order_id order with
  | Some id => String.prefix tag id
  | None => false
  end.

(** The [source] that [GET /orders] attaches to an order. *)
Definition order_source (order : BrokerOrder) : string :=
  if tagged "automation_" order then "automation"
  else if tagged "manual_" order then "manual"
  else "legacy".

(** The predicate of [orders.filter] in [DELETE /orders]. *)
Definition selected (source : string) (order : BrokerOrder) : bool :=
  if String.eqb source "automation" then tagged "automation_" order
  else if String.eqb source "manual" then tagged "manual_" order
  else true.

(** [ordersToCancel] of [DELETE /orders] for the query parameter
    [source]. *)
Definition ordersToCancel (source : option string) (orders : list BrokerOrder)
    : list BrokerOrder :=
  match source with
  | Some s =>
      if negb (String.eqb s "") && negb (String.eqb s "all")
      then filter (selected s) orders
      else orders
  | None => orders
  end.

(** [parseFloat(account.buying_power) < estimatedCost]; a comparison with
    [NaN] is false. *)
Definition below (available : option Q) (cost : Q) : bool :=
  match available with
  | Some a => Qltb a cost
  | None => false
  end.

(** [r.error] as a condition, for a result of [DELETE /orders]: the
    message of the error caught, when it is not empty. *)
Definition has_error (result : option string) : bool :=
  match result with
  | Some m => negb (String.eqb m "")
  | None => false
  end.

(** What the [catch] block of [POST /trade] answers: 400 for an error whose
    response has status 422, 500 for any other. *)
Definition errorReply (e : ApiError) : TradeReply :=
  match error_response e with
  | Some (status, detail) =>
      if (status =? 422)%nat then
        {| tr_status := 400; tr_success := false;
           tr_error := Some "Invalid order parameters";
           tr_message :=
             Some match detail with
                  | Some m => if String.eqb m ""
                              then "Order validation failed" else m
                  | None => "Order validation failed"
                  end;
           tr_order_id := None; tr_required := None |}
      else
        {| tr_status := 500; tr_success := false;
           tr_error := Some "Failed to place trade order";
           tr_message := Some (error_message e);
           tr_order_id := None; tr_required := None |}
  | None =>
      {| tr_status := 500; tr_success := false;
         tr_error := Some "Failed to place trade order";
         tr_message := Some (error_message e);
         tr_order_id := None; tr_required := None |}
  end.

Section TradingRoutes.
Context {D : Type} (P : Platform) (trim : string -> string) (desk : Desk D).
Local Open Scope desk_scope.

(** One turn of the cancellation loop of [POST /trade]. *)
Definition cancelOpposite (symbol : string) (order : BrokerOrder) : T D unit :=
  tryT
    (ask (AskCancel (bo_id order)) (desk_cancel desk (bo_id order)) ;;
     logT Info ("Cancelled order " ++ bo_id order ++ " for " ++ symbol))
    (fun cancelError =>
       logT Warn ("Failed to cancel order " ++ bo_id order ++ ":")).

(** The [catch] block of [POST /trade]. *)
Definition trade_error (e : ApiError) : T D TradeReply :=
  logT Error "Error placing trade order:" ;;
  retT (errorReply e).

(** [POST /trade] from the validated body on; [now] and [r] are the
    readings of [Date.now()] and [Math.random()] for the order's id. *)
Definition placeOrder (order : TradeOrder) (now : Z) (r : Q)
    : T D TradeReply :=
  let symbol := to_symbol order in
  let qty := to_qty order in
  let side := to_side order in
  logT Info ("Placing " ++ side ++ " order for " ++ Number_toString P qty
             ++ " shares of " ++ symbol) ;;
  existingOrders <-
    ask (AskOpenOrders (String_toUpperCase symbol))
        (desk_open_orders desk (String_toUpperCase symbol)) ;;
  let oppositeSideOrders :=
    filter (fun o => negb (String.eqb (bo_side o) (String_toLowerCase side)))
           existingOrders in
  (if (0 <? List.length oppositeSideOrders)%nat then
     logT Info ("Cancelling "
                ++ Number_toString P
                     (inject_Z (Z.of_nat (List.length oppositeSideOrders)))
                ++ " opposite side orders for " ++ symbol
                ++ " to prevent wash trade") ;;
     for_eachT oppositeSideOrders (cancelOpposite symbol) ;;
     sleepT 1000
   else retT tt) ;;
  short <-
    (if String.eqb side "buy" then
       available <- ask AskAccount (desk_account desk) ;;
       let estimatedCost := qty * 100 in
       if below available estimatedCost then
         logT Warn ("Insufficient buying power for " ++ symbol ++ " order") ;;
         retT (Some {| tr_status := 400; tr_success := false;
                       tr_error := Some "Insufficient buying power";
                       tr_message := None; tr_order_id := None;
                       tr_required := Some estimatedCost |})
       else retT None
     else retT None) ;;
  match short with
  | Some reply => retT reply
  | None =>
      let orderData :=
        {| mo_symbol := String_toUpperCase symbol;
           mo_qty := Number_toString P qty;
           mo_side := side;
           mo_type := to_type order;
           mo_time_in_force := to_time_in_force order;
           mo_client_order_id := "manual_" ++ unique_suffix P now r |} in
      id <- ask (AskSubmit orderData) (desk_submit desk orderData) ;;
      logT Info ("Order placed successfully. Order ID: " ++ id) ;;
      retT {| tr_status := 201; tr_success := true; tr_error := None;
              tr_message :=
                Some (String_toUpperCase side ++ " order for "
                      ++ Number_toString P qty ++ " shares of " ++ symbol
                      ++ " placed successfully");
              tr_order_id := Some id; tr_required := None |}
  end.

(** [POST /api/trading/trade] *)
Definition post_trade (body : TradeBody) (now : Z) (r : Q) : T D TradeReply :=
  tryT
    (match validateTradeOrder trim body with
     | None =>
         logT Warn "Trade order validation failed:" ;;
         retT {| tr_status := 400; tr_success := false;
                 tr_error := Some "Validation failed";
                 tr_message := None; tr_order_id := None;
                 tr_required := None |}
     | Some order => placeOrder order now r
     end)
    trade_error.

(** One cancellation of [DELETE /orders], with its [catch]: the [error] of
    the result object, if there is one. *)
Definition cancelListed (order : BrokerOrder) : T D (option string) :=
  tryT
    (ask (AskCancel (bo_id order)) (desk_cancel desk (bo_id order)) ;;
     retT None)
    (fun err =>
       logT Warn ("Failed to cancel order " ++ bo_id order ++ ":") ;;
       retT (Some (error_message err))).

(** [DELETE /api/trading/orders] *)
Definition delete_orders (source : option string) : T D CancelReply :=
  tryT
    (orders <- ask AskAllOpenOrders (desk_all_open_orders desk) ;;
     let toCancel := ordersToCancel source orders in
     results <- map_allT toCancel cancelListed ;;
     let successful :=
       List.length (filter (fun r => negb (has_error r)) results) in
     let failed := List.length (filter has_error results) in
     logT Info ("Cancelled "
                ++ Number_toString P (inject_Z (Z.of_nat successful))
                ++ " orders, "
                ++ Number_toString P (inject_Z (Z.of_nat failed))
                ++ " failed") ;;
     retT {| cr_status := 200; cr_success := true;
             cr_cancelled := Some successful; cr_failed := Some failed;
             cr_total := Some (List.length toCancel) |})
    (fun e =>
       logT Error "Error cancelling orders:" ;;
       retT {| cr_status := 500; cr_success := false;
               cr_cancelled := None; cr_failed := None;
               cr_total := None |}).

End TradingRoutes.

(** A small broker for the routes: its open orders, the ids it will not
    cancel, and whether it accepts new orders; the account always reports
    the same buying power. *)
Record Ledger := {
  ledger_orders : list BrokerOrder;
  ledger_locked : list string;
  ledger_rejects : option ApiError
}.

Definition ledger_desk (buying_power : option Q) : Desk Ledger :=
  {| desk_open_orders := fun sym l =>
       (Answered (filter (fun o => String.eqb (bo_symbol o) sym)
                         (ledger_orders l)), l);
     desk_all_open_orders := fun l => (Answered (ledger_orders l), l);
     desk_account := fun l => (Answered buying_power, l);
     desk_cancel := fun id l =>
       if existsb (String.eqb id) (ledger_locked l)
       then (Refused {| error_message := "order is not cancelable";
                        error_response := Some (422%nat, None) |}, l)
       else (Answered tt,
             {| ledger_orders :=
                  filter (fun o => negb (String.eqb (bo_id o) id))
                         (ledger_orders l);
                ledger_locked := ledger_locked l;
                ledger_rejects := ledger_rejects l |});
     desk_submit := fun od l =>
       match ledger_rejects l with
       | Some e => (Refused e, l)
       | None => (Answered ("order:" ++ mo_client_order_id od), l)
       end |}.

(** A ledger with an automated SELL, a manual SELL and an older BUY open
    for AAPL. *)
Definition small_ledger : Ledger :=
  {| ledger_orders :=
       [ {| bo_id := "a1"; bo_symbol := "AAPL"; bo_side := "sell";
            bo_client_order_id := Some "automation_1_x" |};
         {| bo_id := "m1"; bo_symbol := "AAPL"; bo_side := "sell";
            bo_client_order_id := Some "manual_2_y" |};
         {| bo_id := "l1"; bo_symbol := "AAPL"; bo_side := "buy";
            bo_client_order_id := None |} ];
     ledger_locked := [];
     ledger_rejects := None |}.

Definition open_session {D : Type} (d : D) : Session D :=
  {| desk_state := d; journal := [] |}.

(** The cancel requests, the submissions and the readings of the account
    among some events. *)
Definition cancellations (evs : list desk_event) : list string :=
  flat_map (fun e => match e with
                     | DkCall (AskCancel id) _ => [id]
                     | _ => []
                     end) evs.

Definition submitted (evs : list desk_event) : list ManualOrder :=
  flat_map (fun e => match e with
                     | DkCall (AskSubmit od) _ => [od]
                     | _ => []
                     end) evs.

Definition account_readings (evs : list desk_event) : nat :=
  List.length (filter (fun e => match e with
                                | DkCall AskAccount _ => true
                                | _ => false
                                end) evs).

(** The order [POST /trade] submits for a validated body. *)
Definition manual_order (P : Platform) (order : TradeOrder)
    (od : ManualOrder) : Prop :=
  mo_symbol od = to_symbol order
  /\ mo_qty od = Number_toString P (to_qty order)
  /\ mo_side od = to_side order
  /\ mo_type od = to_type order
  /\ mo_time_in_force od = to_time_in_force order
  /\ String.prefix "manual_" (mo_client_order_id od) = true.

(** The orders on the other side of [side]. *)
Definition opposite (side : string) (orders : list BrokerOrder)
    : list BrokerOrder :=
  filter (fun o => negb (String.eqb (bo_side o) side)) orders.

(** An event of a cancellation pass. *)
Definition cancel_event (e : desk_event) : Prop :=
  match e with
  | DkCall (AskCancel _) _ | DkLog _ _ | DkSleep _ => True
  | _ => False
  end.

(** ** config/alpaca.js *)

Definition requiredEnvVars : list string :=
  ["ALPACA_API_KEY"; "ALPACA_SECRET_KEY"; "ALPACA_BASE_URL"].

(** [process.env[envVar]] as a condition: set, and not the empty string. *)
Definition env_set (env : string -> option string) (envVar : string) : bool :=
  match env envVar with
  | Some value => negb (String.eqb value "")
  | None => false
  end.

(** The loop over the variables at the head of the module: the message of
    the error thrown, if one is. *)
Fixpoint checkEnv (env : string -> option string) (vars : list string)
    : option string :=
  match vars with
  | [] => None
  | envVar :: rest =>
      if negb (env_set env envVar)
      then Some ("Missing required environment variable: " ++ envVar)
      else checkEnv env rest
  end.

(** The headers and the base URL of the client [axios.create] builds. *)
Record Client := {
  baseURL : string;
  key_id : string;
  secret_key : string;
  request_timeout : Z
}.

(** Loading the module: the error thrown, or the client exported. *)
Definition load_alpaca (env : string -> option string) : string + Client :=
  match checkEnv env requiredEnvVars with
  | Some message => inl message
  | None =>
      let get v := match env v with Some value => value | None => "" end in
      inr {| baseURL := get "ALPACA_BASE_URL";
             key_id := get "ALPACA_API_KEY";
             secret_key := get "ALPACA_SECRET_KEY";
             request_timeout := 10000 |}
  end.

(** * Properties *)

(** ** Numbers *)

Lemma Qltb_lt (x y : Q) : Qltb x y = true <-> x < y.
Proof.
  unfold Qltb. rewrite negb_true_iff. split; intro H.
  - apply Qnot_le_lt. intro L. apply Qle_bool_iff in L. congruence.
  - destruct (Qle_bool y x) eqn:E; [|reflexivity].
    apply Qle_bool_iff in E. exfalso. apply (Qlt_not_le _ _ H E).
Qed.

Lemma Qltb_ge (x y : Q) : Qltb x y = false <-> y <= x.
Proof.
  unfold Qltb. rewrite negb_false_iff. apply Qle_bool_iff.
Qed.

Lemma Qgeb_le (x y : Q) : Qgeb x y = true <-> y <= x.
Proof. apply Qle_bool_iff. Qed.

Lemma Qmin_one_bounds (c : Q) : 0 <= c -> 0 <= Qmin c 1 /\ Qmin c 1 <= 1.
Proof.
  intro H. split.
  - apply Q.min_glb; [exact H | lra].
  - apply Q.le_min_r.
Qed.

Lemma Qmin_one_ge (c m : Q) : m <= 1 -> (m <= Qmin c 1 <-> m <= c).
Proof.
  intro H. split; intro L.
  - eapply Qle_trans; [exact L | apply Q.le_min_l].
  - apply Q.min_glb; assumption.
Qed.

Lemma ratio_nonneg (a b : Q) : 0 < b -> 0 <= a -> 0 <= a / b.
Proof.
  intros Hb Ha. apply Qle_shift_div_l; [exact Hb | lra].
Qed.

Lemma calculateBuyConfidence_bounds (g : SG.state) (ind : Indicators) :
  0 < SG.rsiOversold g -> rsi ind <= SG.rsiOversold g ->
  6 # 10 <= calculateBuyConfidence g ind /\ calculateBuyConfidence g ind <= 1.
Proof.
  intros Hpos Hle. unfold calculateBuyConfidence.
  assert (0 <= (SG.rsiOversold g - rsi ind) / SG.rsiOversold g) as Hs
    by (apply ratio_nonneg; lra).
  set (s := (SG.rsiOversold g - rsi ind) / SG.rsiOversold g) in *.
  split; [apply Q.min_glb; [|lra] | apply Q.le_min_r].
  destruct (Qltb (sma20 ind) (currentPrice ind));
    destruct (Qltb (sma50 ind) (sma20 ind)); lra.
Qed.

Lemma calculateSellConfidence_bounds (g : SG.state) (ind : Indicators) :
  SG.rsiOverbought g < 100 -> SG.rsiOverbought g <= rsi ind ->
  6 # 10 <= calculateSellConfidence g ind /\ calculateSellConfidence g ind <= 1.
Proof.
  intros Hpos Hle. unfold calculateSellConfidence.
  assert (0 <= (rsi ind - SG.rsiOverbought g) / (100 - SG.rsiOverbought g))
    as Hs by (apply ratio_nonneg; lra).
  set (s := (rsi ind - SG.rsiOverbought g) / (100 - SG.rsiOverbought g)) in *.
  split; [apply Q.min_glb; [|lra] | apply Q.le_min_r].
  destruct (Qltb (currentPrice ind) (sma20 ind));
    destruct (Qltb (sma20 ind) (sma50 ind)); lra.
Qed.

(** The factor of the test-signal branch lies strictly between -1 and 1. *)
Lemma randomFactor_range (z : Z) :
  -1 < inject_Z (Z.rem z 100) / 100 /\ inject_Z (Z.rem z 100) / 100 < 1.
Proof.
  assert (Z.abs (Z.rem z 100) < Z.abs 100)%Z as H
    by (apply Z.rem_bound_abs; lia).
  assert (-100 < Z.rem z 100 < 100)%Z as [H1 H2] by lia.
  split.
  - apply Qlt_shift_div_l; [lra|].
    change (-1 * 100) with (inject_Z (-100)). rewrite <- Zlt_Qlt. exact H1.
  - apply Qlt_shift_div_r; [lra|].
    change (1 * 100) with (inject_Z 100). rewrite <- Zlt_Qlt. exact H2.
Qed.

(** ** The signal generator *)

Ltac js_step :=
  cbn -[String.append THREE_MINUTES timeBucket symbolHash Qmin Z.rem].

Ltac shape_with c :=
  do 2 eexists; exists c; split; [reflexivity|];
  js_step; unfold confirmed;
  repeat match goal with H : Qltb _ _ = _ |- _ => rewrite ?H; clear H end;
  intuition (try discriminate; try lra).

Section GeneratorFacts.
Context {G : Type} (P : Platform).

Lemma confirmed_bounds (k : SignalKind) (ind : Indicators) (c : Q) :
  c <= confirmed k ind c /\ confirmed k ind c <= c + (1 # 10).
Proof.
  unfold confirmed. destruct k;
    try destruct (Qltb (sma20 ind) (currentPrice ind));
    try destruct (Qltb (currentPrice ind) (sma20 ind)); lra.
Qed.

(** What [signalFromIndicators] answers: it always returns; the confidence
    of the record is the running value [conf] capped at 1 and
    [shouldExecute] compares the running value itself; [conf] is the base
    value [c] of the branch taken plus the confirmation. *)
Lemma signalFromIndicators_shape (w : World G) (sym : string)
    (ind : Indicators) :
  exists (s : Signal) (w' : World G) (c : Q),
    signalFromIndicators P sym ind w = (Returned s, w')
    /\ generator w' = generator w /\ trader w' = trader w
    /\ symbol s = sym
    /\ confidence s = Qmin (confirmed (signal s) ind c) 1
    /\ shouldExecute s
       = Qgeb (confirmed (signal s) ind c) (SG.minConfidence (generator w))
    /\ ((rsi ind < SG.rsiOversold (generator w) /\ signal s = BUY
         /\ c = calculateBuyConfidence (generator w) ind)
        \/ (SG.rsiOversold (generator w) <= rsi ind
            /\ SG.rsiOverbought (generator w) < rsi ind /\ signal s = SELL
            /\ c = calculateSellConfidence (generator w) ind)
        \/ (SG.rsiOversold (generator w) <= rsi ind
            /\ rsi ind <= SG.rsiOverbought (generator w)
            /\ (signal s = HOLD -> c = 0)
            /\ 0 <= c /\ c <= 8 # 10)).
Proof.
  unfold signalFromIndicators, bind, this_generator, ret, log, emit.
  destruct (Qltb (sma20 ind) (currentPrice ind)) eqn:Eup;
    destruct (Qltb (currentPrice ind) (sma20 ind)) eqn:Edown;
    (destruct (Qltb (rsi ind) (SG.rsiOversold (generator w))) eqn:Ebuy;
     [ apply Qltb_lt in Ebuy; js_step; rewrite ?Eup, ?Edown;
       shape_with (calculateBuyConfidence (generator w) ind) | ];
     apply Qltb_ge in Ebuy;
     destruct (Qltb (SG.rsiOverbought (generator w)) (rsi ind)) eqn:Esell;
     [ apply Qltb_lt in Esell; js_step; rewrite ?Eup, ?Edown;
       shape_with (calculateSellConfidence (generator w) ind) | ];
     apply Qltb_ge in Esell;
     destruct (isMockData ind) eqn:Emock;
     [ | js_step; shape_with 0 ];
     unfold Date_now at 1; js_step;
     destruct (randomFactor_range
                 (timeBucket (clock w (clock_reads w)) THREE_MINUTES
                  + symbolHash sym)) as [Hlo Hhi];
     set (f := inject_Z (Z.rem (timeBucket (clock w (clock_reads w))
                                  THREE_MINUTES + symbolHash sym) 100) / 100)
       in *;
     destruct (Qltb f (25 # 100)) eqn:E1;
     [ | js_step; shape_with 0 ];
     apply Qltb_lt in E1;
     destruct (Qltb f (125 # 1000)) eqn:E2;
     [ apply Qltb_lt in E2; js_step; rewrite ?Eup, ?Edown;
       shape_with ((5 # 10) + f * (3 # 10))
     | apply Qltb_ge in E2; js_step; rewrite ?Eup, ?Edown;
       shape_with ((5 # 10) + (f - (125 # 1000)) * (24 # 10)) ]).
Qed.

End GeneratorFacts.

Lemma mock_rsi_range (P : Platform) (now : Z) (r20 r50 : Q) (sym : string) :
  0 <= rsi (generateMockIndicators P now r20 r50 sym)
  /\ rsi (generateMockIndicators P now r20 r50 sym) <= 100.
Proof.
  unfold generateMockIndicators. cbn [rsi]. split.
  - apply Q.le_max_l.
  - apply Q.max_lub; [lra | apply Q.le_min_l].
Qed.

(** [generateRSISignal] is [signalFromIndicators] at the mock indicators of
    the moment; its [catch] block is never entered. *)
Lemma generateRSISignal_runs {G : Type} (P : Platform) (w : World G)
    (sym : string) :
  exists (now : Z) (r20 r50 : Q) (w1 : World G),
    generator w1 = generator w /\ trader w1 = trader w
    /\ now = clock w (clock_reads w)
    /\ r20 = dice w (dice_rolls w) /\ r50 = dice w (S (dice_rolls w))
    /\ clock w1 = clock w /\ clock_reads w1 = S (clock_reads w)
    /\ generateRSISignal P sym w
       = signalFromIndicators P sym
           (generateMockIndicators P now r20 r50 sym) w1.
Proof.
  do 3 eexists.
  exists (snd (bind (log Info ("Generating RSI signal for " ++ sym) [])
                 (fun _ => mockIndicators P sym) w)).
  repeat (split; [reflexivity|]).
  unfold generateRSISignal, try_catch, bind at 1 2.
  cbn -[signalFromIndicators generateMockIndicators String.append].
  match goal with
  | |- context [signalFromIndicators P sym ?i ?w0] =>
      destruct (signalFromIndicators_shape P w0 sym i)
        as (s & w' & c & E & _); rewrite E
  end.
  reflexivity.
Qed.

Section SignalBounds.
Context {G : Type} (P : Platform).

(** Every record [signalFromIndicators] builds says what the spec asks of a
    signal, as long as the RSI it was given is a percentage. *)
Lemma signalFromIndicators_sound (w : World G) (sym : string)
    (ind : Indicators) :
  exists (s : Signal) (w' : World G),
    signalFromIndicators P sym ind w = (Returned s, w')
    /\ generator w' = generator w /\ trader w' = trader w
    /\ symbol s = sym
    /\ (valid_thresholds (generator w) -> 0 <= rsi ind -> rsi ind <= 100 ->
        0 <= confidence s /\ confidence s <= 1)
    /\ (SG.minConfidence (generator w) <= 1 ->
        (shouldExecute s = true
         <-> SG.minConfidence (generator w) <= confidence s)).
Proof.
  destruct (signalFromIndicators_shape P w sym ind)
    as (s & w' & c & E & Hg & Ht & Hsym & Hconf & Hexec & Hcase).
  exists s, w'. repeat (split; [assumption|]). split.
  - intros (Hv1 & Hv2 & Hv3 & _) Hlo Hhi. rewrite Hconf.
    apply Qmin_one_bounds.
    destruct (confirmed_bounds (signal s) ind c) as [Hc _].
    eapply Qle_trans; [|exact Hc].
    destruct Hcase as [(Hb & _ & ->) | [(_ & Hs & _ & ->) | (_ & _ & _ & H0 & _)]].
    + destruct (calculateBuyConfidence_bounds (generator w) ind); lra.
    + destruct (calculateSellConfidence_bounds (generator w) ind); lra.
    + exact H0.
  - intro Hm. rewrite Hexec, Hconf. rewrite Qgeb_le.
    symmetry. apply Qmin_one_ge. exact Hm.
Qed.

Lemma generateRSISignal_sound (w : World G) (sym : string) :
  exists (s : Signal) (w' : World G),
    generateRSISignal P sym w = (Returned s, w')
    /\ generator w' = generator w /\ trader w' = trader w
    /\ symbol s = sym
    /\ (valid_thresholds (generator w) ->
        0 <= confidence s /\ confidence s <= 1)
    /\ (SG.minConfidence (generator w) <= 1 ->
        (shouldExecute s = true
         <-> SG.minConfidence (generator w) <= confidence s)).
Proof.
  destruct (generateRSISignal_runs P w sym)
    as (now & r20 & r50 & w1 & Hg1 & Ht1 & _ & _ & _ & _ & _ & E).
  destruct (signalFromIndicators_sound w1 sym
              (generateMockIndicators P now r20 r50 sym))
    as (s & w' & E' & Hg & Ht & Hsym & Hb & Hx).
  exists s, w'. rewrite E, E'. rewrite Hg1 in *. rewrite Ht1 in *.
  repeat (split; [assumption || reflexivity|]). split.
  - intro Hv. destruct (mock_rsi_range P now r20 r50 sym). auto.
  - exact Hx.
Qed.

(** The batch: one signal per symbol, in order, each as sound as a single
    one; neither service's fields change. *)
Lemma collectSignals_sound (symbols : list string) :
  forall (acc : list Signal) (w : World G) (good : Signal -> Prop),
    (forall (w0 : World G) sym, generator w0 = generator w ->
       exists s (w1 : World G), generateRSISignal P sym w0 = (Returned s, w1)
                    /\ generator w1 = generator w0 /\ trader w1 = trader w0
                    /\ symbol s = sym /\ good s) ->
    Forall good acc ->
    exists (signals : list Signal) (w' : World G),
      collectSignals P symbols acc w = (Returned signals, w')
      /\ generator w' = generator w /\ trader w' = trader w
      /\ Forall good signals
      /\ map symbol signals = (map symbol acc ++ symbols)%list.
Proof.
  induction symbols as [|sym rest IH]; intros acc w good Hone Hacc.
  - exists acc, w. cbn. rewrite app_nil_r. auto.
  - destruct (Hone w sym eq_refl) as (s & w1 & E & Hg1 & Ht1 & Hsym & Hs).
    destruct (IH (acc ++ [s])%list
                 (with_trace (trace w1 ++ [EvSleep 100]) w1) good)
      as (signals & w' & E' & Hg & Ht & Hall & Hmap).
    + intros w0 sym0 H0. apply Hone. rewrite H0. cbn. exact Hg1.
    + apply Forall_app. split; [exact Hacc | constructor; [exact Hs|constructor]].
    + exists signals, w'. cbn [collectSignals].
      unfold bind at 1, try_catch, bind at 1. rewrite E.
      unfold bind at 1, sleep, emit, ret. rewrite E'.
      cbn in Hg, Ht. rewrite Hg, Ht, Hg1, Ht1.
      repeat (split; [reflexivity || assumption|]).
      rewrite Hmap, map_app, <- app_assoc. cbn. rewrite Hsym. reflexivity.
Qed.

End SignalBounds.

(** C3.  Under valid thresholds the confidence of every generated signal
    lies in [0,1]: for [signalFromIndicators] at any indicator values whose
    RSI is a percentage, for [generateRSISignal], and for every signal of a
    batch. *)
Theorem confidence_in_unit_interval {G : Type} (P : Platform) (w : World G)
    (Hvalid : valid_thresholds (generator w)) :
  (forall sym ind, 0 <= rsi ind -> rsi ind <= 100 ->
     exists s w', signalFromIndicators P sym ind w = (Returned s, w')
                  /\ 0 <= confidence s /\ confidence s <= 1)
  /\ (forall sym,
        exists s w', generateRSISignal P sym w = (Returned s, w')
                     /\ 0 <= confidence s /\ confidence s <= 1)
  /\ (forall symbols,
        exists signals w',
          generateSignalsForSymbols P symbols w = (Returned signals, w')
          /\ Forall (fun s => 0 <= confidence s /\ confidence s <= 1) signals).
Proof.
  split; [|split].
  - intros sym ind Hlo Hhi.
    destruct (signalFromIndicators_sound P w sym ind)
      as (s & w' & E & _ & _ & _ & Hb & _).
    exists s, w'. split; [exact E | auto].
  - intro sym.
    destruct (generateRSISignal_sound P w sym)
      as (s & w' & E & _ & _ & _ & Hb & _).
    exists s, w'. split; [exact E | auto].
  - intro symbols.
    destruct (collectSignals_sound P symbols [] w
                (fun s => 0 <= confidence s /\ confidence s <= 1))
      as (signals & w' & E & _ & _ & Hall & _).
    + intros w0 sym H0.
      destruct (generateRSISignal_sound P w0 sym)
        as (s & w1 & E & Hg & Ht & Hsym & Hb & _).
      exists s, w1. rewrite H0 in Hb. auto 6.
    + constructor.
    + exists signals, w'. split; [exact E | exact Hall].
Qed.

Lemma confidence_in_unit_interval_at_boot :
  exists s w',
    generateRSISignal flat_runtime "AAPL"
      (boot empty_book (fun _ => 0%Z) (fun _ => 1 # 2)) = (Returned s, w')
    /\ 0 <= confidence s /\ confidence s <= 1.
Proof.
  apply (confidence_in_unit_interval flat_runtime
           (boot empty_book (fun _ => 0%Z) (fun _ => 1 # 2))).
  cbv [valid_thresholds boot generator SG.init SG.rsiOversold SG.rsiOverbought
       SG.minConfidence].
  repeat split; lra.
Defined.

(** C4, as amended.  [shouldExecute] holds exactly when the confidence
    reaches the generator's own [minConfidence] (at most 1); the loop's
    filter compares with the trader's [minConfidence], a separate field, and
    its second conjunct is implied by the first only when the trader's
    minimum does not exceed the generator's. *)
Theorem shouldExecute_iff_generator_minConfidence {G : Type} (P : Platform)
    (w : World G) (symbols : list string)
    (Hmin : SG.minConfidence (generator w) <= 1) :
  exists signals w',
    generateSignalsForSymbols P symbols w = (Returned signals, w')
    /\ trader w' = trader w
    /\ Forall
         (fun s =>
            (shouldExecute s = true
             <-> SG.minConfidence (generator w) <= confidence s)
            /\ (AT.minConfidence (trader w') <= SG.minConfidence (generator w)
                -> shouldExecute s = true
                -> Qgeb (confidence s) (AT.minConfidence (trader w')) = true))
         signals.
Proof.
  destruct (collectSignals_sound P symbols [] w
              (fun s => shouldExecute s = true
                        <-> SG.minConfidence (generator w) <= confidence s))
    as (signals & w' & E & _ & Ht & Hall & _).
  - intros w0 sym H0.
    destruct (generateRSISignal_sound P w0 sym)
      as (s & w1 & E & Hg & Ht & Hsym & _ & Hx).
    exists s, w1. rewrite H0 in Hx. auto 6.
  - constructor.
  - exists signals, w'. split; [exact E|]. split; [exact Ht|].
    eapply Forall_impl; [|exact Hall].
    intros s Hs. split; [exact Hs|].
    intros Hle Hx. apply Qgeb_le. apply Hs in Hx. lra.
Qed.

Lemma shouldExecute_iff_at_boot :
  exists signals w',
    generateSignalsForSymbols flat_runtime ["AAPL"; "MSFT"]
      (boot empty_book (fun _ => 0%Z) (fun _ => 1 # 2))
    = (Returned signals, w')
    /\ trader w' = AT.init
    /\ Forall
         (fun s =>
            (shouldExecute s = true <-> 6 # 10 <= confidence s)
            /\ (AT.minConfidence (trader w') <= 6 # 10
                -> shouldExecute s = true
                -> Qgeb (confidence s) (AT.minConfidence (trader w')) = true))
         signals.
Proof.
  apply (shouldExecute_iff_generator_minConfidence flat_runtime
           (boot empty_book (fun _ => 0%Z) (fun _ => 1 # 2))
           ["AAPL"; "MSFT"]).
  cbv [boot generator SG.init SG.minConfidence]. lra.
Defined.

(** C4, the claim as stated fails: a signal the generator marks
    [shouldExecute] that the loop's filter rejects on its second conjunct.
    Symbol ["AAPL"] at [Date.now() = 1700012720000] with
    [Math.random() = 0.25]: the mock RSI is neutral (between 45 and 65), the
    test branch yields BUY at 0.503, the confirmation makes it 0.603: above
    the generator's 0.6, below the trader's 0.7. *)
Lemma filter_rejects_a_shouldExecute_signal :
  exists (w : World Book) (sym : string),
    forall P, sin_bounded P ->
      exists s w',
        generateRSISignal P sym w = (Returned s, w')
        /\ signal s = BUY /\ shouldExecute s = true
        /\ confidence s == 603 # 1000
        /\ Qgeb (confidence s) (AT.minConfidence (trader w')) = false
        /\ executable (trader w') s = false.
Proof.
  exists (boot empty_book (fun _ => 1700012720000%Z) (fun _ => 1 # 4)), "AAPL".
  intros P Hsin.
  destruct (generateRSISignal_runs P
              (boot empty_book (fun _ => 1700012720000%Z) (fun _ => 1 # 4))
              "AAPL")
    as (now & r20 & r50 & w1 & Hg & Ht & -> & -> & -> & Hc & Hr & ->).
  cbn [boot clock clock_reads dice dice_rolls] in *.
  set (ind := generateMockIndicators P 1700012720000 (1 # 4) (1 # 4) "AAPL").
  assert (30 <= rsi ind /\ rsi ind <= 70) as [Hlo Hhi].
  { unfold ind, generateMockIndicators. cbn [rsi].
    change (Z.rem (Z.rem (timeBucket 1700012720000 FIVE_MINUTES
                          + symbolHash "AAPL") 1000) 60) with 35%Z.
    change (inject_Z 35) with 35.
    destruct (Hsin (inject_Z (Z.rem (timeBucket 1700012720000 FIVE_MINUTES
                                     + symbolHash "AAPL") 1000) * (1 # 10)))
      as [H1 H2].
    split.
    - eapply Qle_trans; [|apply Q.le_max_r]. apply Q.min_glb; lra.
    - apply Q.max_lub; [lra|].
      eapply Qle_trans; [apply Q.le_min_r|]. lra. }
  assert (Qltb (sma20 ind) (currentPrice ind) = true) as Hup.
  { apply Qltb_lt. unfold ind, generateMockIndicators.
    cbn [sma20 currentPrice]. lra. }
  apply Qltb_ge in Hlo. apply Qltb_ge in Hhi.
  unfold signalFromIndicators, bind at 1 2, this_generator, ret.
  rewrite Hg.
  cbn [boot generator SG.init SG.rsiOversold SG.rsiOverbought
       SG.minConfidence].
  rewrite Hlo, Hhi.
  change (isMockData ind) with true. cbv iota.
  unfold bind at 1, Date_now at 1. rewrite Hc, Hr.
  change (Z.rem (timeBucket 1700012720000 THREE_MINUTES + symbolHash "AAPL")
                100) with 1%Z.
  change (Qltb (inject_Z 1 / 100) (25 # 100)) with true.
  change (Qltb (inject_Z 1 / 100) (125 # 1000)) with true.
  cbv iota beta. rewrite Hup.
  do 2 eexists. split; [reflexivity|].
  cbn [signal shouldExecute confidence trader]. rewrite Ht.
  repeat split; vm_compute; reflexivity.
Qed.

Lemma confirmed_boost (k : SignalKind) (ind : Indicators) (c : Q) :
  confirmed k ind c
  == c + match k with
         | BUY => boost (Qltb (sma20 ind) (currentPrice ind))
         | SELL => boost (Qltb (currentPrice ind) (sma20 ind))
         | HOLD => 0
         end.
Proof.
  unfold confirmed, boost.
  destruct k; try destruct (Qltb (sma20 ind) (currentPrice ind));
    try destruct (Qltb (currentPrice ind) (sma20 ind)); lra.
Qed.

Lemma calculateBuyConfidence_formula (g : SG.state) (ind : Indicators) :
  calculateBuyConfidence g ind
  == Qmin ((6 # 10)
           + (SG.rsiOversold g - rsi ind) / SG.rsiOversold g * (3 # 10)
           + boost (Qltb (sma20 ind) (currentPrice ind))
           + boost (Qltb (sma50 ind) (sma20 ind))) 1.
Proof.
  unfold calculateBuyConfidence, boost. apply Q.min_compat; [|reflexivity].
  destruct (Qltb (sma20 ind) (currentPrice ind));
    destruct (Qltb (sma50 ind) (sma20 ind)); lra.
Qed.

Lemma calculateSellConfidence_formula (g : SG.state) (ind : Indicators) :
  calculateSellConfidence g ind
  == Qmin ((6 # 10)
           + (rsi ind - SG.rsiOverbought g) / (100 - SG.rsiOverbought g)
             * (3 # 10)
           + boost (Qltb (currentPrice ind) (sma20 ind))
           + boost (Qltb (sma20 ind) (sma50 ind))) 1.
Proof.
  unfold calculateSellConfidence, boost. apply Q.min_compat; [|reflexivity].
  destruct (Qltb (currentPrice ind) (sma20 ind));
    destruct (Qltb (sma20 ind) (sma50 ind)); lra.
Qed.

(** C2, as amended.  A BUY (SELL) decided by the RSI threshold gets the
    value of [calculateBuyConfidence] ([calculateSellConfidence]), which is
    0.6 plus 0.3 times the RSI strength plus 0.1 for each of the two
    moving-average comparisons, capped at 1; [generateRSISignal] then adds
    0.1 once more when the price comparison holds, and caps at 1 again.
    [shouldExecute] compares the value before that last cap.  At the
    indicators of the worked example with [rsiOversold = 30] this is a BUY
    of confidence 0.95, executed exactly when [minConfidence <= 0.95]. *)
Theorem threshold_confidence {G : Type} (P : Platform) (w : World G)
    (sym : string) (ind : Indicators) :
  exists s w',
    signalFromIndicators P sym ind w = (Returned s, w')
    /\ (rsi ind < SG.rsiOversold (generator w) ->
        signal s = BUY
        /\ confidence s
           == Qmin (Qmin ((6 # 10)
                          + (SG.rsiOversold (generator w) - rsi ind)
                            / SG.rsiOversold (generator w) * (3 # 10)
                          + boost (Qltb (sma20 ind) (currentPrice ind))
                          + boost (Qltb (sma50 ind) (sma20 ind))) 1
                    + boost (Qltb (sma20 ind) (currentPrice ind))) 1
        /\ (shouldExecute s = true
            <-> SG.minConfidence (generator w)
                <= calculateBuyConfidence (generator w) ind
                   + boost (Qltb (sma20 ind) (currentPrice ind))))
    /\ (SG.rsiOversold (generator w) <= rsi ind ->
        SG.rsiOverbought (generator w) < rsi ind ->
        signal s = SELL
        /\ confidence s
           == Qmin (Qmin ((6 # 10)
                          + (rsi ind - SG.rsiOverbought (generator w))
                            / (100 - SG.rsiOverbought (generator w))
                            * (3 # 10)
                          + boost (Qltb (currentPrice ind) (sma20 ind))
                          + boost (Qltb (sma20 ind) (sma50 ind))) 1
                    + boost (Qltb (currentPrice ind) (sma20 ind))) 1
        /\ (shouldExecute s = true
            <-> SG.minConfidence (generator w)
                <= calculateSellConfidence (generator w) ind
                   + boost (Qltb (currentPrice ind) (sma20 ind))))
    /\ (ind = example_indicators -> SG.rsiOversold (generator w) = 30 ->
        signal s = BUY
        /\ confidence s == 95 # 100
        /\ (shouldExecute s = true
            <-> SG.minConfidence (generator w) <= 95 # 100)).
Proof.
  destruct (signalFromIndicators_shape P w sym ind)
    as (s & w' & c & E & _ & _ & _ & Hconf & Hexec & Hcase).
  exists s, w'. split; [exact E|].
  assert (rsi ind < SG.rsiOversold (generator w) ->
          signal s = BUY /\ c = calculateBuyConfidence (generator w) ind)
    as Hbuy.
  { intro H. destruct Hcase as [(_ & Hk & Hc) | [(H1 & _) | (H1 & _)]];
      [auto | lra | lra]. }
  assert (SG.rsiOversold (generator w) <= rsi ind ->
          SG.rsiOverbought (generator w) < rsi ind ->
          signal s = SELL /\ c = calculateSellConfidence (generator w) ind)
    as Hsell.
  { intros H H'. destruct Hcase as [(H1 & _) | [(_ & _ & Hk & Hc) | (_ & H1 & _)]];
      [lra | auto | lra]. }
  rewrite Hexec, Qgeb_le, Hconf. clear Hexec Hconf Hcase E.
  split; [|split].
  - intro H. destruct (Hbuy H) as [Hk ->]. rewrite Hk.
    rewrite confirmed_boost. split; [reflexivity|]. split; [|reflexivity].
    apply Q.min_compat; [|reflexivity].
    rewrite calculateBuyConfidence_formula. reflexivity.
  - intros H H'. destruct (Hsell H H') as [Hk ->]. rewrite Hk.
    rewrite confirmed_boost. split; [reflexivity|]. split; [|reflexivity].
    apply Q.min_compat; [|reflexivity].
    rewrite calculateSellConfidence_formula. reflexivity.
  - intros -> Ho.
    assert (rsi example_indicators < SG.rsiOversold (generator w)) as H
      by (rewrite Ho; reflexivity).
    destruct (Hbuy H) as [Hk ->]. rewrite Hk.
    unfold calculateBuyConfidence. rewrite Ho.
    split; [reflexivity|]. split.
    + vm_compute. reflexivity.
    + match goal with
      | |- ?m <= ?x <-> _ =>
          let y := eval vm_compute in x in change x with y
      end.
      split; intro L; lra.
Qed.

Lemma threshold_confidence_worked_example :
  exists s w',
    signalFromIndicators flat_runtime "X" example_indicators
      (boot empty_book (fun _ => 0%Z) (fun _ => 0)) = (Returned s, w')
    /\ signal s = BUY /\ confidence s == 95 # 100
    /\ (shouldExecute s = true <-> 6 # 10 <= 95 # 100).
Proof.
  destruct (threshold_confidence flat_runtime
              (boot empty_book (fun _ => 0%Z) (fun _ => 0)) "X"
              example_indicators)
    as (s & w' & E & _ & _ & Hex).
  exists s, w'. split; [exact E|].
  apply Hex; reflexivity.
Defined.

(** C2, the claim as stated fails: at the indicators of the worked example,
    under the constructor's thresholds, the confidence is 0.95: it is not
    within 0.05 of 0.8667, nor is it the three-term value 0.85. *)
Lemma worked_example_confidence_is_not_0_8667 :
  exists (w : World Book) (sym : string) (ind : Indicators),
    generator w = SG.init
    /\ ind = {| rsi := 25; sma20 := 110; sma50 := 100; currentPrice := 112;
                isMockData := false |}
    /\ forall P,
         exists s w',
           signalFromIndicators P sym ind w = (Returned s, w')
           /\ signal s = BUY
           /\ confidence s == 95 # 100
           /\ ~ Qabs (confidence s - (8667 # 10000)) <= 5 # 100
           /\ ~ confidence s
                == Qmin ((6 # 10) + (30 - 25) / 30 * (3 # 10)
                         + (1 # 10) + (1 # 10)) 1.
Proof.
  exists (boot empty_book (fun _ => 0%Z) (fun _ => 0)), "X", example_indicators.
  split; [reflexivity|]. split; [reflexivity|]. intro P.
  destruct (signalFromIndicators_shape P
              (boot empty_book (fun _ => 0%Z) (fun _ => 0)) "X"
              example_indicators)
    as (s & w' & c & E & _ & _ & _ & Hconf & _ & Hcase).
  cbn [boot generator SG.init SG.rsiOversold SG.rsiOverbought
       example_indicators rsi] in Hcase.
  destruct Hcase as [(_ & Hk & Hc) | [(H & _) | (H & _)]];
    [ | exfalso; revert H; vm_compute; intro H; apply H; reflexivity .. ].
  exists s, w'. split; [exact E|]. split; [exact Hk|].
  rewrite Hconf, Hk, Hc.
  split; [vm_compute; reflexivity|].
  split; vm_compute.
  - intro H. apply H. reflexivity.
  - discriminate.
Qed.

(** ** The indicator source *)

(** X4.  Within one five-minute bucket the RSI and the price of a symbol do not
    change, whatever the draws. *)
Lemma rsi_and_price_reproducible (P : Platform) (now now' : Z)
    (r20 r50 r20' r50' : Q) (sym : string) :
  timeBucket now FIVE_MINUTES = timeBucket now' FIVE_MINUTES ->
  rsi (generateMockIndicators P now r20 r50 sym)
  = rsi (generateMockIndicators P now' r20' r50' sym)
  /\ currentPrice (generateMockIndicators P now r20 r50 sym)
     = currentPrice (generateMockIndicators P now' r20' r50' sym).
Proof.
  intro H. unfold generateMockIndicators. cbn [rsi currentPrice].
  rewrite H. split; reflexivity.
Qed.

Lemma rsi_and_price_reproducible_example :
  rsi (generateMockIndicators flat_runtime 1000 0 0 "SPY")
  = rsi (generateMockIndicators flat_runtime 299999 (1 # 2) (1 # 3) "SPY")
  /\ currentPrice (generateMockIndicators flat_runtime 1000 0 0 "SPY")
     = currentPrice
         (generateMockIndicators flat_runtime 299999 (1 # 2) (1 # 3) "SPY").
Proof.
  apply (rsi_and_price_reproducible flat_runtime 1000 299999). reflexivity.
Defined.

(** X5.  The moving averages stay within 5 and 7.5 of the price when the draws
    are in [0,1). *)
Lemma mock_averages_near_price (P : Platform) (now : Z) (r20 r50 : Q)
    (sym : string) :
  0 <= r20 -> r20 < 1 -> 0 <= r50 -> r50 < 1 ->
  Qabs (sma20 (generateMockIndicators P now r20 r50 sym)
        - currentPrice (generateMockIndicators P now r20 r50 sym)) <= 5
  /\ Qabs (sma50 (generateMockIndicators P now r20 r50 sym)
           - currentPrice (generateMockIndicators P now r20 r50 sym))
     <= 75 # 10.
Proof.
  intros H1 H2 H3 H4. unfold generateMockIndicators.
  cbn [sma20 sma50 currentPrice].
  split; apply Qabs_Qle_condition; split; lra.
Qed.

(** C5, the claim fails on the code.  Two evaluations of the indicator
    source for the same symbol at the same instant: the RSI and the price
    agree, the two moving averages do not, because each is offset by a fresh
    draw of [Math.random()]. *)
Theorem mock_averages_differ_within_a_bucket :
  exists (w : World Book) (sym : string),
    (forall n, clock w n = clock w 0)
    /\ (forall n, 0 <= dice w n /\ dice w n < 1)
    /\ forall P,
         exists a b w',
           (a <- mockIndicators P sym ;;
            b <- mockIndicators P sym ;;
            ret (a, b)) w = (Returned (a, b), w')
           /\ rsi a = rsi b /\ currentPrice a = currentPrice b
           /\ ~ sma20 a == sma20 b /\ ~ sma50 a == sma50 b.
Proof.
  exists (boot empty_book (fun _ => 1700000000000%Z)
            (fun n => 1 # Pos.of_nat (n + 2))), "AAPL".
  split; [reflexivity|]. split.
  - intro n. cbn [boot dice]. unfold Qle, Qlt. cbn. lia.
  - intro P.
    exists (generateMockIndicators P 1700000000000 (1 # 2) (1 # 3) "AAPL"),
           (generateMockIndicators P 1700000000000 (1 # 4) (1 # 5) "AAPL").
    eexists. split; [reflexivity|].
    unfold generateMockIndicators. cbn [rsi sma20 sma50 currentPrice].
    split; [reflexivity|]. split; [reflexivity|].
    split; intro H; lra.
Qed.

(** ** Position size *)



(** ** Effects: what stays put, what cannot throw *)

Section Frame.
Context {G : Type}.

Lemma steady_refl (w : World G) : steady w w.
Proof.
  unfold steady. repeat (split; [reflexivity|]).
  exists []. symmetry. apply app_nil_r.
Qed.

Lemma steady_trans (w1 w2 w3 : World G) :
  steady w1 w2 -> steady w2 w3 -> steady w1 w3.
Proof.
  intros (Ha & Hb & Hc & Hd & He & Hf & s1 & Hs1)
         (Ha' & Hb' & Hc' & Hd' & He' & Hf' & s2 & Hs2).
  unfold steady.
  rewrite Ha', Hb', Hc', Hd', He', Hf', Hs2, Hs1.
  repeat (split; [assumption|]).
  exists (s1 ++ s2)%list. symmetry. apply app_assoc.
Qed.

Lemma calm_ret {A} (a : A) : calm (G:=G) (ret a).
Proof. intro w. apply steady_refl. Qed.

Lemma calm_throw {A} (e : string) : calm (G:=G) (A:=A) (throw e).
Proof. intro w. apply steady_refl. Qed.

Lemma calm_bind {A B} (m : M G A) (k : A -> M G B) :
  calm m -> (forall a, calm (k a)) -> calm (bind m k).
Proof.
  intros Hm Hk w. unfold bind. specialize (Hm w).
  destruct (m w) as [[a|e] w1]; cbn in *.
  - eapply steady_trans; [exact Hm | apply Hk].
  - exact Hm.
Qed.

Lemma calm_try_catch {A} (body : M G A) (handler : string -> M G A) :
  calm body -> (forall e, calm (handler e)) -> calm (try_catch body handler).
Proof.
  intros Hm Hk w. unfold try_catch. specialize (Hm w).
  destruct (body w) as [[a|e] w1]; cbn in *.
  - exact Hm.
  - eapply steady_trans; [exact Hm | apply Hk].
Qed.

Lemma calm_emit (e : event) : calm (G:=G) (emit e).
Proof.
  intro w. unfold steady. cbn. repeat (split; [reflexivity|]).
  exists [e]. reflexivity.
Qed.

Lemma calm_log (l : level) (t : string) (a : list string) :
  calm (G:=G) (log l t a).
Proof. apply calm_emit. Qed.

Lemma calm_sleep (ms : Z) : calm (G:=G) (sleep ms).
Proof. apply calm_emit. Qed.

Lemma calm_Date_now : calm (G:=G) Date_now.
Proof.
  intro w. unfold steady. cbn. repeat (split; [reflexivity|]).
  exists []. symmetry. apply app_nil_r.
Qed.

Lemma calm_Math_random : calm (G:=G) Math_random.
Proof.
  intro w. unfold steady. cbn. repeat (split; [reflexivity|]).
  exists []. symmetry. apply app_nil_r.
Qed.

Lemma calm_this_trader : calm (G:=G) this_trader.
Proof. intro w. apply steady_refl. Qed.

Lemma calm_this_generator : calm (G:=G) this_generator.
Proof. intro w. apply steady_refl. Qed.

Lemma calm_call {A} (e : event) (f : G -> outcome A * G) : calm (call e f).
Proof.
  intro w. unfold call. cbn. destruct (f (broker w)) as [r g]. cbn.
  unfold steady. cbn. repeat (split; [reflexivity|]).
  exists [e]. reflexivity.
Qed.

Lemma calm_for_each {A} (xs : list A) (body : A -> M G unit) :
  (forall x, calm (body x)) -> calm (for_each xs body).
Proof.
  intro Hb. induction xs as [|x rest IH]; cbn.
  - apply calm_ret.
  - apply calm_bind; [apply Hb | intros _; exact IH].
Qed.

Lemma total_ret {A} (a : A) : total (G:=G) (ret a).
Proof. intro w. exists a. reflexivity. Qed.

Lemma total_bind {A B} (m : M G A) (k : A -> M G B) :
  total m -> (forall a, total (k a)) -> total (bind m k).
Proof.
  intros Hm Hk w. unfold bind. destruct (Hm w) as [a Ha].
  destruct (m w) as [r w1]. cbn in Ha. subst r. apply Hk.
Qed.

Lemma total_try_catch {A} (body : M G A) (handler : string -> M G A) :
  (forall e, total (handler e)) -> total (try_catch body handler).
Proof.
  intros Hk w. unfold try_catch.
  destruct (body w) as [[a|e] w1]; [exists a; reflexivity | apply Hk].
Qed.

Lemma total_emit (e : event) : total (G:=G) (emit e).
Proof. intro w. exists tt. reflexivity. Qed.

Lemma total_for_each {A} (xs : list A) (body : A -> M G unit) :
  (forall x, total (body x)) -> total (for_each xs body).
Proof.
  intro Hb. induction xs as [|x rest IH]; cbn.
  - apply total_ret.
  - apply total_bind; [apply Hb | intros _; exact IH].
Qed.

(** A total computation run in a world: its value and the world after. *)
Lemma total_run {A} (m : M G A) (w : World G) :
  total m -> exists a w', m w = (Returned a, w').
Proof.
  intro H. destruct (H w) as [a Ha]. destruct (m w) as [r w'].
  cbn in Ha. subst r. exists a, w'. reflexivity.
Qed.

End Frame.

Create HintDb calm.
Create HintDb total.

#[local] Hint Resolve calm_ret calm_throw calm_emit calm_log calm_sleep
  calm_Date_now calm_Math_random calm_this_trader calm_this_generator
  calm_call : calm.
#[local] Hint Resolve total_ret total_emit : total.

Ltac calm_steps :=
  repeat first
    [ solve [auto with calm]
    | match goal with
      | |- calm (bind _ _) => apply calm_bind; [|intro]
      | |- calm (try_catch _ _) => apply calm_try_catch; [|intro]
      | |- calm (for_each _ _) => apply calm_for_each; intro
      | |- calm (if ?b then _ else _) => destruct b
      | |- calm (match ?x with _ => _ end) => destruct x
      | |- calm (let _ := _ in _) => cbv zeta
      end ].

Section ServiceFrames.
Context {G : Type} (P : Platform) (alpaca : Gateway G).

Lemma calm_signalFromIndicators (sym : string) (ind : Indicators) :
  calm (G:=G) (signalFromIndicators P sym ind).
Proof. unfold signalFromIndicators. calm_steps. Qed.

Lemma calm_generateRSISignal (sym : string) :
  calm (G:=G) (generateRSISignal P sym).
Proof.
  pose proof calm_signalFromIndicators.
  unfold generateRSISignal, mockIndicators, errorSignal. calm_steps.
Qed.

Lemma calm_collectSignals (symbols : list string) :
  forall acc, calm (G:=G) (collectSignals P symbols acc).
Proof.
  pose proof calm_generateRSISignal.
  induction symbols as [|sym rest IH]; intro acc; cbn [collectSignals];
    unfold errorSignal; calm_steps.
Qed.

Lemma calm_cancelOrder (sig : Signal) (o : Order) :
  calm (cancelOrder alpaca sig o).
Proof. unfold cancelOrder, alpaca_delete_order. calm_steps. Qed.

Lemma total_cancelOrder (sig : Signal) (o : Order) :
  total (cancelOrder alpaca sig o).
Proof.
  unfold cancelOrder. apply total_try_catch. intro. apply total_emit.
Qed.

Lemma calm_executeTradeFromSignal (sig : Signal) :
  calm (executeTradeFromSignal P alpaca sig).
Proof.
  pose proof calm_cancelOrder.
  unfold executeTradeFromSignal, alpaca_get_orders, alpaca_post_order.
  calm_steps.
Qed.

Lemma total_executeTradeFromSignal (sig : Signal) :
  total (executeTradeFromSignal P alpaca sig).
Proof.
  unfold executeTradeFromSignal. apply total_try_catch. intro e.
  apply total_bind; [apply total_emit | intro; apply total_ret].
Qed.

Lemma calm_checkAndExecuteTrades : calm (checkAndExecuteTrades P alpaca).
Proof.
  pose proof calm_collectSignals. pose proof calm_executeTradeFromSignal.
  unfold checkAndExecuteTrades, generateSignalsForSymbols. calm_steps.
Qed.

Lemma total_checkAndExecuteTrades : total (checkAndExecuteTrades P alpaca).
Proof.
  unfold checkAndExecuteTrades. apply total_try_catch. intro e.
  apply total_emit.
Qed.

(** A cycle, run in any world: it returns, and it leaves the loop's fields
    and the timers as they were. *)
Lemma checkAndExecuteTrades_run (w : World G) :
  exists w', checkAndExecuteTrades P alpaca w = (Returned tt, w')
             /\ steady w w'.
Proof.
  destruct (total_run (checkAndExecuteTrades P alpaca) w
              total_checkAndExecuteTrades) as ([] & w' & E).
  exists w'. split; [exact E|].
  pose proof (calm_checkAndExecuteTrades w) as H. rewrite E in H. exact H.
Qed.

End ServiceFrames.

(** ** Executing a trade *)

Section TradeRuns.
Context {G : Type} (P : Platform) (alpaca : Gateway G).

Lemma cancel_loop_run (sig : Signal) (opp : list Order) :
  forall w : World G,
  exists (evs : list event) (w' : World G),
    for_each opp (cancelOrder alpaca sig) w = (Returned tt, w')
    /\ trace w' = (trace w ++ evs)%list
    /\ trader w' = trader w
    /\ cancel_pass sig opp evs.
Proof.
  induction opp as [|o rest IH]; intro w.
  - exists [], w. cbn. rewrite app_nil_r. repeat split. constructor.
  - cbn [for_each]. unfold bind at 1, cancelOrder at 1, try_catch,
      alpaca_delete_order, bind at 1, call.
    cbn [broker with_trace].
    destruct (delete_order alpaca (order_id o) (broker w)) as [[[]|m] g1].
    + unfold log, emit.
      match goal with
      | |- context [for_each rest _ ?w0] =>
          destruct (IH w0) as (evs & w' & E & Htr & Ht & Hp); rewrite E
      end.
      eexists; exists w'. split; [reflexivity|]. cbn in Htr, Ht.
      rewrite Htr, Ht, <- !app_assoc. cbn.
      repeat split. apply pass_cancelled. exact Hp.
    + unfold log, emit.
      match goal with
      | |- context [for_each rest _ ?w0] =>
          destruct (IH w0) as (evs & w' & E & Htr & Ht & Hp); rewrite E
      end.
      eexists; exists w'. split; [reflexivity|]. cbn in Htr, Ht.
      rewrite Htr, Ht, <- !app_assoc. cbn.
      repeat split. apply pass_failed. exact Hp.
Qed.

Lemma cancellation_run (sig : Signal) (opp : list Order) (w : World G) :
  exists (cancels : list event) (w' : World G),
    (if (0 <? List.length opp)%nat then
       log Info ("Cancelling " ++ show_nat P (List.length opp)
                 ++ " opposite side orders for " ++ symbol sig
                 ++ " to prevent wash trade") [] ;;
       for_each opp (cancelOrder alpaca sig) ;;
       sleep 1000
     else ret tt) w = (Returned tt, w')
    /\ trace w' = (trace w ++ cancellation_segment P sig opp cancels)%list
    /\ trader w' = trader w
    /\ cancel_pass sig opp cancels.
Proof.
  destruct opp as [|o rest].
  - exists [], w. cbn. rewrite app_nil_r. repeat split. constructor.
  - change (0 <? List.length (o :: rest))%nat with true. cbv iota.
    unfold bind at 1, log, emit. unfold bind at 1.
    match goal with
    | |- context [for_each (o :: rest) _ ?w0] =>
        destruct (cancel_loop_run sig (o :: rest) w0)
          as (cancels & w1 & E & Htr & Ht & Hp); rewrite E
    end.
    exists cancels. eexists. split; [reflexivity|].
    cbn [trace with_trace trader sleep emit snd] in *.
    rewrite Htr, Ht. unfold cancellation_segment.
    rewrite <- !app_assoc. cbn [app]. repeat split. exact Hp.
Qed.

Lemma executeTradeFromSignal_run (w : World G) (sig : Signal) :
  exists (r : TradeResult) (w' : World G) (seg : list event),
    executeTradeFromSignal P alpaca sig w = (Returned r, w')
    /\ trace w' = (trace w ++ seg)%list
    /\ result_signal r = sig
    /\ exists executing,
        (exists txt, executing = EvLog Info txt [])
        /\ ((exists m g1,
               get_open_orders alpaca (symbol sig) (broker w) = (Thrown m, g1)
               /\ r = failed sig m
               /\ seg = [executing; EvGetOrders (symbol sig);
                         EvLog Error ("Failed to execute trade for "
                                      ++ symbol sig ++ ":") [m]])
            \/ (exists orders g1 cancels od tag g2 g3 ans closing,
                  get_open_orders alpaca (symbol sig) (broker w)
                  = (Returned orders, g1)
                  /\ cancel_pass sig (filter (oppositeSide sig) orders) cancels
                  /\ od = {| od_symbol := symbol sig;
                             od_qty := getPositionSize (confidence sig)
                                         (AT.maxPositionSize (trader w));
                             od_side := toLowerCase (signal sig);
                             od_type := "market";
                             od_time_in_force := "day";
                             od_client_order_id := "automation_" ++ tag |}
                  /\ post_order alpaca od g2 = (ans, g3)
                  /\ seg = ([executing; EvGetOrders (symbol sig)]
                            ++ cancellation_segment P sig
                                 (filter (oppositeSide sig) orders) cancels
                            ++ [EvSubmitOrder od; closing])%list
                  /\ match ans with
                     | Returned id =>
                         r = {| success := true; orderId := Some id;
                                error := None; result_signal := sig;
                                positionSize :=
                                  Some (getPositionSize (confidence sig)
                                          (AT.maxPositionSize (trader w))) |}
                         /\ exists args,
                             closing = EvLog Info "Order placed successfully:"
                                             args
                     | Thrown m =>
                         r = failed sig m
                         /\ closing
                            = EvLog Error ("Failed to execute trade for "
                                           ++ symbol sig ++ ":") [m]
                     end)).
Proof.
  unfold executeTradeFromSignal, try_catch.
  unfold bind at 1, this_trader. unfold bind at 1, log at 1, emit at 1.
  unfold bind at 1, alpaca_get_orders, call. cbn [broker with_trace trace].
  destruct (get_open_orders alpaca (symbol sig) (broker w))
    as [[orders|m] g1] eqn:Eget.
  2:{ unfold bind, log, emit. do 3 eexists. split; [reflexivity|].
      cbn [trace with_trace with_broker]. rewrite <- !app_assoc. cbn [app].
      split; [reflexivity|]. split; [reflexivity|].
      eexists. split; [eexists; reflexivity|]. left. exists m, g1.
      repeat split. }
  unfold bind at 1.
  match goal with
  | |- context [(if (0 <? _)%nat then _ else _) ?w0] =>
      destruct (cancellation_run sig (filter (oppositeSide sig) orders) w0)
        as (cancels & w1 & E & Htr & Ht & Hp); rewrite E
  end.
  cbn [trace with_trace with_broker trader] in Htr, Ht.
  unfold bind at 1, Date_now at 1. unfold bind at 1, Math_random at 1.
  unfold bind at 1, alpaca_post_order, call. cbn [broker with_trace trace].
  match goal with
  | |- context [post_order alpaca ?od ?g] =>
      destruct (post_order alpaca od g) as [[id|m] g3] eqn:Epost
  end.
  - unfold bind, log, emit, ret. do 3 eexists. split; [reflexivity|].
    cbn [trace with_trace with_broker]. rewrite Htr, <- !app_assoc. cbn [app].
    split; [reflexivity|]. split; [reflexivity|].
    eexists. split; [eexists; reflexivity|]. right.
    exists orders, g1, cancels. do 6 eexists.
    split; [reflexivity|]. split; [exact Hp|]. split; [reflexivity|].
    split; [exact Epost|]. split; [reflexivity|].
    split; [reflexivity | eexists; reflexivity].
  - unfold bind, log, emit, ret. do 3 eexists. split; [reflexivity|].
    cbn [trace with_trace with_broker]. rewrite Htr, <- !app_assoc. cbn [app].
    split; [reflexivity|]. split; [reflexivity|].
    eexists. split; [eexists; reflexivity|]. right.
    exists orders, g1, cancels. do 6 eexists.
    split; [reflexivity|]. split; [exact Hp|]. split; [reflexivity|].
    split; [exact Epost|]. split; [reflexivity|].
    split; reflexivity.
Qed.
End TradeRuns.

Lemma cancel_pass_requests (sig : Signal) (opp : list Order)
    (cancels : list event) :
  cancel_pass sig opp cancels ->
  cancel_requests cancels = map order_id opp
  /\ existsb is_submit cancels = false
  /\ forall o, In o opp -> In (EvCancelOrder (order_id o)) cancels.
Proof.
  unfold cancel_requests.
  induction 1 as [|o rest evs _ (IH1 & IH2 & IH3)|o m rest evs _ (IH1 & IH2 & IH3)].
  - repeat split. intros o [].
  - cbn. rewrite IH1, IH2. repeat split.
    intros o' [<-|Hin]; [left; reflexivity | right; right; auto].
  - cbn. rewrite IH1, IH2. repeat split.
    intros o' [<-|Hin]; [left; reflexivity | right; right; auto].
Qed.

Lemma cancellation_segment_shape (P : Platform) (sig : Signal)
    (opp : list Order) (cancels : list event) :
  existsb is_submit cancels = false ->
  existsb is_submit (cancellation_segment P sig opp cancels) = false
  /\ (opp <> [] ->
      exists before,
        cancellation_segment P sig opp cancels
        = (before ++ cancels ++ [EvSleep 1000])%list).
Proof.
  intro H. destruct opp as [|o rest]; cbn.
  - split; [reflexivity | intro C; contradiction].
  - split.
    + rewrite existsb_app, H. reflexivity.
    + intros _. eexists [_]. reflexivity.
Qed.

(** A submission inside [pre ++ EvSubmitOrder od :: post] cannot sit in a
    list without submissions. *)
Lemma no_submit_inside (l pre post : list event) (od : OrderData) :
  existsb is_submit l = false -> l <> (pre ++ EvSubmitOrder od :: post)%list.
Proof.
  intros H ->. rewrite existsb_app in H. cbn in H.
  rewrite orb_true_r in H. discriminate.
Qed.

(** C1, as amended.  Whenever [executeTradeFromSignal] submits an order, it
    has read the open orders of the symbol, and between that reading and the
    submission sits the cancellation segment: one cancel request for every
    open order whose side differs from the signal's, in order, each followed
    by its log line (a warning when the broker refused, after which the pass
    goes on), and then the settle delay of 1000 ms.  When no open order is on
    the other side there is neither pass nor delay: the submission follows
    the reading at once.  The submission is the only one and comes after all
    of it. *)
Theorem opposing_orders_cancelled_before_submit {G : Type} (P : Platform)
    (alpaca : Gateway G) (w : World G) (sig : Signal) :
  exists r w' seg,
    executeTradeFromSignal P alpaca sig w = (Returned r, w')
    /\ trace w' = (trace w ++ seg)%list
    /\ (forall pre od post,
          seg = (pre ++ EvSubmitOrder od :: post)%list ->
          exists orders g1,
            get_open_orders alpaca (symbol sig) (broker w)
            = (Returned orders, g1))
    /\ (forall orders g1,
          get_open_orders alpaca (symbol sig) (broker w)
          = (Returned orders, g1) ->
          let opp := filter (oppositeSide sig) orders in
          exists executing cancels od closing,
            seg = ([executing; EvGetOrders (symbol sig)]
                   ++ cancellation_segment P sig opp cancels
                   ++ [EvSubmitOrder od; closing])%list
            /\ is_submit executing = false /\ is_submit closing = false
            /\ od_symbol od = symbol sig
            /\ od_side od = toLowerCase (signal sig)
            /\ cancel_pass sig opp cancels
            /\ cancel_requests cancels = map order_id opp
            /\ existsb is_submit (cancellation_segment P sig opp cancels)
               = false
            /\ (opp = [] ->
                seg = [executing; EvGetOrders (symbol sig);
                       EvSubmitOrder od; closing])
            /\ (forall o, In o orders ->
                  order_side o <> toLowerCase (signal sig) ->
                  In (EvCancelOrder (order_id o)) cancels
                  /\ exists before,
                       cancellation_segment P sig opp cancels
                       = (before ++ cancels ++ [EvSleep 1000])%list)).
Proof.
  destruct (executeTradeFromSignal_run P alpaca w sig)
    as (r & w' & seg & E & Htr & _ & executing & [txt Hex] & Hcase).
  exists r, w', seg. split; [exact E|]. split; [exact Htr|].
  destruct Hcase as [(m & g1 & Hget & _ & Hseg)
                    |(orders & g1 & cancels & od & tag & g2 & g3 & ans
                      & closing & Hget & Hp & Hod & _ & Hseg & Hans)].
  - split.
    + intros pre od post Hsplit. exfalso.
      refine (no_submit_inside seg pre post od _ Hsplit).
      rewrite Hseg, Hex. reflexivity.
    + intros orders g1' Hget'. rewrite Hget in Hget'. discriminate.
  - subst od. split; [intros; eauto|].
    intros orders' g1' Hget'. rewrite Hget in Hget'.
    injection Hget' as <- <-. cbv zeta.
    destruct (cancel_pass_requests sig _ cancels Hp) as (Hreq & Hnone & Hin).
    destruct (cancellation_segment_shape P sig
                (filter (oppositeSide sig) orders) cancels Hnone)
      as [Hseg_none Hsleep].
    exists executing, cancels. eexists. exists closing.
    split; [exact Hseg|]. split; [rewrite Hex; reflexivity|].
    split; [destruct ans as [id|m];
            [destruct Hans as (_ & args & ->) | destruct Hans as (_ & ->)];
            reflexivity|].
    cbn [od_symbol od_side].
    repeat (split; [reflexivity || assumption|]).
    split; [intro Hnil; rewrite Hseg, Hnil; reflexivity|].
    intros o Ho Hside.
    assert (In o (filter (oppositeSide sig) orders)) as Hopp.
    { apply filter_In. split; [exact Ho|]. unfold oppositeSide.
      apply negb_true_iff. apply String.eqb_neq. exact Hside. }
    split; [apply Hin; exact Hopp|].
    apply Hsleep. intro Hnil. rewrite Hnil in Hopp. contradiction.
Qed.

(** The spec's scenario, run: a BUY for ["X"] against [book_X]. *)
Example buy_against_open_sells :
  exists r w',
    executeTradeFromSignal flat_runtime book_gateway buy_X
      (boot book_X (fun _ => 0%Z) (fun _ => 0)) = (Returned r, w')
    /\ success r = true
    /\ filter (fun e => match e with EvLog _ _ _ => false | _ => true end)
              (trace w')
       = [ EvGetOrders "X"; EvCancelOrder "s1"; EvCancelOrder "s2";
           EvSleep 1000;
           EvSubmitOrder {| od_symbol := "X"; od_qty := 9; od_side := "buy";
                            od_type := "market"; od_time_in_force := "day";
                            od_client_order_id := "automation_#" |} ]
    /\ In (EvLog Warn "Failed to cancel order s2:" ["order is not cancelable"])
          (trace w').
Proof.
  do 2 eexists. split; [vm_compute; reflexivity|].
  split; [reflexivity|]. split; [reflexivity|].
  vm_compute. tauto.
Qed.

Lemma submit_follows_reading_example :
  exists r w' seg,
    executeTradeFromSignal flat_runtime book_gateway buy_X
      (boot book_X (fun _ => 0%Z) (fun _ => 0)) = (Returned r, w')
    /\ trace w' = seg
    /\ exists cancels,
         cancel_requests cancels = ["s1"; "s2"]
         /\ In (EvSleep 1000)
               (cancellation_segment flat_runtime buy_X
                  (filter (oppositeSide buy_X)
                          (filter (fun o => String.eqb (order_symbol o) "X")
                                  (open_orders book_X))) cancels).
Proof.
  destruct (opposing_orders_cancelled_before_submit flat_runtime book_gateway
              (boot book_X (fun _ => 0%Z) (fun _ => 0)) buy_X)
    as (r & w' & seg & E & Htr & _ & H).
  exists r, w', seg. split; [exact E|]. split; [exact Htr|].
  destruct (H _ _ eq_refl)
    as (executing & cancels & od & closing & _ & _ & _ & _ & _ & _ & Hreq
        & _ & _ & _).
  exists cancels. split; [exact Hreq|].
  cbn. right. apply in_or_app. right. left. reflexivity.
Defined.

(** C1, the claim as stated fails: a BUY for ["X"] with no open order on
    the book is submitted with no delay at all. *)
Lemma submit_without_settle_delay :
  exists (w : World Book) (sig : Signal),
    forall P,
      exists r w',
        executeTradeFromSignal P book_gateway sig w = (Returned r, w')
        /\ success r = true
        /\ existsb is_submit (trace w') = true
        /\ forall ms, ~ In (EvSleep ms) (trace w').
Proof.
  exists (boot empty_book (fun _ => 0%Z) (fun _ => 0)), buy_X.
  intro P. do 2 eexists. split; [reflexivity|].
  split; [reflexivity|]. split; [reflexivity|].
  intros ms H. cbn in H.
  repeat destruct H as [H|H]; try discriminate H; exact H.
Qed.

(** C9, as amended.  [executeTradeFromSignal] never throws.  It returns a
    record carrying the signal; on success [success = true], the id the
    gateway answered to the submission, and the position size; on failure
    [success = false] and the message of the gateway call that failed, with
    neither an order id nor a position size. *)
Theorem executeTradeFromSignal_never_throws {G : Type} (P : Platform)
    (alpaca : Gateway G) (w : World G) (sig : Signal) :
  exists r w',
    executeTradeFromSignal P alpaca sig w = (Returned r, w')
    /\ result_signal r = sig
    /\ ((success r = true /\ error r = None
         /\ positionSize r
            = Some (getPositionSize (confidence sig)
                      (AT.maxPositionSize (trader w)))
         /\ exists id od g g',
              orderId r = Some id
              /\ post_order alpaca od g = (Returned id, g')
              /\ od_symbol od = symbol sig
              /\ od_side od = toLowerCase (signal sig)
              /\ od_qty od = getPositionSize (confidence sig)
                               (AT.maxPositionSize (trader w)))
        \/ (success r = false /\ orderId r = None /\ positionSize r = None
            /\ exists m,
                 error r = Some m
                 /\ ((exists g1,
                        get_open_orders alpaca (symbol sig) (broker w)
                        = (Thrown m, g1))
                     \/ (exists od g g',
                           post_order alpaca od g = (Thrown m, g')
                           /\ od_symbol od = symbol sig)))).
Proof.
  destruct (executeTradeFromSignal_run P alpaca w sig)
    as (r & w' & seg & E & _ & Hsig & executing & _ & Hcase).
  exists r, w'. split; [exact E|]. split; [exact Hsig|].
  destruct Hcase as [(m & g1 & Hget & Hr & _)
                    |(orders & g1 & cancels & od & tag & g2 & g3 & ans
                      & closing & _ & _ & Hod & Hpost & _ & Hans)].
  - right. rewrite Hr. cbn. repeat split. exists m. split; [reflexivity|].
    left. exists g1. exact Hget.
  - destruct ans as [id|m]; destruct Hans as (Hr & _); rewrite Hr.
    + left. cbn. repeat split.
      exists id, od, g2, g3. split; [reflexivity|]. split; [exact Hpost|].
      rewrite Hod. cbn. auto.
    + right. cbn. repeat split.
      exists m. split; [reflexivity|]. right.
      exists od, g2, g3. split; [exact Hpost|]. rewrite Hod. reflexivity.
Qed.

(** C9, the claim as stated fails: when the gateway cannot be reached the
    record returned has no [positionSize]. *)
Lemma failed_trade_has_no_positionSize :
  exists (w : World Book) (sig : Signal),
    forall P,
      exists r w',
        executeTradeFromSignal P book_gateway sig w = (Returned r, w')
        /\ success r = false /\ error r = Some "Network Error"
        /\ positionSize r = None.
Proof.
  exists (boot unreachable (fun _ => 0%Z) (fun _ => 0)), buy_X.
  intro P. do 2 eexists. split; [reflexivity|]. repeat split.
Qed.

(** ** The loop: start, stop, update *)

Section LoopRuns.
Context {G : Type} (P : Platform) (alpaca : Gateway G).

Lemma startTrading_enter_running (w : World G) symbols n :
  AT.isRunning (trader w) = true ->
  startTrading_enter P symbols n w
  = (Returned false,
     with_trace (trace w ++ [EvLog Warn "Automated trading is already running" []]) w).
Proof.
  intro H. unfold startTrading_enter, bind at 1, this_trader. rewrite H.
  reflexivity.
Qed.

Lemma startTrading_enter_stopped (w : World G) symbols n :
  AT.isRunning (trader w) = false ->
  exists w1,
    startTrading_enter P symbols n w = (Returned true, w1)
    /\ trader w1
       = AT.set_isRunning true
           (match symbols with
            | Some l => AT.set_watchedSymbols l (trader w)
            | None => trader w
            end)
    /\ generator w1 = generator w /\ timers w1 = timers w
    /\ next_handle w1 = next_handle w
    /\ exists a b, trace w1 = (trace w ++ [EvLog Info a []; EvLog Info b []])%list.
Proof.
  intro H. unfold startTrading_enter, bind at 1, this_trader. rewrite H.
  destruct symbols as [l|]; eexists; (split; [reflexivity|]); cbn;
    rewrite <- !app_assoc; cbn; repeat split; do 2 eexists; reflexivity.
Qed.

Lemma startTrading_arm_run (w : World G) n :
  exists w',
    startTrading_arm n w = (Returned tt, w')
    /\ trader w' = AT.set_tradingInterval (Some (next_handle w)) (trader w)
    /\ generator w' = generator w
    /\ timers w' = (timers w ++ [(next_handle w, (n * 60 * 1000)%Z)])%list
    /\ next_handle w' = S (next_handle w)
    /\ trace w'
       = (trace w ++ [EvSetInterval (next_handle w) (n * 60 * 1000)%Z;
                      EvLog Info "Automated trading started successfully" []])%list.
Proof.
  eexists. split; [reflexivity|]. cbn. rewrite <- !app_assoc. cbn.
  repeat split.
Qed.

Lemma stopTrading_stopped (w : World G) :
  AT.isRunning (trader w) = false ->
  stopTrading w
  = (Returned tt,
     with_trace (trace w ++ [EvLog Warn "Automated trading is not running" []]) w).
Proof.
  intro H. unfold stopTrading, bind at 1, this_trader. rewrite H. reflexivity.
Qed.

Lemma stopTrading_running (w : World G) :
  AT.isRunning (trader w) = true ->
  exists w',
    stopTrading w = (Returned tt, w')
    /\ trader w'
       = AT.set_tradingInterval None (AT.set_isRunning false (trader w))
    /\ generator w' = generator w
    /\ timers w'
       = match AT.tradingInterval (trader w) with
         | Some h => filter (fun t => negb (Nat.eqb (fst t) h)) (timers w)
         | None => timers w
         end
    /\ next_handle w' = next_handle w
    /\ exists seg, trace w' = (trace w ++ seg)%list.
Proof.
  intro H. unfold stopTrading, bind at 1, this_trader. rewrite H. cbn [negb].
  destruct (AT.tradingInterval (trader w)) as [h|] eqn:E.
  - eexists. split.
    + unfold bind, set_trader, this_trader. cbn. rewrite E. cbn. reflexivity.
    + cbn. rewrite <- !app_assoc. cbn. repeat split. eexists. reflexivity.
  - eexists. split.
    + unfold bind, set_trader, this_trader. cbn. rewrite E. cbn. reflexivity.
    + cbn. unfold AT.set_tradingInterval, AT.set_isRunning. cbn.
      rewrite E. repeat split. eexists. reflexivity.
Qed.

Lemma startTrading_running (w : World G) symbols n :
  AT.isRunning (trader w) = true ->
  startTrading P alpaca symbols n w
  = (Returned tt,
     with_trace (trace w ++ [EvLog Warn "Automated trading is already running" []]) w).
Proof.
  intro H. unfold startTrading, bind.
  rewrite (startTrading_enter_running w symbols n H). reflexivity.
Qed.

Lemma startTrading_stopped (w : World G) symbols n :
  AT.isRunning (trader w) = false ->
  exists w1 w2 w',
    startTrading_enter P symbols n w = (Returned true, w1)
    /\ checkAndExecuteTrades P alpaca w1 = (Returned tt, w2)
    /\ startTrading_arm n w2 = (Returned tt, w')
    /\ startTrading P alpaca symbols n w = (Returned tt, w')
    /\ steady w1 w2
    /\ trader w'
       = AT.set_tradingInterval (Some (next_handle w))
           (AT.set_isRunning true
              (match symbols with
               | Some l => AT.set_watchedSymbols l (trader w)
               | None => trader w
               end))
    /\ generator w' = generator w
    /\ timers w' = (timers w ++ [(next_handle w, (n * 60 * 1000)%Z)])%list
    /\ next_handle w' = S (next_handle w)
    /\ trace w'
       = (trace w2 ++ [EvSetInterval (next_handle w) (n * 60 * 1000)%Z;
                       EvLog Info "Automated trading started successfully" []])%list.
Proof.
  intro H.
  destruct (startTrading_enter_stopped w symbols n H)
    as (w1 & E1 & Ht1 & Hg1 & Htm1 & Hn1 & _).
  destruct (checkAndExecuteTrades_run P alpaca w1) as (w2 & E2 & Hs).
  destruct (startTrading_arm_run w2 n) as (w' & E3 & Ht3 & Hg3 & Htm3 & Hn3 & Htr3).
  exists w1, w2, w'.
  split; [exact E1|]. split; [exact E2|]. split; [exact E3|].
  split; [unfold startTrading, bind; rewrite E1, E2; exact E3|].
  split; [exact Hs|].
  destruct Hs as (Ht & Hg & Htm & Hn & _).
  rewrite Ht3, Hg3, Htm3, Hn3, Htr3, Ht, Hg, Htm, Hn, Ht1, Hg1, Htm1, Hn1.
  repeat split.
Qed.

Lemma updateParameters_run (w : World G) (params : Params) :
  exists w',
    updateParameters P params w = (Returned tt, w')
    /\ AT.isRunning (trader w') = AT.isRunning (trader w)
    /\ AT.tradingInterval (trader w') = AT.tradingInterval (trader w)
    /\ AT.watchedSymbols (trader w')
       = match param_symbols params with
         | Some l => l
         | None => AT.watchedSymbols (trader w)
         end
    /\ AT.maxPositionSize (trader w')
       = match param_maxPositionSize params with
         | Some m => if truthy m then m else AT.maxPositionSize (trader w)
         | None => AT.maxPositionSize (trader w)
         end
    /\ AT.minConfidence (trader w')
       = match param_minConfidence params with
         | Some c => if truthy c then c else AT.minConfidence (trader w)
         | None => AT.minConfidence (trader w)
         end
    /\ generator w' = generator w /\ timers w' = timers w
    /\ next_handle w' = next_handle w
    /\ exists seg, trace w' = (trace w ++ seg)%list.
Proof.
  unfold updateParameters, bind at 1, this_trader.
  destruct params as [[l|] [m|] [c|]]; cbn [param_symbols param_maxPositionSize param_minConfidence];
    try destruct (truthy m); try destruct (truthy c);
    unfold bind, set_trader, log, emit, ret; cbn;
    try destruct (AT.isRunning (trader w)) eqn:E;
    eexists; (split; [reflexivity|]); cbn; rewrite ?E;
    repeat split;
    first [ exists []; symmetry; apply app_nil_r
          | rewrite <- ?app_assoc; eexists; reflexivity ].
Qed.

Lemma consistent_ext (w w' : World G) :
  trader w' = trader w -> timers w' = timers w ->
  consistent w -> consistent w'.
Proof. unfold consistent. intros -> ->. auto. Qed.

Lemma serve_consistent (r : request) (w : World G) :
  consistent w ->
  exists w', serve P alpaca r w = (Returned tt, w') /\ consistent w'.
Proof.
  intro Hc. destruct r as [symbols n| |params| |h]; cbn [serve].
  - destruct (AT.isRunning (trader w)) eqn:Erun.
    + rewrite (startTrading_running w symbols n Erun).
      eexists. split; [reflexivity|]. exact Hc.
    + destruct (startTrading_stopped w symbols n Erun)
        as (w1 & w2 & w' & _ & _ & _ & E & _ & Ht & _ & Htm & _).
      exists w'. split; [exact E|].
      unfold consistent in *. rewrite Ht, Htm.
      destruct (AT.tradingInterval (trader w)) as [h|];
        [destruct Hc; congruence|].
      destruct Hc as [_ ->]. cbn. split; [reflexivity|]. eexists. reflexivity.
  - destruct (AT.isRunning (trader w)) eqn:Erun.
    + destruct (stopTrading_running w Erun)
        as (w' & E & Ht & _ & Htm & _).
      exists w'. split; [exact E|].
      unfold consistent in *. rewrite Ht, Htm.
      destruct (AT.tradingInterval (trader w)) as [h|].
      * destruct Hc as [_ [ms ->]]. cbn. rewrite Nat.eqb_refl. cbn. auto.
      * destruct Hc; congruence.
    + rewrite (stopTrading_stopped w Erun).
      eexists. split; [reflexivity|]. exact Hc.
  - destruct (updateParameters_run w params)
      as (w' & E & Hr & Hi & _ & _ & _ & _ & Htm & _).
    exists w'. split; [exact E|].
    unfold consistent in *. rewrite Hr, Hi, Htm. exact Hc.
  - destruct (checkAndExecuteTrades_run P alpaca w) as (w' & E & Ht & _ & Htm & _).
    exists w'. split; [exact E|]. exact (consistent_ext w w' Ht Htm Hc).
  - unfold timer_fires. destruct (existsb _ (timers w)).
    + destruct (checkAndExecuteTrades_run P alpaca w) as (w' & E & Ht & _ & Htm & _).
      exists w'. split; [exact E|]. exact (consistent_ext w w' Ht Htm Hc).
    + exists w. split; [reflexivity | exact Hc].
Qed.

Lemma consistent_one_timer (w : World G) :
  consistent w -> (List.length (timers w) <= 1)%nat.
Proof.
  unfold consistent. destruct (AT.tradingInterval (trader w)).
  - intros [_ [ms ->]]. cbn. lia.
  - intros [_ ->]. cbn. lia.
Qed.

Lemma overlapping_stop_run (w : World G) (n n' : Z) :
  AT.isRunning (trader w) = false -> timers w = [] ->
  exists w',
    stop_during_first_cycle P alpaca n n' w = (Returned tt, w')
    /\ timers w' = [(next_handle w, (n * 60 * 1000)%Z);
                    (S (next_handle w), (n' * 60 * 1000)%Z)]
    /\ AT.isRunning (trader w') = true
    /\ AT.tradingInterval (trader w') = Some (S (next_handle w))
    /\ exists w'',
         stopTrading w' = (Returned tt, w'')
         /\ AT.isRunning (trader w'') = false
         /\ AT.tradingInterval (trader w'') = None
         /\ timers w'' = [(next_handle w, (n * 60 * 1000)%Z)].
Proof.
  intros Hrun Htm.
  destruct (startTrading_enter_stopped w None n Hrun)
    as (w1 & E1 & Ht1 & _ & Htm1 & Hn1 & _).
  assert (AT.isRunning (trader w1) = true) as Hrun1 by (rewrite Ht1; reflexivity).
  destruct (stopTrading_running w1 Hrun1) as (w2 & E2 & Ht2 & _ & Htm2 & Hn2 & _).
  destruct (checkAndExecuteTrades_run P alpaca w2)
    as (w3 & E3 & Ht3 & _ & Htm3 & Hn3 & _).
  destruct (startTrading_arm_run w3 n) as (w4 & E4 & Ht4 & _ & Htm4 & Hn4 & _).
  assert (AT.isRunning (trader w4) = false) as Hrun4.
  { rewrite Ht4, Ht3, Ht2. reflexivity. }
  destruct (startTrading_stopped w4 None n' Hrun4)
    as (w5 & w6 & w7 & _ & _ & _ & E7 & _ & Ht7 & _ & Htm7 & Hn7 & _).
  assert (timers w2 = []) as Htm2'.
  { rewrite Htm2, Htm1, Htm. destruct (AT.tradingInterval (trader w1)); reflexivity. }
  assert (next_handle w4 = S (next_handle w)) as Hh4.
  { rewrite Hn4, Hn3, Hn2, Hn1. reflexivity. }
  assert (timers w4 = [(next_handle w, (n * 60 * 1000)%Z)]) as Htm4'.
  { rewrite Htm4, Htm3, Htm2', Hn3, Hn2, Hn1. reflexivity. }
  exists w7. split.
  { unfold stop_during_first_cycle, bind. rewrite E1, E2, E3, E4. exact E7. }
  rewrite Htm7, Ht7, Htm4', Hh4. cbn.
  repeat (split; [reflexivity|]).
  assert (AT.isRunning (trader w7) = true) as Hrun7 by (rewrite Ht7; reflexivity).
  destruct (stopTrading_running w7 Hrun7) as (w8 & E8 & Ht8 & _ & Htm8 & _).
  exists w8. split; [exact E8|]. rewrite Ht8, Htm8, Ht7, Htm7, Htm4', Hh4. cbn.
  rewrite Nat.eqb_refl.
  replace (next_handle w =? S (next_handle w))%nat with false
    by (symmetry; apply Nat.eqb_neq; lia).
  repeat split.
Qed.

Lemma since_steady (w0 w w' : World G) (e : event) :
  since w0 e w -> steady w w' -> since w0 e w'.
Proof.
  intros (a & b & H) (_ & _ & _ & _ & _ & _ & seg & Hs).
  exists a, (b ++ seg)%list. rewrite Hs, H, <- !app_assoc. reflexivity.
Qed.

Lemma since_emit (w0 w : World G) (e : event) :
  steady w0 w -> since w0 e (snd (emit e w)).
Proof.
  intros (_ & _ & _ & _ & _ & _ & seg & Hs).
  exists seg, []. cbn. rewrite Hs, <- app_assoc. reflexivity.
Qed.

Lemma since_bind_now {A B} (m : M G A) (k : A -> M G B) w0 w e :
  since w0 e (snd (m w)) -> (forall a, calm (k a)) ->
  since w0 e (snd (bind m k w)).
Proof.
  intros H Hk. unfold bind. destruct (m w) as [[a|msg] w1]; cbn in *.
  - eapply since_steady; [exact H|]. apply Hk.
  - exact H.
Qed.

Lemma since_bind_later {A B} (m : M G A) (k : A -> M G B) w0 w e :
  total m ->
  (forall a w1, m w = (Returned a, w1) -> since w0 e (snd (k a w1))) ->
  since w0 e (snd (bind m k w)).
Proof.
  intros Hm H. unfold bind. destruct (total_run m w Hm) as (a & w1 & E).
  rewrite E. exact (H a w1 E).
Qed.

Lemma since_try_catch {A} (body : M G A) (handler : string -> M G A) w0 w e :
  since w0 e (snd (body w)) -> (forall msg, calm (handler msg)) ->
  since w0 e (snd (try_catch body handler w)).
Proof.
  intros H Hk. unfold try_catch. destruct (body w) as [[a|msg] w1]; cbn in *.
  - exact H.
  - eapply since_steady; [exact H|]. apply Hk.
Qed.

Lemma total_generateRSISignal (sym : string) :
  total (G:=G) (generateRSISignal P sym).
Proof.
  intro w. destruct (generateRSISignal_sound P w sym) as (s & w' & E & _).
  exists s. rewrite E. reflexivity.
Qed.

(** A cycle over a watchlist that is not empty waits at least once: it has
    a point where other requests are served. *)
Lemma cycle_suspends (w : World G) :
  AT.watchedSymbols (trader w) <> [] ->
  since w (EvSleep 100) (snd (checkAndExecuteTrades P alpaca w)).
Proof.
  intro Hne. unfold checkAndExecuteTrades.
  pose proof (calm_collectSignals (G:=G) P) as Hcs.
  pose proof (calm_executeTradeFromSignal P alpaca) as Hex.
  pose proof (calm_generateRSISignal (G:=G) P) as Hgen.
  apply since_try_catch; [|intro; calm_steps].
  apply since_bind_later; [intro; eexists; reflexivity|].
  intros [] w1 E1. injection E1 as <-.
  apply since_bind_later; [intro; eexists; reflexivity|].
  intros t w2 E2. injection E2 as <- <-.
  apply since_bind_now; [|intro; calm_steps].
  unfold generateSignalsForSymbols. cbn [trader with_trace].
  destruct (AT.watchedSymbols (trader w)) as [|sym rest]; [contradiction|].
  cbn [collectSignals].
  apply since_bind_now; [|intro; apply Hcs].
  apply since_try_catch; [|intro; unfold errorSignal; calm_steps].
  apply since_bind_later; [apply total_generateRSISignal|].
  intros s w3 E3.
  apply since_bind_now; [|intro; calm_steps].
  apply since_emit.
  pose proof (Hgen sym (with_trace (trace w ++ [EvLog Info "Checking trading signals..." []]) w)) as H3.
  rewrite E3 in H3. cbn [snd] in H3.
  eapply steady_trans; [|exact H3].
  apply (calm_log Info "Checking trading signals..." [] w).
Qed.

End LoopRuns.




(** C6, the claim fails on the code.  With the default watchlist the first
    cycle of [start] waits, so a [stop] can be served while [start] is still
    suspended in it.  [stop] then finds no handle to clear and only lowers
    the flag; [start] resumes and arms its timer while Stopped; the next
    [start] finds the flag down and arms a second one.  Two timers are armed,
    the loop holds the handle of the second only, and a later [stop] leaves
    the first armed for good. *)
Theorem stop_during_first_cycle_leaves_two_timers :
  exists (w : World Book),
    consistent w /\ AT.isRunning (trader w) = false
    /\ forall P,
         exists w1 w',
           startTrading_enter P None 10 w = (Returned true, w1)
           /\ since w1 (EvSleep 100)
                (snd (checkAndExecuteTrades P book_gateway w1))
           /\ stop_during_first_cycle P book_gateway 10 10 w
              = (Returned tt, w')
           /\ timers w' = [(0%nat, 600000%Z); (1%nat, 600000%Z)]
           /\ AT.tradingInterval (trader w') = Some 1%nat
           /\ ~ consistent w'
           /\ exists w'',
                stopTrading w' = (Returned tt, w'')
                /\ AT.isRunning (trader w'') = false
                /\ timers w'' = [(0%nat, 600000%Z)].
Proof.
  exists (boot empty_book (fun _ => 0%Z) (fun _ => 1 # 2)).
  split; [split; reflexivity|]. split; [reflexivity|]. intro P.
  destruct (startTrading_enter_stopped P
              (boot empty_book (fun _ => 0%Z) (fun _ => 1 # 2)) None 10
              eq_refl) as (w1 & E1 & Ht1 & _).
  destruct (overlapping_stop_run P book_gateway
              (boot empty_book (fun _ => 0%Z) (fun _ => 1 # 2)) 10 10
              eq_refl eq_refl)
    as (w' & E & Htm & _ & Hh & w'' & E' & Hrun' & _ & Htm').
  exists w1, w'. split; [exact E1|]. split.
  { apply cycle_suspends. rewrite Ht1. discriminate. }
  split; [exact E|]. split; [exact Htm|]. split; [exact Hh|]. split.
  - unfold consistent. rewrite Hh, Htm. intros [_ [ms H]]. discriminate H.
  - exists w''. split; [exact E'|]. split; [exact Hrun' | exact Htm'].
Qed.

(** C8, the claim fails on the code.  [updateParameters({minConfidence: 0})]
    leaves [minConfidence] at 0.7 and logs nothing: the field is tested for
    truthiness, and 0 is falsy. *)
Theorem updateParameters_ignores_a_zero_minConfidence :
  exists (w : World Book) (params : Params),
    param_minConfidence params = Some 0
    /\ forall P,
         exists w',
           updateParameters P params w = (Returned tt, w')
           /\ AT.minConfidence (trader w') = 7 # 10
           /\ ~ AT.minConfidence (trader w') == 0
           /\ trace w' = trace w.
Proof.
  exists (boot empty_book (fun _ => 0%Z) (fun _ => 1 # 2)),
         {| param_symbols := None; param_maxPositionSize := None;
            param_minConfidence := Some 0 |}.
  split; [reflexivity|]. intro P. eexists. split; [reflexivity|].
  cbn. repeat split. discriminate.
Qed.

Lemma truthy_nonzero (x : Q) : truthy x = true <-> ~ x == 0.
Proof.
  unfold truthy. rewrite negb_true_iff. split.
  - intros H E. apply Qeq_bool_iff in E. congruence.
  - intro H. destruct (Qeq_bool x 0) eqn:E; [|reflexivity].
    apply Qeq_bool_iff in E. contradiction.
Qed.

(** X3.  [updateParameters]: a watchlist given replaces the watchlist; a
    maximum or a minimum given and not zero replaces the old one; a field
    left out stays; the flag, the handle, the timers and the generator are
    not touched. *)
Theorem updateParameters_merges_and_frames {G : Type} (P : Platform)
    (w : World G) (params : Params) :
  exists w',
    updateParameters P params w = (Returned tt, w')
    /\ (forall l, param_symbols params = Some l ->
          AT.watchedSymbols (trader w') = l)
    /\ (forall m, param_maxPositionSize params = Some m -> ~ m == 0 ->
          AT.maxPositionSize (trader w') = m)
    /\ (forall c, param_minConfidence params = Some c -> ~ c == 0 ->
          AT.minConfidence (trader w') = c)
    /\ (param_symbols params = None ->
          AT.watchedSymbols (trader w') = AT.watchedSymbols (trader w))
    /\ (param_maxPositionSize params = None ->
          AT.maxPositionSize (trader w') = AT.maxPositionSize (trader w))
    /\ (param_minConfidence params = None ->
          AT.minConfidence (trader w') = AT.minConfidence (trader w))
    /\ AT.isRunning (trader w') = AT.isRunning (trader w)
    /\ AT.tradingInterval (trader w') = AT.tradingInterval (trader w)
    /\ generator w' = generator w /\ timers w' = timers w.
Proof.
  destruct (updateParameters_run P w params)
    as (w' & E & Hr & Hi & Hs & Hm & Hc & Hg & Htm & _).
  exists w'. split; [exact E|].
  rewrite Hs, Hm, Hc, Hr, Hi, Hg, Htm.
  split; [intros l ->; reflexivity|].
  split; [intros m -> Hnz; apply truthy_nonzero in Hnz; rewrite Hnz;
          reflexivity|].
  split; [intros c -> Hnz; apply truthy_nonzero in Hnz; rewrite Hnz;
          reflexivity|].
  split; [intros ->; reflexivity|].
  split; [intros ->; reflexivity|].
  split; [intros ->; reflexivity|].
  repeat split.
Qed.

(** X1.  Requests served one after the other, each to its end, keep flag, handle
    and timers in agreement; at most one timer is armed. *)
Theorem completed_requests_keep_one_timer {G : Type} (P : Platform)
    (alpaca : Gateway G) (requests : list request) :
  forall w : World G,
    consistent w ->
    exists w',
      for_each requests (serve P alpaca) w = (Returned tt, w')
      /\ consistent w' /\ (List.length (timers w') <= 1)%nat.
Proof.
  induction requests as [|r rest IH]; intros w Hc.
  - exists w. split; [reflexivity|]. split; [exact Hc|].
    apply consistent_one_timer. exact Hc.
  - destruct (serve_consistent P alpaca r w Hc) as (w1 & E1 & Hc1).
    destruct (IH w1 Hc1) as (w' & E & Hc' & Hlen).
    exists w'. cbn [for_each]. unfold bind. rewrite E1. auto.
Qed.

Lemma completed_requests_example :
  exists w',
    for_each [Start None 10; Start None 5; Stop; Start (Some ["SPY"]) 1]
      (serve flat_runtime book_gateway)
      (boot empty_book (fun _ => 0%Z) (fun _ => 1 # 2)) = (Returned tt, w')
    /\ consistent w' /\ (List.length (timers w') <= 1)%nat.
Proof.
  apply (completed_requests_keep_one_timer flat_runtime book_gateway).
  split; reflexivity.
Defined.

(** X2.  [start] while Running only logs a warning; two [start]s in a row from
    Stopped leave exactly the timer of the first. *)
Theorem start_twice_arms_one_timer {G : Type} (P : Platform)
    (alpaca : Gateway G) (w : World G) (s1 s2 : option (list string))
    (n1 n2 : Z) :
  (AT.isRunning (trader w) = true ->
   startTrading P alpaca s1 n1 w
   = (Returned tt,
      with_trace
        (trace w ++ [EvLog Warn "Automated trading is already running" []])
        w))
  /\ (AT.isRunning (trader w) = false -> timers w = [] ->
      exists w',
        (startTrading P alpaca s1 n1 ;; startTrading P alpaca s2 n2) w
        = (Returned tt, w')
        /\ timers w' = [(next_handle w, (n1 * 60 * 1000)%Z)]
        /\ AT.tradingInterval (trader w') = Some (next_handle w)
        /\ AT.isRunning (trader w') = true).
Proof.
  split; [apply startTrading_running|].
  intros Hrun Htm.
  destruct (startTrading_stopped P alpaca w s1 n1 Hrun)
    as (w1 & w2 & w' & _ & _ & _ & E & _ & Ht & _ & Htm' & _).
  assert (AT.isRunning (trader w') = true) as Hrun'
    by (rewrite Ht; reflexivity).
  eexists. split.
  - unfold bind. rewrite E. apply (startTrading_running P alpaca w' s2 n2 Hrun').
  - cbn [timers trader with_trace]. rewrite Htm', Htm, Ht.
    repeat split.
Qed.

Lemma start_twice_example :
  exists w',
    (startTrading flat_runtime book_gateway None 10 ;;
     startTrading flat_runtime book_gateway None 10)
      (boot empty_book (fun _ => 0%Z) (fun _ => 1 # 2)) = (Returned tt, w')
    /\ timers w' = [(0%nat, 600000%Z)]
    /\ AT.tradingInterval (trader w') = Some 0%nat
    /\ AT.isRunning (trader w') = true.
Proof.
  apply (start_twice_arms_one_timer flat_runtime book_gateway
           (boot empty_book (fun _ => 0%Z) (fun _ => 1 # 2)));
    reflexivity.
Defined.

(** ** Further properties of the two services *)

(** X6.  Without the test branch (indicators not marked as mock data) the RSI
    alone decides: below [rsiOversold] BUY, above [rsiOverbought] SELL,
    otherwise HOLD at confidence 0. *)
Theorem rsi_decides_the_signal {G : Type} (P : Platform) (w : World G)
    (sym : string) (ind : Indicators) (Hreal : isMockData ind = false) :
  exists s w',
    signalFromIndicators P sym ind w = (Returned s, w')
    /\ (rsi ind < SG.rsiOversold (generator w) -> signal s = BUY)
    /\ (SG.rsiOversold (generator w) <= rsi ind ->
        SG.rsiOverbought (generator w) < rsi ind -> signal s = SELL)
    /\ (SG.rsiOversold (generator w) <= rsi ind ->
        rsi ind <= SG.rsiOverbought (generator w) ->
        signal s = HOLD /\ confidence s == 0).
Proof.
  unfold signalFromIndicators, bind, this_generator, ret, log, emit.
  destruct (Qltb (rsi ind) (SG.rsiOversold (generator w))) eqn:Ebuy.
  { apply Qltb_lt in Ebuy. js_step.
    destruct (Qltb (sma20 ind) (currentPrice ind));
      (do 2 eexists; split; [reflexivity|]; cbn [signal];
       repeat split; intros; try reflexivity; lra). }
  apply Qltb_ge in Ebuy.
  destruct (Qltb (SG.rsiOverbought (generator w)) (rsi ind)) eqn:Esell.
  { apply Qltb_lt in Esell. js_step.
    destruct (Qltb (currentPrice ind) (sma20 ind));
      (do 2 eexists; split; [reflexivity|]; cbn [signal];
       repeat split; intros; try reflexivity; lra). }
  apply Qltb_ge in Esell. rewrite Hreal. js_step.
  do 2 eexists. split; [reflexivity|]. cbn [signal confidence].
  repeat split; intros; try reflexivity; try lra.
Qed.

Lemma rsi_decides_the_signal_example :
  exists s w',
    signalFromIndicators flat_runtime "X" example_indicators
      (boot empty_book (fun _ => 0%Z) (fun _ => 0)) = (Returned s, w')
    /\ signal s = BUY.
Proof.
  destruct (rsi_decides_the_signal flat_runtime
              (boot empty_book (fun _ => 0%Z) (fun _ => 0)) "X"
              example_indicators eq_refl) as (s & w' & E & Hbuy & _).
  exists s, w'. split; [exact E|]. apply Hbuy. reflexivity.
Defined.

(** X7.  A batch answers one signal per symbol, in the order given, and never
    throws. *)
Theorem batch_keeps_the_order {G : Type} (P : Platform) (w : World G)
    (symbols : list string) :
  exists signals w',
    generateSignalsForSymbols P symbols w = (Returned signals, w')
    /\ map symbol signals = symbols.
Proof.
  destruct (collectSignals_sound P symbols [] w (fun _ => True))
    as (signals & w' & E & _ & _ & _ & Hmap).
  - intros w0 sym _.
    destruct (generateRSISignal_sound P w0 sym)
      as (s & w1 & E & Hg & Ht & Hsym & _).
    exists s, w1. auto.
  - constructor.
  - exists signals, w'. split; [exact E | exact Hmap].
Qed.

(** X8.  A cycle never throws, whatever the gateway does, and changes neither
    service's fields nor the timers. *)
Theorem cycle_never_throws {G : Type} (P : Platform) (alpaca : Gateway G)
    (w : World G) :
  exists w',
    checkAndExecuteTrades P alpaca w = (Returned tt, w')
    /\ trader w' = trader w /\ generator w' = generator w
    /\ timers w' = timers w
    /\ exists seg, trace w' = (trace w ++ seg)%list.
Proof.
  destruct (checkAndExecuteTrades_run P alpaca w)
    as (w' & E & Ht & Hg & Htm & _ & _ & _ & Hseg).
  exists w'. auto.
Qed.



Lemma mock_averages_near_price_example :
  Qabs (sma20 (generateMockIndicators flat_runtime 0 (1 # 4) (3 # 4) "SPY")
        - currentPrice
            (generateMockIndicators flat_runtime 0 (1 # 4) (3 # 4) "SPY"))
  <= 5
  /\ Qabs (sma50 (generateMockIndicators flat_runtime 0 (1 # 4) (3 # 4) "SPY")
           - currentPrice
               (generateMockIndicators flat_runtime 0 (1 # 4) (3 # 4) "SPY"))
     <= 75 # 10.
Proof.
  apply (mock_averages_near_price flat_runtime 0 (1 # 4) (3 # 4) "SPY");
    unfold Qle, Qlt; cbn; lia.
Defined.

(** * Further properties *)

(** ** The orders of a cycle *)

Section Emits.
Context {G : Type}.

Lemma emits_ret {A} (Q : event -> Prop) (a : A) : emits (G:=G) Q (ret a).
Proof. intro w. exists []. cbn. rewrite app_nil_r. auto. Qed.

Lemma emits_bind {A B} (Q : event -> Prop) (m : M G A) (k : A -> M G B) :
  emits Q m -> (forall a, emits Q (k a)) -> emits Q (bind m k).
Proof.
  intros Hm Hk w. unfold bind. destruct (Hm w) as (s1 & E1 & F1).
  destruct (m w) as [[a|e] w1]; cbn in *.
  - destruct (Hk a w1) as (s2 & E2 & F2). exists (s1 ++ s2)%list.
    rewrite E2, E1, app_assoc. split; [reflexivity|].
    apply Forall_app. auto.
  - exists s1. auto.
Qed.

Lemma emits_try_catch {A} (Q : event -> Prop) (body : M G A)
    (handler : string -> M G A) :
  emits Q body -> (forall e, emits Q (handler e)) ->
  emits Q (try_catch body handler).
Proof.
  intros Hm Hk w. unfold try_catch. destruct (Hm w) as (s1 & E1 & F1).
  destruct (body w) as [[a|e] w1]; cbn in *.
  - exists s1. auto.
  - destruct (Hk e w1) as (s2 & E2 & F2). exists (s1 ++ s2)%list.
    rewrite E2, E1, app_assoc. split; [reflexivity|].
    apply Forall_app. auto.
Qed.

Lemma emits_emit (Q : event -> Prop) (e : event) :
  Q e -> emits (G:=G) Q (emit e).
Proof. intros H w. exists [e]. cbn. auto. Qed.

Lemma emits_log (Q : event -> Prop) l t a :
  Q (EvLog l t a) -> emits (G:=G) Q (log l t a).
Proof. apply emits_emit. Qed.

Lemma emits_sleep (Q : event -> Prop) ms :
  Q (EvSleep ms) -> emits (G:=G) Q (sleep ms).
Proof. apply emits_emit. Qed.

Lemma emits_Date_now (Q : event -> Prop) : emits (G:=G) Q Date_now.
Proof. intro w. exists []. cbn. rewrite app_nil_r. auto. Qed.

Lemma emits_Math_random (Q : event -> Prop) : emits (G:=G) Q Math_random.
Proof. intro w. exists []. cbn. rewrite app_nil_r. auto. Qed.

Lemma emits_this_trader (Q : event -> Prop) : emits (G:=G) Q this_trader.
Proof. intro w. exists []. cbn. rewrite app_nil_r. auto. Qed.

Lemma emits_this_generator (Q : event -> Prop) :
  emits (G:=G) Q this_generator.
Proof. intro w. exists []. cbn. rewrite app_nil_r. auto. Qed.

Lemma emits_set_trader (Q : event -> Prop) t : emits (G:=G) Q (set_trader t).
Proof. intro w. exists []. cbn. rewrite app_nil_r. auto. Qed.

Lemma emits_set_generator (Q : event -> Prop) g :
  emits (G:=G) Q (set_generator g).
Proof. intro w. exists []. cbn. rewrite app_nil_r. auto. Qed.

Lemma emits_for_each {A} (Q : event -> Prop) (xs : list A)
    (body : A -> M G unit) :
  (forall x, emits Q (body x)) -> emits Q (for_each xs body).
Proof.
  intro Hb. induction xs as [|x rest IH]; cbn.
  - apply emits_ret.
  - apply emits_bind; [apply Hb | intros _; exact IH].
Qed.

End Emits.

Create HintDb emits.
#[local] Hint Resolve emits_ret emits_Date_now emits_Math_random
  emits_this_trader emits_this_generator emits_set_trader
  emits_set_generator : emits.
#[local] Hint Extern 1 (emits _ (log _ _ _)) =>
  (apply emits_log; exact I) : emits.
#[local] Hint Extern 1 (emits _ (sleep _)) =>
  (apply emits_sleep; exact I) : emits.

Ltac emits_steps :=
  repeat first
    [ solve [auto with emits]
    | match goal with
      | |- emits _ (bind _ _) => apply emits_bind; [|intro]
      | |- emits _ (try_catch _ _) => apply emits_try_catch; [|intro]
      | |- emits _ (for_each _ _) => apply emits_for_each; intro
      | |- emits _ (if ?b then _ else _) => destruct b
      | |- emits _ (match ?x with _ => _ end) => destruct x
      | |- emits _ (let _ := _ in _) => cbv zeta
      end ].

Section CycleOrders.
Context {G : Type} (P : Platform) (alpaca : Gateway G).

Lemma local_signalFromIndicators sym ind :
  emits (G:=G) is_local (signalFromIndicators P sym ind).
Proof. unfold signalFromIndicators. emits_steps. Qed.

Lemma local_generateRSISignal sym :
  emits (G:=G) is_local (generateRSISignal P sym).
Proof.
  pose proof local_signalFromIndicators.
  unfold generateRSISignal, mockIndicators, errorSignal. emits_steps.
Qed.

Lemma local_collectSignals symbols :
  forall acc, emits (G:=G) is_local (collectSignals P symbols acc).
Proof.
  pose proof local_generateRSISignal.
  induction symbols as [|sym rest IH]; intro acc; cbn [collectSignals];
    unfold errorSignal; emits_steps.
Qed.


Lemma emits_run {A} (Q : event -> Prop) (m : M G A) (w : World G) r w' :
  emits Q m -> m w = (r, w') ->
  exists seg, trace w' = (trace w ++ seg)%list /\ Forall Q seg.
Proof. intros H E. specialize (H w). rewrite E in H. exact H. Qed.

Lemma cancel_pass_events (t : AT.state) (sig : Signal) opp evs :
  cancel_pass sig opp evs ->
  Forall (trade_event t sig) evs /\ submissions evs = [].
Proof.
  induction 1 as [|o rest evs _ [IH1 IH2]|o m rest evs _ [IH1 IH2]]; cbn;
    auto using Forall_nil; split; auto; repeat constructor; exact IH1.
Qed.

Lemma cancellation_segment_events (t : AT.state) (sig : Signal) opp evs :
  cancel_pass sig opp evs ->
  Forall (trade_event t sig) (cancellation_segment P sig opp evs)
  /\ submissions (cancellation_segment P sig opp evs) = [].
Proof.
  intro H. destruct (cancel_pass_events t sig opp evs H) as [H1 H2].
  unfold cancellation_segment. destruct opp; [split; constructor|].
  split.
  - constructor; [exact I|]. apply Forall_app. split; [exact H1|].
    repeat constructor.
  - unfold submissions in *. cbn. rewrite flat_map_app, H2. reflexivity.
Qed.

Lemma trade_run (w : World G) (sig : Signal) :
  exists (r : TradeResult) (w' : World G) (seg : list event),
    executeTradeFromSignal P alpaca sig w = (Returned r, w')
    /\ trace w' = (trace w ++ seg)%list
    /\ trader w' = trader w
    /\ Forall (trade_event (trader w) sig) seg
    /\ (submissions seg = []
        \/ exists od, submissions seg = [od]
                      /\ automation_order (trader w) sig od).
Proof.
  destruct (executeTradeFromSignal_run P alpaca w sig)
    as (r & w' & seg & E & Htr & _ & executing & [txt ->] & Hcase).
  exists r, w', seg. split; [exact E|]. split; [exact Htr|].
  split.
  { pose proof (calm_executeTradeFromSignal P alpaca sig w) as H.
    rewrite E in H. apply H. }
  destruct Hcase as [(m & g1 & _ & _ & ->)
    | (orders & g1 & cancels & od & tag & g2 & g3 & ans & closing
       & _ & Hp & Hod & _ & -> & Hans)].
  - split; [repeat constructor | left; reflexivity].
  - destruct (cancellation_segment_events (trader w) sig _ _ Hp) as [H1 H2].
    assert (Hauto : automation_order (trader w) sig od).
    { subst od. repeat split. cbn. destruct tag; reflexivity. }
    assert (Hclosing : trade_event (trader w) sig closing).
    { destruct ans as [id|m]; [destruct Hans as (_ & args & ->)
                              | destruct Hans as (_ & ->)]; exact I. }
    split.
    + repeat constructor. apply Forall_app. split; [exact H1|].
      constructor; [exact Hauto|]. constructor; [exact Hclosing|constructor].
    + right. exists od. split; [|exact Hauto].
      unfold submissions in *. cbn [app flat_map].
      rewrite flat_map_app, H2. cbn.
      destruct ans as [id|m]; [destruct Hans as (_ & args & ->)
                              | destruct Hans as (_ & ->)]; reflexivity.
Qed.

Lemma picked_filter {A} (f : A -> bool) (l : list A) : picked (filter f l) l.
Proof.
  induction l as [|x l IH]; cbn; [constructor|].
  destruct (f x); constructor; exact IH.
Qed.

Lemma picked_trans {A} (l1 l2 l3 : list A) :
  picked l1 l2 -> picked l2 l3 -> picked l1 l3.
Proof.
  intros H12 H23. revert l1 H12.
  induction H23 as [|x l2 l3 _ IH|x l2 l3 _ IH]; intros l1 H12.
  - exact H12.
  - inversion H12; subst; constructor; auto.
  - constructor. auto.
Qed.

Lemma picked_map {A B} (f : A -> B) (l l' : list A) :
  picked l l' -> picked (map f l) (map f l').
Proof. induction 1; cbn; constructor; assumption. Qed.

Lemma picked_Forall {A} (Q : A -> Prop) (l l' : list A) :
  picked l l' -> Forall Q l' -> Forall Q l.
Proof.
  induction 1 as [|y l l' _ IH|y l l' _ IH]; intro H; auto;
    inversion H; subst; auto.
Qed.

Lemma trade_event_cycle (t : AT.state) (s : Signal) (watched : list string)
    (e : event) :
  In (symbol s) watched -> trade_event t s e -> cycle_event watched e.
Proof. intros Hin. destruct e; cbn; auto. intros ->. exact Hin. Qed.

(** The trades of a cycle, one after the other. *)
Lemma trade_loop (watched : list string) (exe : list Signal) :
  Forall (fun s => In (symbol s) watched) exe ->
  forall w : World G,
  exists (w' : World G) (seg : list event) (placed : list Signal),
    for_each exe (fun s => executeTradeFromSignal P alpaca s ;; sleep 1000) w
    = (Returned tt, w')
    /\ trace w' = (trace w ++ seg)%list
    /\ trader w' = trader w
    /\ picked placed exe
    /\ Forall2 (automation_order (trader w)) placed (submissions seg)
    /\ Forall (cycle_event watched) seg.
Proof.
  induction exe as [|s rest IH]; intros Hin w.
  - exists w, [], []. cbn. rewrite app_nil_r.
    repeat split; constructor.
  - inversion Hin as [|? ? Hs Hrest]; subst.
    destruct (trade_run w s) as (r & w1 & seg1 & E1 & Htr1 & Ht1 & Hev1 & Hsub1).
    destruct (IH Hrest (with_trace (trace w1 ++ [EvSleep 1000]) w1))
      as (w' & seg2 & placed & E2 & Htr2 & Ht2 & Hp & Hf2 & Hev2).
    cbn [trace trader with_trace] in Htr2, Ht2, Hf2.
    exists w', (seg1 ++ EvSleep 1000 :: seg2)%list.
    exists (match submissions seg1 with [] => placed | _ => s :: placed end).
    cbn [for_each]. unfold bind at 1 2. rewrite E1.
    change (sleep 1000 w1)
      with (Returned tt, with_trace (trace w1 ++ [EvSleep 1000]) w1).
    cbv beta iota. rewrite E2.
    split; [reflexivity|].
    split; [rewrite Htr2, Htr1, <- !app_assoc; reflexivity|].
    split; [congruence|].
    assert (Hsubs : submissions (seg1 ++ EvSleep 1000 :: seg2)
                    = (submissions seg1 ++ submissions seg2)%list).
    { unfold submissions. rewrite flat_map_app. reflexivity. }
    rewrite Hsubs, Ht1 in *.
    split; [|split].
    + destruct Hsub1 as [->|(od & -> & _)]; constructor; exact Hp.
    + destruct Hsub1 as [->|(od & -> & Hod)]; [exact Hf2|].
      constructor; [exact Hod | exact Hf2].
    + apply Forall_app. split.
      * eapply Forall_impl; [|exact Hev1]. intro e.
        apply trade_event_cycle. exact Hs.
      * constructor; [exact I | exact Hev2].
Qed.

Lemma is_local_cycle (watched : list string) (e : event) :
  is_local e -> cycle_event watched e.
Proof. destruct e; cbn; tauto. Qed.

Lemma generated_confidence_le_1 (w : World G) (sym : string) :
  exists (s : Signal) (w1 : World G),
    generateRSISignal P sym w = (Returned s, w1)
    /\ generator w1 = generator w /\ trader w1 = trader w
    /\ symbol s = sym /\ confidence s <= 1.
Proof.
  destruct (generateRSISignal_runs P w sym)
    as (now & r20 & r50 & w1 & Hg1 & Ht1 & _ & _ & _ & _ & _ & E).
  destruct (signalFromIndicators_shape P w1 sym
              (generateMockIndicators P now r20 r50 sym))
    as (s & w' & c & E' & Hg & Ht & Hsym & Hconf & _).
  exists s, w'. rewrite E, E'. repeat split; try congruence.
  rewrite Hconf. apply Q.le_min_r.
Qed.

(** A whole cycle: the batch it generates, the signals it filters, the
    trades it tries and the orders it places. *)
Lemma cycle_run (w : World G) :
  exists (w' : World G) (seg : list event) (signals placed : list Signal),
    checkAndExecuteTrades P alpaca w = (Returned tt, w')
    /\ trace w' = (trace w ++ seg)%list
    /\ map symbol signals = AT.watchedSymbols (trader w)
    /\ Forall (fun s => confidence s <= 1) signals
    /\ picked placed (filter (executable (trader w)) signals)
    /\ Forall2 (automation_order (trader w)) placed (submissions seg)
    /\ Forall (cycle_event (AT.watchedSymbols (trader w))) seg.
Proof.
  set (watched := AT.watchedSymbols (trader w)).
  unfold checkAndExecuteTrades, try_catch.
  unfold bind at 1, log at 1, emit at 1.
  unfold bind at 1, this_trader at 1. cbn [trader with_trace].
  unfold bind at 1, generateSignalsForSymbols.
  set (w0 := with_trace (trace w ++ [EvLog Info "Checking trading signals..." []]) w).
  destruct (collectSignals_sound P (AT.watchedSymbols (trader w)) [] w0
              (fun s => confidence s <= 1))
    as (signals & w1 & E1 & _ & Ht1 & Hconf & Hmap).
  { intros w2 sym _. apply generated_confidence_le_1. }
  { constructor. }
  cbn [map app] in Hmap. fold watched in Hmap, E1.
  destruct (emits_run _ _ _ _ _ (local_collectSignals watched []) E1)
    as (seg1 & Htr1 & Hloc1).
  fold watched. rewrite E1. cbn [trader with_trace trace] in Ht1, Htr1.
  unfold w0 in Ht1, Htr1. cbn [trader with_trace trace] in Ht1, Htr1.
  unfold bind at 1, this_trader at 1. rewrite Ht1.
  set (exe := filter (executable (trader w)) signals).
  unfold bind at 1, log at 1, emit at 1.
  unfold bind at 1.
  match goal with
  | |- context [for_each exe _ ?w2] =>
      destruct (trade_loop watched exe) with (w := w2)
        as (w3 & seg2 & placed & E2 & Htr2 & Ht2 & Hp & Hf2 & Hev2)
  end.
  { apply Forall_forall. intros s Hs. apply filter_In in Hs.
    rewrite <- Hmap. apply in_map. apply Hs. }
  rewrite E2. unfold log, emit.
  cbn [trace trader with_trace] in Htr2, Ht2, Hf2.
  rewrite Ht1 in Hf2.
  eexists. eexists. exists signals, placed.
  split; [reflexivity|].
  cbn [trace with_trace]. rewrite Htr2, Htr1, <- !app_assoc. cbn [app].
  split; [reflexivity|].
  split; [exact Hmap|]. split; [exact Hconf|]. split; [exact Hp|].
  split.
  - unfold submissions in *. cbn [flat_map app].
    rewrite !flat_map_app. cbn [flat_map app].
    rewrite !flat_map_app. cbn [flat_map app]. rewrite app_nil_r.
    replace (flat_map _ seg1) with (@nil OrderData); [exact Hf2|].
    symmetry. clear - Hloc1. induction Hloc1 as [|e l He _ IH]; cbn; auto.
    rewrite IH. destruct e; cbn in *; tauto.
  - constructor; [exact I|]. apply Forall_app. split.
    + eapply Forall_impl; [|exact Hloc1]. intro. apply is_local_cycle.
    + constructor; [exact I|]. apply Forall_app. split; [exact Hev2|].
      repeat constructor.
Qed.

End CycleOrders.

Lemma executable_true (t : AT.state) (s : Signal) :
  executable t s = true ->
  shouldExecute s = true /\ AT.minConfidence t <= confidence s
  /\ signal s <> HOLD.
Proof.
  unfold executable. rewrite !andb_true_iff, Qgeb_le, negb_true_iff.
  intros [[H1 H2] H3]. repeat split; auto.
  intros E. rewrite E in H3. discriminate.
Qed.

Lemma automation_order_bounds (t : AT.state) (s : Signal) (od : OrderData) :
  executable t s = true -> confidence s <= 1 -> 0 <= AT.maxPositionSize t ->
  automation_order t s od ->
  (od_side od = "buy" \/ od_side od = "sell")
  /\ (1 <= od_qty od)%Z
  /\ (Qfloor (AT.minConfidence t * AT.maxPositionSize t) <= od_qty od)%Z
  /\ (od_qty od <= Z.max 1 (Qfloor (AT.maxPositionSize t)))%Z.
Proof.
  intros Hexe Hconf Hmax (Hsym & Hside & Hqty & _).
  apply executable_true in Hexe. destruct Hexe as (_ & Hmin & Hkind).
  rewrite Hside, Hqty. unfold getPositionSize, Math_floor.
  set (mx := AT.maxPositionSize t) in *.
  split; [destruct (signal s); [left|right|contradiction]; reflexivity|].
  split; [apply Z.le_max_l|].
  split.
  - etransitivity; [|apply Z.le_max_r]. apply Qfloor_resp_le.
    apply Qmult_le_compat_r; assumption.
  - apply Z.max_le_compat_l. apply Qfloor_resp_le.
    setoid_replace mx with (1 * mx) at 2 by ring.
    apply Qmult_le_compat_r; assumption.
Qed.


(** X11.  With a maximum position size that is not negative, every order a
    cycle submits is for a watched symbol, is a buy or a sell, and asks for
    at least one share, at least the floor of [minConfidence * maxPositionSize]
    and at most the floor of [maxPositionSize] (or one share when that floor
    is below one). *)
Theorem cycle_order_sizes {G : Type} (P : Platform) (alpaca : Gateway G)
    (w : World G) (Hmax : 0 <= AT.maxPositionSize (trader w)) :
  exists seg,
    trace (snd (checkAndExecuteTrades P alpaca w)) = (trace w ++ seg)%list
    /\ Forall (fun od =>
         In (od_symbol od) (AT.watchedSymbols (trader w))
         /\ (od_side od = "buy" \/ od_side od = "sell")
         /\ (1 <= od_qty od)%Z
         /\ (Qfloor (AT.minConfidence (trader w)
                     * AT.maxPositionSize (trader w)) <= od_qty od)%Z
         /\ (od_qty od <= Z.max 1 (Qfloor (AT.maxPositionSize (trader w))))%Z)
         (submissions seg).
Proof.
  destruct (cycle_run P alpaca w)
    as (w' & seg & signals & placed & E & Htr & Hmap & Hconf & Hp & Hf & _).
  exists seg. rewrite E. split; [exact Htr|].
  assert (Hall : Forall (fun s => In s (filter (executable (trader w)) signals))
                   placed).
  { eapply picked_Forall; [exact Hp|]. apply Forall_forall. auto. }
  clear Hp. induction Hf as [|s od placed ods Hod _ IH]; [constructor|].
  inversion Hall as [|? ? Hs Hrest]; subst.
  constructor; [|exact (IH Hrest)].
  apply filter_In in Hs. destruct Hs as [Hin Hexe].
  rewrite Forall_forall in Hconf. specialize (Hconf s Hin).
  destruct (automation_order_bounds (trader w) s od Hexe Hconf Hmax Hod)
    as (Hside & H1 & H2 & H3).
  destruct Hod as (Hsym & _). rewrite Hsym.
  split; [rewrite <- Hmap; apply in_map; exact Hin|]. auto.
Qed.

Lemma cycle_order_sizes_at_boot :
  exists seg od,
    trace (snd (checkAndExecuteTrades flat_runtime book_gateway
                  (boot empty_book (fun _ => 1700042400000%Z) (fun _ => 1 # 2))))
    = seg
    /\ submissions seg = [od]
    /\ od_symbol od = "SPY" /\ od_qty od = 7%Z
    /\ Forall (fun od => (7 <= od_qty od)%Z /\ (od_qty od <= 10)%Z)
         (submissions seg).
Proof.
  destruct (cycle_order_sizes flat_runtime book_gateway
              (boot empty_book (fun _ => 1700042400000%Z) (fun _ => 1 # 2)))
    as (seg & E & H).
  - cbn. discriminate.
  - change (trace (boot empty_book (fun _ => 1700042400000%Z)
                     (fun _ => 1 # 2)) ++ seg)%list with seg in E.
    exists seg. eexists. split; [exact E|].
    split; [rewrite <- E; vm_compute; reflexivity|].
    split; [reflexivity|]. split; [reflexivity|].
    eapply Forall_impl; [|exact H]. cbn.
    intros od (_ & _ & _ & H7 & H10). split; assumption.
Defined.

(** ** Ranges of the mock data *)

Lemma seed_range (now : Z) (sym : string) :
  (0 <= now)%Z ->
  (0 <= Z.rem (timeBucket now FIVE_MINUTES + symbolHash sym) 1000 < 1000)%Z.
Proof.
  intro H. apply Z.rem_bound_pos; [|lia].
  assert (0 <= timeBucket now FIVE_MINUTES)%Z.
  { unfold timeBucket, FIVE_MINUTES. apply Z.div_pos; lia. }
  assert (0 <= symbolHash sym)%Z; [|lia].
  unfold symbolHash.
  assert (forall l a, (0 <= a)%Z ->
            (0 <= fold_left (fun a b => (a + Z.of_nat (nat_of_ascii b))%Z) l a)%Z)
    as Hfold.
  { induction l as [|c l IH]; cbn [fold_left]; intros a Ha; [exact Ha|].
    apply IH. lia. }
  apply Hfold. lia.
Qed.

(** X12.  For a clock that is not negative and a sine within [-1, 1], the
    mock RSI lies in [10, 89], so the clamp to [0, 100] never acts, and the
    mock price lies in [80, 219]. *)
Theorem mock_indicator_ranges (P : Platform) (now : Z) (r20 r50 : Q)
    (sym : string) (Hsin : sin_bounded P) (Hnow : (0 <= now)%Z) :
  let seed := Z.rem (timeBucket now FIVE_MINUTES + symbolHash sym) 1000 in
  let ind := generateMockIndicators P now r20 r50 sym in
  rsi ind == 20 + inject_Z (Z.rem seed 60)
             + Math_sin P (inject_Z seed * (1 # 10)) * 10
  /\ 10 <= rsi ind /\ rsi ind <= 89
  /\ 80 <= currentPrice ind /\ currentPrice ind <= 219.
Proof.
  intros seed ind. subst ind. unfold generateMockIndicators.
  fold seed. cbn [rsi currentPrice].
  pose proof (seed_range now sym Hnow) as Hseed. fold seed in Hseed.
  assert (0 <= Z.rem seed 60 < 60)%Z as H60
    by (apply Z.rem_bound_pos; lia).
  assert (0 <= Z.rem seed 100 < 100)%Z as H100
    by (apply Z.rem_bound_pos; lia).
  assert (0 <= inject_Z (Z.rem seed 60) <= 59) as [A1 A2].
  { change 0 with (inject_Z 0). change 59 with (inject_Z 59).
    rewrite <- !Zle_Qle. lia. }
  assert (0 <= inject_Z (Z.rem seed 100) <= 99) as [B1 B2].
  { change 0 with (inject_Z 0). change 99 with (inject_Z 99).
    rewrite <- !Zle_Qle. lia. }
  destruct (Hsin (inject_Z seed * (1 # 10))) as [S1 S2].
  destruct (Hsin (inject_Z seed * (5 # 100))) as [T1 T2].
  set (a := inject_Z (Z.rem seed 60)) in *.
  set (b := inject_Z (Z.rem seed 100)) in *.
  set (s1 := Math_sin P (inject_Z seed * (1 # 10))) in *.
  set (s2 := Math_sin P (inject_Z seed * (5 # 100))) in *.
  assert (Qmax 0 (Qmin 100 (20 + a + s1 * 10)) == 20 + a + s1 * 10) as E.
  { rewrite Q.min_r by lra. apply Q.max_r. lra. }
  split; [exact E|]. rewrite E. repeat split; lra.
Qed.

Lemma mock_indicator_ranges_example :
  10 <= rsi (generateMockIndicators flat_runtime 1700012720000 0 0 "AAPL")
  /\ rsi (generateMockIndicators flat_runtime 1700012720000 0 0 "AAPL") <= 89.
Proof.
  destruct (mock_indicator_ranges flat_runtime 1700012720000 0 0 "AAPL")
    as (_ & H1 & H2 & _).
  - intro x. cbn. split; discriminate.
  - discriminate.
  - split; assumption.
Defined.

Lemma randomFactor_grid (z : Z) (k : Z) :
  inject_Z (Z.rem z 100) / 100 < inject_Z k / 1000 ->
  inject_Z (Z.rem z 100) / 100 <= (inject_Z ((k - 1) / 10)) / 100.
Proof.
  set (r := Z.rem z 100). intro H.
  assert (inject_Z r * 10 < inject_Z k) as H1.
  { unfold Qdiv in H. change (/ 100) with (1 # 100) in H.
    change (/ 1000) with (1 # 1000) in H. lra. }
  change 10 with (inject_Z 10) in H1. rewrite <- inject_Z_mult in H1.
  rewrite <- Zlt_Qlt in H1.
  assert (r <= (k - 1) / 10)%Z.
  { apply Z.div_le_lower_bound; lia. }
  apply Qmult_le_compat_r; [|discriminate].
  rewrite <- Zle_Qle. assumption.
Qed.

Section TestSignals.
Context {G : Type} (P : Platform).


End TestSignals.


(** ** The automation API *)

Lemma isInt_range (lo hi : Z) (x : Q) :
  isInt lo hi x = true -> inject_Z lo <= x /\ x <= inject_Z hi.
Proof.
  unfold isInt. rewrite !andb_true_iff, !Z.leb_le.
  intros [[E H1] H2]. apply Qeq_bool_iff in E. rewrite E.
  rewrite <- !Zle_Qle. split; assumption.
Qed.

Lemma isFloat_range (lo hi x : Q) :
  isFloat lo hi x = true -> lo <= x /\ x <= hi.
Proof.
  unfold isFloat. rewrite andb_true_iff, !Qle_bool_iff. tauto.
Qed.

Section RouteRuns.
Context {G : Type} (P : Platform) (alpaca : Gateway G).

Lemma updateRSIThresholds_run (w : World G) (o b : Q) :
  exists w',
    updateRSIThresholds P o b w = (Returned tt, w')
    /\ trader w' = trader w /\ timers w' = timers w
    /\ generator w'
       = {| SG.rsiOversold := o; SG.rsiOverbought := b;
            SG.minConfidence := SG.minConfidence (generator w) |}
    /\ exists seg, trace w' = (trace w ++ seg)%list.
Proof.
  eexists. split; [reflexivity|]. cbn. repeat split. eexists. reflexivity.
Qed.

(** What [PUT /parameters] does with a body that passes validation. *)
Lemma put_parameters_valid (w : World G) (body : ParametersBody) :
  valid_parameters body = true ->
  exists w',
    put_parameters P body w
    = (Returned {| reply_status := 200; reply_success := true;
                   reply_message :=
                     Some "Trading parameters updated successfully";
                   reply_data := Some (status_of (trader w')) |}, w')
    /\ AT.isRunning (trader w') = AT.isRunning (trader w)
    /\ AT.tradingInterval (trader w') = AT.tradingInterval (trader w)
    /\ AT.watchedSymbols (trader w')
       = match put_symbols body with
         | Some l => l
         | None => AT.watchedSymbols (trader w)
         end
    /\ AT.maxPositionSize (trader w')
       = match put_maxPositionSize body with
         | Some m => if truthy m then m else AT.maxPositionSize (trader w)
         | None => AT.maxPositionSize (trader w)
         end
    /\ AT.minConfidence (trader w')
       = match put_minConfidence body with
         | Some c => if truthy c then c else AT.minConfidence (trader w)
         | None => AT.minConfidence (trader w)
         end
    /\ generator w'
       = match put_rsiOversold body, put_rsiOverbought body with
         | Some o, Some b =>
             {| SG.rsiOversold := o; SG.rsiOverbought := b;
                SG.minConfidence := SG.minConfidence (generator w) |}
         | _, _ => generator w
         end
    /\ timers w' = timers w.
Proof.
  intro Hv. unfold put_parameters, try_catch. rewrite Hv. cbn [negb].
  unfold bind at 1.
  destruct (updateParameters_run P w
              {| param_symbols := put_symbols body;
                 param_maxPositionSize := put_maxPositionSize body;
                 param_minConfidence := put_minConfidence body |})
    as (w1 & E1 & Hr & Hi & Hs & Hm & Hc & Hg & Htm & _).
  rewrite E1. cbn [param_symbols param_maxPositionSize param_minConfidence] in *.
  unfold bind at 1.
  destruct (put_rsiOversold body) as [o|], (put_rsiOverbought body) as [b|].
  - destruct (updateRSIThresholds_run w1 o b)
      as (w2 & E2 & Ht2 & Htm2 & Hg2 & _).
    rewrite E2. exists w2. split; [reflexivity|].
    rewrite Ht2, Htm2, Hg2, Hg. auto 10.
  - exists w1. split; [reflexivity|]. auto 10.
  - exists w1. split; [reflexivity|]. auto 10.
  - exists w1. split; [reflexivity|]. auto 10.
Qed.

Lemma put_parameters_invalid (w : World G) (body : ParametersBody) :
  valid_parameters body = false ->
  put_parameters P body w
  = (Returned {| reply_status := 400; reply_success := false;
                 reply_message := Some "Validation failed";
                 reply_data := None |}, w).
Proof.
  intro Hv. unfold put_parameters, try_catch. rewrite Hv. reflexivity.
Qed.

Lemma startTrading_frames (w : World G) symbols n :
  consistent w ->
  exists w',
    startTrading P alpaca symbols n w = (Returned tt, w')
    /\ consistent w'
    /\ AT.maxPositionSize (trader w') = AT.maxPositionSize (trader w)
    /\ AT.minConfidence (trader w') = AT.minConfidence (trader w)
    /\ generator w' = generator w.
Proof.
  intro Hc.
  destruct (serve_consistent P alpaca (Start symbols n) w Hc)
    as (w' & E & Hc').
  cbn [serve] in E. exists w'. split; [exact E|]. split; [exact Hc'|].
  destruct (AT.isRunning (trader w)) eqn:Erun.
  - rewrite (startTrading_running P alpaca w symbols n Erun) in E.
    injection E as <-. repeat split.
  - destruct (startTrading_stopped P alpaca w symbols n Erun)
      as (w1 & w2 & w3 & _ & _ & _ & E3 & _ & Ht & Hg & _).
    rewrite E in E3. injection E3 as <-. rewrite Ht, Hg.
    destruct symbols; repeat split.
Qed.

Lemma stopTrading_frames (w : World G) :
  consistent w ->
  exists w',
    stopTrading w = (Returned tt, w')
    /\ consistent w'
    /\ AT.isRunning (trader w') = false
    /\ AT.tradingInterval (trader w') = None
    /\ AT.watchedSymbols (trader w') = AT.watchedSymbols (trader w)
    /\ AT.maxPositionSize (trader w') = AT.maxPositionSize (trader w)
    /\ AT.minConfidence (trader w') = AT.minConfidence (trader w)
    /\ generator w' = generator w /\ timers w' = [].
Proof.
  intro Hc.
  destruct (serve_consistent P alpaca Stop w Hc) as (w' & E & Hc').
  cbn [serve] in E. exists w'. split; [exact E|]. split; [exact Hc'|].
  destruct (AT.isRunning (trader w)) eqn:Erun.
  - destruct (stopTrading_running w Erun) as (w2 & E2 & Ht & Hg & _).
    rewrite E in E2. injection E2 as <-.
    assert (AT.tradingInterval (trader w') = None) as Hi
      by (rewrite Ht; reflexivity).
    unfold consistent in Hc'. rewrite Hi in Hc'.
    rewrite Ht, Hg. repeat split. apply Hc'.
  - rewrite (stopTrading_stopped w Erun) in E. injection E as <-.
    cbn [trader generator timers with_trace].
    unfold consistent in Hc.
    destruct (AT.tradingInterval (trader w)); [destruct Hc; congruence|].
    destruct Hc as [_ Htm]. repeat split; assumption.
Qed.

Lemma within_validators_ext (w w' : World G) :
  AT.maxPositionSize (trader w') = AT.maxPositionSize (trader w) ->
  AT.minConfidence (trader w') = AT.minConfidence (trader w) ->
  generator w' = generator w ->
  within_validators w -> within_validators w'.
Proof. unfold within_validators. intros -> -> ->. auto. Qed.

(** One request of the API: it is answered with 200 or 400, and it keeps
    the agreement of flag, handle and timers, the range of every number a
    validator guards, and the generator's own minimum. *)
Lemma route_run (r : api_request) (w : World G) :
  consistent w -> within_validators w ->
  exists reply w',
    route P alpaca r w = (Returned reply, w')
    /\ consistent w' /\ within_validators w'
    /\ SG.minConfidence (generator w') = SG.minConfidence (generator w)
    /\ (reply_status reply = 200%nat \/ reply_status reply = 400%nat)
    /\ (reply_status reply = 200%nat <-> reply_success reply = true).
Proof.
  intros Hc Hv. destruct r as [|body| |body|]; cbn [route].
  - do 2 eexists. split; [reflexivity|]. cbn. intuition.
  - unfold post_start_reply, bind at 1, post_start, try_catch.
    destruct (negb (valid_intervalMinutes (body_intervalMinutes body))).
    + do 2 eexists. split; [reflexivity|]. cbn.
      intuition discriminate.
    + unfold bind at 1.
      destruct (startTrading_frames w (body_symbols body)
                  (match body_intervalMinutes body with
                   | Some n => n | None => 10%Z end) Hc)
        as (w' & E & Hc' & Hm & Hmin & Hg).
      rewrite E. do 2 eexists. split; [reflexivity|]. cbn.
      split; [exact Hc'|].
      split; [exact (within_validators_ext w w' Hm Hmin Hg Hv)|].
      rewrite Hg. intuition.
  - unfold post_stop, try_catch, bind at 1.
    destruct (stopTrading_frames w Hc)
      as (w' & E & Hc' & _ & _ & _ & Hm & Hmin & Hg & _).
    rewrite E. do 2 eexists. split; [reflexivity|]. cbn.
    split; [exact Hc'|].
    split; [exact (within_validators_ext w w' Hm Hmin Hg Hv)|].
    rewrite Hg. intuition.
  - destruct (valid_parameters body) eqn:Hvalid.
    + destruct (put_parameters_valid w body Hvalid)
        as (w' & E & Hr & Hi & _ & Hm & Hmin & Hg & Htm).
      rewrite E. do 2 eexists. split; [reflexivity|]. cbn.
      split; [unfold consistent in *; rewrite Hr, Hi, Htm; exact Hc|].
      unfold valid_parameters in Hvalid.
      rewrite !andb_true_iff in Hvalid.
      destruct Hvalid as [[[V1 V2] V3] V4].
      destruct Hv as (I1 & I2 & I3 & I4).
      split; [|split; [|intuition]].
      * unfold within_validators. rewrite Hm, Hmin, Hg.
        split; [|split].
        -- destruct (put_maxPositionSize body) as [m|]; [|exact I1].
           destruct (truthy m); [|exact I1].
           apply isInt_range in V1. exact V1.
        -- destruct (put_minConfidence body) as [c|]; [|exact I2].
           destruct (truthy c); [|exact I2].
           apply isFloat_range in V2. exact V2.
        -- destruct (put_rsiOversold body) as [o|],
             (put_rsiOverbought body) as [b|]; try (split; assumption).
           apply isInt_range in V3. apply isInt_range in V4.
           cbn [SG.rsiOversold SG.rsiOverbought]. split; assumption.
      * rewrite Hg. destruct (put_rsiOversold body), (put_rsiOverbought body);
          reflexivity.
    + rewrite (put_parameters_invalid w body Hvalid).
      do 2 eexists. split; [reflexivity|]. cbn. intuition discriminate.
  - unfold post_check, try_catch, bind at 1.
    destruct (checkAndExecuteTrades_run P alpaca w)
      as (w' & E & Ht & Hg & Htm & _).
    rewrite E. do 2 eexists. split; [reflexivity|]. cbn.
    split; [exact (consistent_ext w w' Ht Htm Hc)|].
    split; [apply (within_validators_ext w w'); congruence|].
    rewrite Hg. intuition.
Qed.

End RouteRuns.

(** X14.  Requests of the automation API, answered one after the other from
    a state in which flag, handle and timers agree and the guarded numbers
    are in range: every one is answered, with 200 or 400 and never 500; the
    agreement holds afterwards, at most one timer is armed, the maximum
    position size is still within [1, 100], both thresholds within [10, 40]
    and [60, 90], and the two minimum confidences within [0, 1], the
    generator's being the one it had. *)
Theorem api_keeps_the_parameters_in_range {G : Type} (P : Platform)
    (alpaca : Gateway G) (requests : list api_request) :
  forall w : World G,
    consistent w -> within_validators w ->
    exists replies w',
      route_all P alpaca requests w = (Returned replies, w')
      /\ List.length replies = List.length requests
      /\ Forall (fun reply => reply_status reply = 200%nat
                              \/ reply_status reply = 400%nat) replies
      /\ consistent w' /\ (List.length (timers w') <= 1)%nat
      /\ within_validators w'
      /\ SG.minConfidence (generator w') = SG.minConfidence (generator w)
      /\ (0 <= SG.minConfidence (generator w) <= 1 ->
          valid_thresholds (generator w')).
Proof.
  induction requests as [|r rest IH]; intros w Hc Hv.
  - exists [], w. split; [reflexivity|]. split; [reflexivity|].
    split; [constructor|]. split; [exact Hc|].
    split; [apply consistent_one_timer; exact Hc|].
    split; [exact Hv|]. split; [reflexivity|].
    intro Hm. destruct Hv as (_ & _ & H3 & H4).
    unfold valid_thresholds. lra.
  - destruct (route_run P alpaca r w Hc Hv)
      as (reply & w1 & E1 & Hc1 & Hv1 & Hg1 & Hst & _).
    destruct (IH w1 Hc1 Hv1)
      as (replies & w' & E & Hlen & Hall & Hc' & Htm & Hv' & Hg & Hvalid).
    exists (reply :: replies), w'. cbn [route_all].
    unfold bind at 1. rewrite E1. unfold bind at 1. rewrite E.
    split; [reflexivity|]. split; [cbn; congruence|].
    split; [constructor; assumption|].
    split; [exact Hc'|]. split; [exact Htm|]. split; [exact Hv'|].
    split; [congruence|]. rewrite <- Hg1. exact Hvalid.
Qed.

Lemma api_keeps_the_parameters_in_range_example :
  exists replies w',
    route_all flat_runtime book_gateway
      [PostStart {| body_symbols := Some ["SPY"];
                    body_intervalMinutes := Some 5%Z |};
       PutParameters {| put_symbols := None;
                        put_maxPositionSize := Some 20;
                        put_minConfidence := Some (8 # 10);
                        put_rsiOversold := Some 25;
                        put_rsiOverbought := Some 75 |};
       PutParameters {| put_symbols := None;
                        put_maxPositionSize := Some 1000;
                        put_minConfidence := None;
                        put_rsiOversold := None;
                        put_rsiOverbought := None |};
       PostCheck; PostStop; GetStatus]
      (boot empty_book (fun _ => 1700012720000%Z) (fun _ => 1 # 2))
    = (Returned replies, w')
    /\ within_validators w'
    /\ valid_thresholds (generator w').
Proof.
  destruct (api_keeps_the_parameters_in_range flat_runtime book_gateway
    [PostStart {| body_symbols := Some ["SPY"];
                  body_intervalMinutes := Some 5%Z |};
     PutParameters {| put_symbols := None;
                      put_maxPositionSize := Some 20;
                      put_minConfidence := Some (8 # 10);
                      put_rsiOversold := Some 25;
                      put_rsiOverbought := Some 75 |};
     PutParameters {| put_symbols := None;
                      put_maxPositionSize := Some 1000;
                      put_minConfidence := None;
                      put_rsiOversold := None;
                      put_rsiOverbought := None |};
     PostCheck; PostStop; GetStatus]
    (boot empty_book (fun _ => 1700012720000%Z) (fun _ => 1 # 2)))
    as (replies & w' & E & _ & _ & _ & _ & Hv & _ & Hvalid).
  - split; reflexivity.
  - cbn. repeat split; discriminate.
  - exists replies, w'. split; [exact E|]. split; [exact Hv|].
    apply Hvalid. cbn. split; discriminate.
Defined.

(** X15.  [PUT /parameters]: a body that fails validation is answered with
    400 and changes nothing, not even the log; a valid body that names only
    one of the two RSI thresholds is answered with 200 while the generator
    keeps both of its thresholds; and the [data] of a 200 answer is the
    status after the update. *)
Theorem put_parameters_rejects_or_applies {G : Type} (P : Platform)
    (w : World G) (body : ParametersBody) :
  (valid_parameters body = false ->
   exists reply,
     put_parameters P body w = (Returned reply, w)
     /\ reply_status reply = 400%nat /\ reply_success reply = false)
  /\ (valid_parameters body = true ->
      exists reply w',
        put_parameters P body w = (Returned reply, w')
        /\ reply_status reply = 200%nat
        /\ reply_data reply = Some (status_of (trader w'))
        /\ (put_rsiOversold body = None \/ put_rsiOverbought body = None ->
            generator w' = generator w)
        /\ (forall o b, put_rsiOversold body = Some o ->
              put_rsiOverbought body = Some b ->
              SG.rsiOversold (generator w') = o
              /\ SG.rsiOverbought (generator w') = b
              /\ o < b)).
Proof.
  split; intro Hv.
  - rewrite (put_parameters_invalid P w body Hv). eexists.
    split; [reflexivity|]. split; reflexivity.
  - destruct (put_parameters_valid P w body Hv)
      as (w' & E & _ & _ & _ & _ & _ & Hg & _).
    do 2 eexists. split; [exact E|]. cbn [reply_status reply_data].
    split; [reflexivity|]. split; [reflexivity|]. rewrite Hg. split.
    + intros [-> | ->]; [reflexivity|].
      destruct (put_rsiOversold body); reflexivity.
    + intros o b Ho Hb. unfold valid_parameters in Hv.
      rewrite Ho, Hb in *. cbn [optional] in Hv.
      rewrite !andb_true_iff in Hv. destruct Hv as [[_ V3] V4].
      apply isInt_range in V3. apply isInt_range in V4.
      cbn [SG.rsiOversold SG.rsiOverbought].
      change (inject_Z 40) with 40 in V3. change (inject_Z 60) with 60 in V4.
      repeat split. lra.
Qed.

Lemma put_parameters_lone_threshold_example :
  exists reply w',
    put_parameters flat_runtime
      {| put_symbols := None; put_maxPositionSize := None;
         put_minConfidence := None; put_rsiOversold := Some 20;
         put_rsiOverbought := None |}
      (boot empty_book (fun _ => 0%Z) (fun _ => 0)) = (Returned reply, w')
    /\ reply_status reply = 200%nat
    /\ generator w' = SG.init.
Proof.
  destruct (put_parameters_rejects_or_applies flat_runtime
              (boot empty_book (fun _ => 0%Z) (fun _ => 0))
              {| put_symbols := None; put_maxPositionSize := None;
                 put_minConfidence := None; put_rsiOversold := Some 20;
                 put_rsiOverbought := None |}) as [_ H].
  destruct (H eq_refl) as (reply & w' & E & Hs & _ & Hg & _).
  exists reply, w'. split; [exact E|]. split; [exact Hs|].
  apply Hg. right. reflexivity.
Defined.



Section Emits2.
Context {G : Type}.

Lemma emits_setInterval (Q : event -> Prop) ms :
  (forall h, Q (EvSetInterval h ms)) -> emits (G:=G) Q (setInterval ms).
Proof. intros H w. eexists [_]. cbn. auto. Qed.

Lemma emits_clearInterval (Q : event -> Prop) h :
  Q (EvClearInterval h) -> emits (G:=G) Q (clearInterval h).
Proof. intros H w. eexists [_]. cbn. auto. Qed.

Lemma places_refl (Q : OrderData -> Prop) (w : World G) : places Q w w.
Proof. exists []. rewrite app_nil_r. split; [reflexivity | constructor]. Qed.

Lemma places_trans (Q : OrderData -> Prop) (w1 w2 w3 : World G) :
  places Q w1 w2 -> places Q w2 w3 -> places Q w1 w3.
Proof.
  intros (s1 & E1 & F1) (s2 & E2 & F2). exists (s1 ++ s2)%list.
  rewrite E2, E1, app_assoc. split; [reflexivity|].
  unfold submissions in *. rewrite flat_map_app. apply Forall_app. auto.
Qed.

Lemma places_quiet {A} (Q : OrderData -> Prop) (m : M G A) (w : World G) :
  emits no_order m -> places Q w (snd (m w)).
Proof.
  intro H. destruct (H w) as (seg & E & F). exists seg. split; [exact E|].
  replace (submissions seg) with (@nil OrderData); [constructor|].
  symmetry. clear E. induction F as [|e l He _ IH]; [reflexivity|].
  unfold submissions in *. cbn [flat_map]. rewrite IH.
  destruct e; try reflexivity. discriminate He.
Qed.

End Emits2.

#[local] Hint Extern 1 (emits _ (setInterval _)) =>
  (apply emits_setInterval; intro; reflexivity) : emits.
#[local] Hint Extern 1 (emits _ (clearInterval _)) =>
  (apply emits_clearInterval; reflexivity) : emits.
#[local] Hint Extern 1 (emits no_order (log _ _ _)) =>
  (apply emits_log; reflexivity) : emits.

Section Timeline.
Context {G : Type} (P : Platform) (alpaca : Gateway G).

Lemma quiet_getStatus : emits (G:=G) no_order getStatus.
Proof. unfold getStatus. emits_steps. Qed.

Lemma quiet_stopTrading : emits (G:=G) no_order stopTrading.
Proof. unfold stopTrading. emits_steps. Qed.

Lemma quiet_updateParameters params :
  emits (G:=G) no_order (updateParameters P params).
Proof. unfold updateParameters. emits_steps. Qed.

Lemma quiet_updateRSIThresholds o b :
  emits (G:=G) no_order (updateRSIThresholds P o b).
Proof. unfold updateRSIThresholds. emits_steps. Qed.

Lemma quiet_startTrading_enter symbols n :
  emits (G:=G) no_order (startTrading_enter P symbols n).
Proof. unfold startTrading_enter. emits_steps. Qed.

Lemma quiet_startTrading_arm n :
  emits (G:=G) no_order (startTrading_arm n).
Proof. unfold startTrading_arm. emits_steps. Qed.

Lemma quiet_get_status : emits (G:=G) no_order get_status.
Proof.
  pose proof quiet_getStatus.
  unfold get_status, server_error. emits_steps.
Qed.

Lemma quiet_post_stop : emits (G:=G) no_order post_stop.
Proof.
  pose proof quiet_getStatus. pose proof quiet_stopTrading.
  unfold post_stop, server_error. emits_steps.
Qed.

Lemma quiet_put_parameters body :
  emits (G:=G) no_order (put_parameters P body).
Proof.
  pose proof quiet_getStatus. pose proof quiet_updateParameters.
  pose proof quiet_updateRSIThresholds.
  unfold put_parameters, server_error. emits_steps.
Qed.

(** The orders of one cycle of a trader whose maximum is within
    [1, 100]. *)
Lemma cycle_places (w : World G) :
  1 <= AT.maxPositionSize (trader w) <= 100 ->
  exists w',
    checkAndExecuteTrades P alpaca w = (Returned tt, w')
    /\ places order_within_limits w w'.
Proof.
  intros [Hlo Hhi].
  destruct (cycle_run P alpaca w)
    as (w' & seg & signals & placed & E & Htr & Hmap & Hconf & Hp & Hf & _).
  exists w'. split; [exact E|]. exists seg. split; [exact Htr|].
  assert (Hall : Forall (fun s => In s (filter (executable (trader w)) signals))
                   placed).
  { eapply picked_Forall; [exact Hp|]. apply Forall_forall. auto. }
  clear Hp. induction Hf as [|s od placed ods Hod _ IH]; [constructor|].
  inversion Hall as [|? ? Hs Hrest]; subst.
  constructor; [|exact (IH Hrest)].
  apply filter_In in Hs. destruct Hs as [Hin Hexe].
  rewrite Forall_forall in Hconf. specialize (Hconf s Hin).
  destruct (automation_order_bounds (trader w) s od Hexe Hconf)
    as (Hside & H1 & _ & H2); [lra | exact Hod |].
  destruct Hod as (_ & _ & _ & Hty & Htif & Hpre).
  unfold order_within_limits. repeat split; try assumption.
  etransitivity; [exact H2|]. apply Z.max_lub; [lia|].
  change 100%Z with (Qfloor 100). apply Qfloor_resp_le. exact Hhi.
Qed.

Lemma startTrading_places (w : World G) symbols n :
  1 <= AT.maxPositionSize (trader w) <= 100 ->
  places order_within_limits w (snd (startTrading P alpaca symbols n w)).
Proof.
  intro Hmax. destruct (AT.isRunning (trader w)) eqn:Erun.
  - rewrite (startTrading_running P alpaca w symbols n Erun). cbn [snd].
    exists [EvLog Warn "Automated trading is already running" []].
    split; [reflexivity | constructor].
  - destruct (startTrading_stopped P alpaca w symbols n Erun)
      as (w1 & w2 & w3 & E1 & E2 & E3 & E & _).
    rewrite E. cbn [snd].
    pose proof (places_quiet order_within_limits _ w
                  (quiet_startTrading_enter symbols n)) as H1.
    rewrite E1 in H1. cbn [snd] in H1.
    assert (1 <= AT.maxPositionSize (trader w1) <= 100) as Hmax1.
    { destruct (startTrading_enter_stopped P w symbols n Erun)
        as (w1' & E1' & Ht & _).
      rewrite E1 in E1'. injection E1' as <-. rewrite Ht.
      destruct symbols; exact Hmax. }
    destruct (cycle_places w1 Hmax1) as (w2' & E2' & H2).
    rewrite E2 in E2'. injection E2' as <-.
    pose proof (places_quiet order_within_limits _ w2
                  (quiet_startTrading_arm n)) as H3.
    rewrite E3 in H3. cbn [snd] in H3.
    eapply places_trans; [exact H1|]. eapply places_trans; eassumption.
Qed.

Lemma route_places (r : api_request) (w : World G) :
  1 <= AT.maxPositionSize (trader w) <= 100 ->
  places order_within_limits w (snd (route P alpaca r w)).
Proof.
  intro Hmax. destruct r as [|body| |body|]; cbn [route].
  - apply places_quiet, quiet_get_status.
  - unfold post_start_reply, bind at 1, post_start, try_catch.
    destruct (negb (valid_intervalMinutes (body_intervalMinutes body))).
    + cbn. apply places_refl.
    + unfold bind at 1.
      pose proof (startTrading_places w (body_symbols body)
                    (match body_intervalMinutes body with
                     | Some n => n | None => 10%Z end) Hmax) as H.
      destruct (startTrading P alpaca (body_symbols body) _ w)
        as [[[]|m] w'] eqn:E; cbn [snd] in H.
      * cbn. exact H.
      * cbn. destruct H as (seg & Htr & Hf).
        exists (seg ++ [EvLog Error "Error starting automated trading:" [m]])%list.
        rewrite Htr, app_assoc. split; [reflexivity|].
        unfold submissions in *. rewrite flat_map_app. cbn.
        rewrite app_nil_r. exact Hf.
  - apply places_quiet, quiet_post_stop.
  - apply places_quiet, quiet_put_parameters.
  - unfold post_check, try_catch, bind at 1.
    destruct (cycle_places w Hmax) as (w' & E & H).
    rewrite E. cbn. exact H.
Qed.

(** One occurrence: it is dealt with, the agreement of flag, handle and
    timers and the ranges of the validators are kept, and every order
    submitted meanwhile is within the limits. *)
Lemma occur_run (o : occurrence) (w : World G) :
  consistent w -> within_validators w ->
  exists w',
    occur P alpaca o w = (Returned tt, w')
    /\ consistent w' /\ within_validators w'
    /\ places order_within_limits w w'.
Proof.
  intros Hc Hv. assert (Hmax := proj1 Hv). destruct o as [r|h]; cbn [occur].
  - destruct (route_run P alpaca r w Hc Hv)
      as (reply & w' & E & Hc' & Hv' & _).
    pose proof (route_places r w Hmax) as Hp. rewrite E in Hp.
    exists w'. unfold bind. rewrite E. auto.
  - unfold timer_fires. destruct (existsb _ (timers w)).
    + destruct (cycle_places w Hmax) as (w' & E & Hp).
      destruct (checkAndExecuteTrades_run P alpaca w)
        as (w'' & E' & Ht & Hg & Htm & _).
      rewrite E in E'. injection E' as <-.
      exists w'. split; [exact E|].
      split; [exact (consistent_ext w w' Ht Htm Hc)|].
      split; [|exact Hp].
      apply (within_validators_ext w w'); congruence.
    + exists w. split; [reflexivity|]. auto using places_refl.
Qed.

End Timeline.



(** ** The signal routes *)

Section SignalRouteRuns.
Context {G : Type} (P : Platform).

(** The indicators stored in a signal are those it was computed from. *)
Lemma signalFromIndicators_indicators (w : World G) (sym : string)
    (ind : Indicators) :
  exists (s : Signal) (w' : World G),
    signalFromIndicators P sym ind w = (Returned s, w')
    /\ indicators s
       = Some {| rsi := rsi ind; sma20 := sma20 ind; sma50 := sma50 ind;
                 currentPrice := currentPrice ind; isMockData := false |}.
Proof.
  unfold signalFromIndicators, bind, this_generator, ret, log, emit.
  destruct (Qltb (rsi ind) (SG.rsiOversold (generator w)));
    [js_step; destruct (Qltb (sma20 ind) (currentPrice ind));
     do 2 eexists; split; reflexivity|].
  destruct (Qltb (SG.rsiOverbought (generator w)) (rsi ind));
    [js_step; destruct (Qltb (currentPrice ind) (sma20 ind));
     do 2 eexists; split; reflexivity|].
  destruct (isMockData ind); [|js_step; do 2 eexists; split; reflexivity].
  unfold Date_now at 1. js_step.
  match goal with
  | |- context [Qltb ?f (25 # 100)] =>
      destruct (Qltb f (25 # 100)); [|js_step; do 2 eexists; split; reflexivity];
      destruct (Qltb f (125 # 1000)); js_step
  end.
  - destruct (Qltb (sma20 ind) (currentPrice ind));
      do 2 eexists; split; reflexivity.
  - destruct (Qltb (currentPrice ind) (sma20 ind));
      do 2 eexists; split; reflexivity.
Qed.

Lemma get_price_run (toUpperCase : string -> string) (w : World G)
    (sym : string) :
  sym <> "" ->
  exists w1,
    get_price P toUpperCase sym w
    = (Returned {| pr_status := 200; pr_success := true; pr_message := None;
                   pr_symbol := Some (toUpperCase sym);
                   pr_price :=
                     Some (currentPrice
                             (generateMockIndicators P
                                (clock w (clock_reads w))
                                (dice w (dice_rolls w))
                                (dice w (S (dice_rolls w)))
                                (toUpperCase sym)));
                   pr_timestamp := Some (clock w (S (clock_reads w))) |},
       w1).
Proof.
  intro Hsym. apply String.eqb_neq in Hsym.
  unfold get_price, try_catch. rewrite Hsym.
  eexists. reflexivity.
Qed.

Lemma get_signal_run (toUpperCase : string -> string) (w : World G)
    (sym : string) :
  sym <> "" ->
  exists s w1 r20 r50,
    get_signal P toUpperCase sym w
    = (Returned {| sr_status := 200; sr_success := true;
                   sr_message := None; sr_signal := Some s |}, w1)
    /\ symbol s = toUpperCase sym
    /\ indicators s
       = Some {| rsi := rsi (generateMockIndicators P
                               (clock w (clock_reads w)) r20 r50
                               (toUpperCase sym));
                 sma20 := sma20 (generateMockIndicators P
                                   (clock w (clock_reads w)) r20 r50
                                   (toUpperCase sym));
                 sma50 := sma50 (generateMockIndicators P
                                   (clock w (clock_reads w)) r20 r50
                                   (toUpperCase sym));
                 currentPrice :=
                   currentPrice (generateMockIndicators P
                                   (clock w (clock_reads w)) r20 r50
                                   (toUpperCase sym));
                 isMockData := false |}.
Proof.
  intro Hsym. apply String.eqb_neq in Hsym.
  unfold get_signal, try_catch. rewrite Hsym.
  unfold bind at 1, log at 1, emit at 1. unfold bind at 1.
  match goal with
  | |- context [generateRSISignal P ?u ?w0] =>
      destruct (generateRSISignal_runs P w0 u)
        as (now & r20 & r50 & w2 & _ & _ & Hnow & _ & _ & _ & _ & E);
      rewrite E;
      destruct (signalFromIndicators_shape P w2 u
                  (generateMockIndicators P now r20 r50 u))
        as (s & w3 & c & E1 & _ & _ & Hs & _);
      destruct (signalFromIndicators_indicators w2 u
                  (generateMockIndicators P now r20 r50 u))
        as (s' & w3' & E2 & Hind)
  end.
  rewrite E1 in E2. injection E2 as <- <-. rewrite E1.
  cbn [clock clock_reads with_trace] in Hnow. subst now.
  exists s, w3, r20, r50. split; [reflexivity|]. split; assumption.
Qed.

Lemma local_post_batch (toUpperCase : string -> string)
    (symbols : option (list string)) :
  emits (G:=G) is_local (post_batch P toUpperCase symbols).
Proof.
  pose proof (local_collectSignals (G:=G) P).
  unfold post_batch, generateSignalsForSymbols. emits_steps.
Qed.

End SignalRouteRuns.

(** X24.  [POST /batch] never answers 500.  Without a list of symbols, or
    with an empty one, it answers 400 and generates nothing.  Otherwise it
    answers 200 with one signal per symbol, in the order given and for the
    upper-cased symbol; [total] is their number and [executed] counts the
    signals marked [shouldExecute], which, for a generator minimum of at
    most 1, are those whose confidence reaches it. *)
Theorem post_batch_counts {G : Type} (P : Platform)
    (toUpperCase : string -> string) (w : World G)
    (symbols : option (list string)) :
  exists reply w',
    post_batch P toUpperCase symbols w = (Returned reply, w')
    /\ generator w' = generator w /\ trader w' = trader w
    /\ (exists seg, trace w' = (trace w ++ seg)%list /\ Forall is_local seg)
    /\ match symbols with
       | None | Some [] =>
           br_status reply = 400%nat /\ br_signals reply = None /\ w' = w
       | Some l =>
           br_status reply = 200%nat
           /\ exists signals,
               br_signals reply = Some signals
               /\ map symbol signals = map toUpperCase l
               /\ br_total reply = Some (List.length l)
               /\ br_executed reply
                  = Some (List.length (filter shouldExecute signals))
               /\ (List.length (filter shouldExecute signals)
                   <= List.length l)%nat
               /\ (SG.minConfidence (generator w) <= 1 ->
                   forall s, In s signals ->
                     (shouldExecute s = true
                      <-> SG.minConfidence (generator w) <= confidence s))
       end.
Proof.
  assert (forall reply w',
            post_batch P toUpperCase symbols w = (Returned reply, w') ->
            exists seg, trace w' = (trace w ++ seg)%list
                        /\ Forall is_local seg) as Hlocal.
  { intros reply w' E.
    exact (emits_run _ _ _ _ _ (local_post_batch P toUpperCase symbols) E). }
  destruct symbols as [[|sym rest]|].
  - do 2 eexists. split; [reflexivity|]. cbn.
    repeat split. exists []. rewrite app_nil_r. auto.
  - set (l := sym :: rest) in *.
    unfold post_batch, try_catch.
    change (List.length l =? 0)%nat with false. cbv iota.
    unfold bind at 1, log at 1, emit at 1. unfold bind at 1.
    unfold generateSignalsForSymbols.
    match goal with
    | |- context [collectSignals P _ [] ?w0] =>
        destruct (collectSignals_sound P (map toUpperCase l) [] w0
                    (fun s => SG.minConfidence (generator w) <= 1 ->
                              (shouldExecute s = true
                               <-> SG.minConfidence (generator w)
                                   <= confidence s)))
          as (signals & w' & E & Hg & Ht & Hall & Hmap)
    end.
    + intros w0 s0 H0.
      destruct (generateRSISignal_sound P w0 s0)
        as (s & w1 & E & Hg & Ht & Hsym & _ & Hx).
      exists s, w1. cbn [generator with_trace] in H0. rewrite H0 in Hx.
      auto 6.
    + constructor.
    + assert (post_batch P toUpperCase (Some l) w
              = (Returned
                   {| br_status := 200; br_success := true;
                      br_message := None; br_signals := Some signals;
                      br_total := Some (List.length signals);
                      br_executed :=
                        Some (List.length (filter shouldExecute signals)) |},
                 w')) as Erun.
      { unfold post_batch, try_catch.
        change (List.length l =? 0)%nat with false. cbv iota.
        unfold bind at 1, log at 1, emit at 1. unfold bind at 1.
        unfold generateSignalsForSymbols. rewrite E. reflexivity. }
      rewrite E. do 2 eexists.
      split; [reflexivity|]. cbn [generator trader with_trace] in Hg, Ht.
      split; [exact Hg|]. split; [exact Ht|].
      split; [exact (Hlocal _ _ Erun)|].
      cbn [map app] in Hmap.
      assert (List.length signals = List.length l) as Hlen.
      { rewrite <- (length_map symbol), Hmap, length_map. reflexivity. }
      fold l. cbn [br_status br_signals br_total br_executed].
      split; [reflexivity|]. exists signals.
      split; [reflexivity|]. split; [exact Hmap|].
      split; [rewrite Hlen; reflexivity|]. split; [reflexivity|].
      split; [rewrite <- Hlen; apply filter_length_le|].
      intros Hm s Hs. rewrite Forall_forall in Hall. exact (Hall s Hs Hm).
  - do 2 eexists. split; [reflexivity|]. cbn.
    repeat split. exists []. rewrite app_nil_r. auto.
Qed.

(** X25.  The price route and the signal route agree: asked for the same
    symbol within one five-minute bucket of the clock, [GET /price/:symbol]
    reports the price that the signal of [GET /:symbol] carries in its
    indicators, and neither answers 500. *)
Theorem price_route_agrees_with_signal_route {G : Type} (P : Platform)
    (toUpperCase : string -> string) (w w' : World G) (sym : string)
    (Hsym : sym <> "")
    (Hbucket : timeBucket (clock w (clock_reads w)) FIVE_MINUTES
               = timeBucket (clock w' (clock_reads w')) FIVE_MINUTES) :
  exists price s ind w1 w1',
    get_price P toUpperCase sym w
    = (Returned {| pr_status := 200; pr_success := true; pr_message := None;
                   pr_symbol := Some (toUpperCase sym);
                   pr_price := Some price;
                   pr_timestamp := Some (clock w (S (clock_reads w))) |}, w1)
    /\ get_signal P toUpperCase sym w'
       = (Returned {| sr_status := 200; sr_success := true;
                      sr_message := None; sr_signal := Some s |}, w1')
    /\ symbol s = toUpperCase sym
    /\ indicators s = Some ind
    /\ currentPrice ind = price.
Proof.
  destruct (get_price_run P toUpperCase w sym Hsym) as (w1 & E1).
  destruct (get_signal_run P toUpperCase w' sym Hsym)
    as (s & w1' & r20 & r50 & E2 & Hs & Hind).
  do 5 eexists. split; [exact E1|]. split; [exact E2|].
  split; [exact Hs|]. split; [exact Hind|].
  unfold generateMockIndicators. cbn [currentPrice].
  rewrite Hbucket. reflexivity.
Qed.

Lemma price_route_agrees_example :
  exists price s ind,
    fst (get_price flat_runtime (fun s => s) "SPY"
           (boot empty_book (fun _ => 1000%Z) (fun _ => 0)))
    = Returned {| pr_status := 200; pr_success := true; pr_message := None;
                  pr_symbol := Some "SPY"; pr_price := Some price;
                  pr_timestamp := Some 1000%Z |}
    /\ fst (get_signal flat_runtime (fun s => s) "SPY"
              (boot empty_book (fun _ => 299999%Z) (fun _ => 1 # 2)))
       = Returned {| sr_status := 200; sr_success := true;
                     sr_message := None; sr_signal := Some s |}
    /\ indicators s = Some ind
    /\ currentPrice ind = price.
Proof.
  destruct (price_route_agrees_with_signal_route flat_runtime (fun s => s)
              (boot empty_book (fun _ => 1000%Z) (fun _ => 0))
              (boot empty_book (fun _ => 299999%Z) (fun _ => 1 # 2)) "SPY")
    as (price & s & ind & w1 & w1' & E1 & E2 & _ & Hi & Hp).
  - discriminate.
  - reflexivity.
  - exists price, s, ind. rewrite E1, E2. repeat split; assumption.
Defined.

(** ** The trading routes *)

Lemma upper_capitals (s : string) :
  all_capitals s = true -> String_toUpperCase s = s.
Proof.
  induction s as [|c s IH]; cbn [all_capitals]; [reflexivity|].
  rewrite !andb_true_iff, !Nat.leb_le. intros [[H1 H2] H3].
  cbn [String_toUpperCase String_map]. fold (String_toUpperCase s).
  rewrite (IH H3). f_equal. unfold upper_char.
  replace (97 <=? nat_of_ascii c)%nat with false; [reflexivity|].
  symmetry. apply Nat.leb_gt. lia.
Qed.

Lemma isIn_In (values : list string) (s : string) :
  isIn values s = true <-> In s values.
Proof.
  unfold isIn. rewrite existsb_exists. split.
  - intros (v & Hin & E). apply String.eqb_eq in E. subst. exact Hin.
  - intro Hin. exists s. split; [exact Hin | apply String.eqb_refl].
Qed.

(** What a body that passes [validateTradeOrder] looks like. *)
Lemma validateTradeOrder_sound (trim : string -> string) (body : TradeBody)
    (order : TradeOrder) :
  validateTradeOrder trim body = Some order ->
  (exists s, trade_symbol body = Some s /\ to_symbol order = trim s)
  /\ trade_qty body = Some (to_qty order)
  /\ trade_side body = Some (to_side order)
  /\ all_capitals (to_symbol order) = true
  /\ (1 <= String.length (to_symbol order) <= 10)%nat
  /\ 1 # 100 <= to_qty order
  /\ (to_side order = "buy" \/ to_side order = "sell")
  /\ In (to_type order) ["market"; "limit"; "stop"; "stop_limit"]
  /\ In (to_time_in_force order) ["day"; "gtc"; "ioc"; "fok"]
  /\ String_toUpperCase (to_symbol order) = to_symbol order
  /\ String_toLowerCase (to_side order) = to_side order.
Proof.
  unfold validateTradeOrder.
  destruct (trade_symbol body) as [s|]; [|discriminate].
  destruct (trade_qty body) as [q|]; [|discriminate].
  destruct (trade_side body) as [sd|]; [|discriminate].
  match goal with |- (if ?c then _ else _) = _ -> _ => destruct c eqn:E end;
    [|discriminate].
  intro H. injection H as <-. cbn [to_symbol to_qty to_side to_type
                                   to_time_in_force].
  rewrite !andb_true_iff in E.
  destruct E as [[[[[[L1 L2] Hm] Hq] Hs] Ht] Hf].
  apply Nat.leb_le in L1, L2. unfold matches_capitals in Hm.
  apply andb_true_iff in Hm. destruct Hm as [_ Hm].
  apply Qle_bool_iff in Hq. apply isIn_In in Hs.
  assert (sd = "buy" \/ sd = "sell") as Hside.
  { destruct Hs as [<-|[<-|[]]]; auto. }
  split; [exists s; auto|].
  split; [reflexivity|]. split; [reflexivity|].
  split; [exact Hm|]. split; [lia|]. split; [exact Hq|].
  split; [exact Hside|].
  split.
  { destruct (trade_type body) as [t|]; cbn [optional] in Ht.
    - apply isIn_In in Ht. exact Ht.
    - left. reflexivity. }
  split.
  { destruct (trade_time_in_force body) as [t|]; cbn [optional] in Hf.
    - apply isIn_In in Hf. exact Hf.
    - left. reflexivity. }
  split; [apply upper_capitals; exact Hm|].
  destruct Hside as [-> | ->]; reflexivity.
Qed.

Lemma cancel_events_quiet (evs : list desk_event) :
  Forall cancel_event evs ->
  submitted evs = [] /\ account_readings evs = 0%nat.
Proof.
  unfold submitted, account_readings.
  induction 1 as [|e l He _ [IH1 IH2]]; [split; reflexivity|].
  cbn. rewrite IH1. destruct e as [| [] |]; cbn in *; try tauto.
Qed.

Section TradeRouteRuns.
Context {D : Type} (P : Platform) (desk : Desk D).

Lemma cancelOpposite_loop (symbol : string) (opp : list BrokerOrder) :
  forall s : Session D,
  exists (s' : Session D) (evs : list desk_event),
    for_eachT opp (cancelOpposite desk symbol) s = (Answered tt, s')
    /\ journal s' = (journal s ++ evs)%list
    /\ cancellations evs = map bo_id opp
    /\ Forall cancel_event evs.
Proof.
  unfold cancellations.
  induction opp as [|o rest IH]; intro s.
  - exists s, []. cbn. rewrite app_nil_r. repeat split. constructor.
  - cbn [for_eachT]. unfold bindT at 1, cancelOpposite at 1, tryT.
    unfold bindT at 1, ask.
    destruct (desk_cancel desk (bo_id o) (desk_state s)) as [[[]|e] d1].
    + unfold logT, record. cbn [desk_state journal].
      match goal with
      | |- context [for_eachT rest _ ?s0] =>
          destruct (IH s0) as (s' & evs & E & Hj & Hc & Hq); rewrite E
      end.
      exists s'. eexists. split; [reflexivity|]. cbn [journal] in Hj.
      rewrite Hj, <- !app_assoc. cbn [app]. split; [reflexivity|].
      split; [cbn [flat_map app map]; rewrite Hc; reflexivity|].
      repeat constructor. exact Hq.
    + unfold logT, record. cbn [desk_state journal].
      match goal with
      | |- context [for_eachT rest _ ?s0] =>
          destruct (IH s0) as (s' & evs & E & Hj & Hc & Hq); rewrite E
      end.
      exists s'. eexists. split; [reflexivity|]. cbn [journal] in Hj.
      rewrite Hj, <- !app_assoc. cbn [app]. split; [reflexivity|].
      split; [cbn [flat_map app map]; rewrite Hc; reflexivity|].
      repeat constructor. exact Hq.
Qed.

(** The wash-trade step of [POST /trade] as a whole. *)
Lemma cancellation_step (symbol : string) (opp : list BrokerOrder)
    (s : Session D) :
  exists (s' : Session D) (evs : list desk_event),
    (if (0 <? List.length opp)%nat then
       bindT (logT Info ("Cancelling "
                ++ Number_toString P (inject_Z (Z.of_nat (List.length opp)))
                ++ " opposite side orders for " ++ symbol
                ++ " to prevent wash trade"))
         (fun _ => bindT (for_eachT opp (cancelOpposite desk symbol))
                     (fun _ => sleepT 1000))
     else retT tt) s = (Answered tt, s')
    /\ journal s' = (journal s ++ evs)%list
    /\ cancellations evs = map bo_id opp
    /\ Forall cancel_event evs.
Proof.
  destruct opp as [|o rest].
  - exists s, []. cbn. rewrite app_nil_r. repeat split. constructor.
  - change (0 <? List.length (o :: rest))%nat with true. cbv iota.
    unfold bindT at 1, logT, record. unfold bindT at 1.
    match goal with
    | |- context [for_eachT (o :: rest) _ ?s0] =>
        destruct (cancelOpposite_loop symbol (o :: rest) s0)
          as (s1 & evs & E & Hj & Hc & Hq); rewrite E
    end.
    eexists. eexists. split; [reflexivity|].
    cbn [journal sleepT record] in *. rewrite Hj, <- !app_assoc. cbn [app].
    split; [reflexivity|]. split.
    + unfold cancellations in *. cbn [flat_map app].
      rewrite flat_map_app, Hc. cbn. rewrite app_nil_r. reflexivity.
    + constructor; [exact I|]. apply Forall_app. split; [exact Hq|].
      repeat constructor.
Qed.

(** Every way [POST /trade] can go for a validated body. *)
Lemma placeOrder_run (order : TradeOrder) (now : Z) (r : Q) (s : Session D) :
  let sym := String_toUpperCase (to_symbol order) in
  let od := {| mo_symbol := sym;
               mo_qty := Number_toString P (to_qty order);
               mo_side := to_side order;
               mo_type := to_type order;
               mo_time_in_force := to_time_in_force order;
               mo_client_order_id := "manual_" ++ unique_suffix P now r |} in
  exists (reply : TradeReply) (s' : Session D) (seg : list desk_event),
    tryT (placeOrder P desk order now r) (trade_error (D:=D)) s
    = (Answered reply, s')
    /\ journal s' = (journal s ++ seg)%list
    /\ exists placing,
        (exists e d1,
           desk_open_orders desk sym (desk_state s) = (Refused e, d1)
           /\ seg = [DkLog Info placing; DkCall (AskOpenOrders sym) (Some e);
                     DkLog Error "Error placing trade order:"]
           /\ reply = errorReply e)
        \/ (exists orders d1 cancels d2,
              desk_open_orders desk sym (desk_state s) = (Answered orders, d1)
              /\ cancellations cancels
                 = map bo_id (opposite (String_toLowerCase (to_side order))
                                orders)
              /\ Forall cancel_event cancels
              /\ let pre := ([DkLog Info placing;
                              DkCall (AskOpenOrders sym) None]
                             ++ cancels)%list in
                 (exists e d3,
                    to_side order = "buy"
                    /\ desk_account desk d2 = (Refused e, d3)
                    /\ seg = (pre ++ [DkCall AskAccount (Some e);
                                      DkLog Error "Error placing trade order:"])%list
                    /\ reply = errorReply e)
                 \/ (exists available d3,
                       to_side order = "buy"
                       /\ desk_account desk d2 = (Answered available, d3)
                       /\ below available (to_qty order * 100) = true
                       /\ seg = (pre ++ [DkCall AskAccount None;
                                         DkLog Warn ("Insufficient buying power for "
                                                     ++ to_symbol order ++ " order")])%list
                       /\ reply = {| tr_status := 400; tr_success := false;
                                     tr_error := Some "Insufficient buying power";
                                     tr_message := None; tr_order_id := None;
                                     tr_required := Some (to_qty order * 100) |})
                 \/ (exists acct d3,
                       ((to_side order <> "buy" /\ acct = [] /\ d3 = d2)
                        \/ (to_side order = "buy"
                            /\ exists available,
                                desk_account desk d2 = (Answered available, d3)
                                /\ below available (to_qty order * 100) = false
                                /\ acct = [DkCall AskAccount None]))
                       /\ ((exists e d4,
                              desk_submit desk od d3 = (Refused e, d4)
                              /\ seg = (pre ++ acct
                                        ++ [DkCall (AskSubmit od) (Some e);
                                            DkLog Error "Error placing trade order:"])%list
                              /\ reply = errorReply e)
                           \/ (exists id d4 placed,
                                 desk_submit desk od d3 = (Answered id, d4)
                                 /\ seg = (pre ++ acct
                                           ++ [DkCall (AskSubmit od) None;
                                               DkLog Info placed])%list
                                 /\ tr_status reply = 201%nat
                                 /\ tr_success reply = true
                                 /\ tr_order_id reply = Some id)))).
Proof.
  intros sym od.
  unfold placeOrder, tryT. fold sym.
  unfold bindT at 1, logT at 1, record at 1.
  unfold bindT at 1, ask at 1. cbn [desk_state journal].
  destruct (desk_open_orders desk sym (desk_state s)) as [[orders|e] d1] eqn:El.
  2:{ unfold trade_error, bindT, logT, record, retT.
      do 3 eexists. split; [reflexivity|]. cbn [journal].
      rewrite <- !app_assoc. cbn [app]. split; [reflexivity|].
      eexists. left. exists e, d1. repeat split. }
  unfold bindT at 1.
  match goal with
  | |- context [(if (0 <? _)%nat then _ else _) ?s0] =>
      destruct (cancellation_step (to_symbol order)
                  (opposite (String_toLowerCase (to_side order)) orders) s0)
        as (s1 & cancels & E & Hj & Hc & Hq)
  end.
  unfold opposite in E at 1 2 3. rewrite E. clear E.
  cbn [journal desk_state] in Hj.
  unfold bindT at 1.
  destruct (String.eqb (to_side order) "buy") eqn:Eside.
  - apply String.eqb_eq in Eside.
    unfold bindT at 1, ask at 1.
    destruct (desk_account desk (desk_state s1)) as [[available|e] d3] eqn:Ea.
    2:{ unfold trade_error, bindT, logT, record, retT.
        do 3 eexists. split; [reflexivity|]. cbn [journal].
        rewrite Hj, <- !app_assoc. cbn [app]. split; [reflexivity|].
        eexists. right. exists orders, d1, cancels, (desk_state s1).
        split; [reflexivity|]. split; [exact Hc|]. split; [exact Hq|].
        left. exists e, d3. rewrite <- ?app_assoc. repeat split; assumption. }
    destruct (below available (to_qty order * 100)) eqn:Eb.
    + unfold bindT, logT, record, retT.
      do 3 eexists. split; [reflexivity|]. cbn [journal].
      rewrite Hj, <- !app_assoc. cbn [app]. split; [reflexivity|].
      eexists. right. exists orders, d1, cancels, (desk_state s1).
      split; [reflexivity|]. split; [exact Hc|]. split; [exact Hq|].
      right. left. exists available, d3. rewrite <- ?app_assoc.
      repeat split; assumption.
    + unfold retT at 1. unfold bindT at 1, ask at 1. cbn [desk_state journal].
      fold od.
      destruct (desk_submit desk od d3) as [[id|e] d4] eqn:Es.
      * unfold bindT, logT, record, retT.
        do 3 eexists. split; [reflexivity|]. cbn [journal].
        rewrite Hj, <- !app_assoc. cbn [app]. split; [reflexivity|].
        eexists. right. exists orders, d1, cancels, (desk_state s1).
        split; [reflexivity|]. split; [exact Hc|]. split; [exact Hq|].
        right. right. exists [DkCall AskAccount None], d3. split.
        { right. split; [exact Eside|]. exists available. auto. }
        right. exists id, d4. eexists. rewrite <- ?app_assoc.
        repeat split; try reflexivity; assumption.
      * unfold trade_error, bindT, logT, record, retT.
        do 3 eexists. split; [reflexivity|]. cbn [journal].
        rewrite Hj, <- !app_assoc. cbn [app]. split; [reflexivity|].
        eexists. right. exists orders, d1, cancels, (desk_state s1).
        split; [reflexivity|]. split; [exact Hc|]. split; [exact Hq|].
        right. right. exists [DkCall AskAccount None], d3. split.
        { right. split; [exact Eside|]. exists available. auto. }
        left. exists e, d4. rewrite <- ?app_assoc. repeat split; try reflexivity; assumption.
  - apply String.eqb_neq in Eside.
    unfold retT at 1. unfold bindT at 1, ask at 1. fold od.
    destruct (desk_submit desk od (desk_state s1)) as [[id|e] d4] eqn:Es.
    + unfold bindT, logT, record, retT.
      do 3 eexists. split; [reflexivity|]. cbn [journal].
      rewrite Hj, <- !app_assoc. cbn [app]. split; [reflexivity|].
      eexists. right. exists orders, d1, cancels, (desk_state s1).
      split; [reflexivity|]. split; [exact Hc|]. split; [exact Hq|].
      right. right. exists [], (desk_state s1). split.
      { left. auto. }
      right. exists id, d4. eexists. rewrite <- ?app_assoc.
      repeat split; try reflexivity; assumption.
    + unfold trade_error, bindT, logT, record, retT.
      do 3 eexists. split; [reflexivity|]. cbn [journal].
      rewrite Hj, <- !app_assoc. cbn [app]. split; [reflexivity|].
      eexists. right. exists orders, d1, cancels, (desk_state s1).
      split; [reflexivity|]. split; [exact Hc|]. split; [exact Hq|].
      right. right. exists [], (desk_state s1). split.
      { left. auto. }
      left. exists e, d4. rewrite <- ?app_assoc.
      repeat split; try reflexivity; assumption.
Qed.

End TradeRouteRuns.

Lemma errorReply_status (e : ApiError) :
  (tr_status (errorReply e) = 400%nat
   <-> exists detail, error_response e = Some (422%nat, detail))
  /\ (tr_status (errorReply e) = 400%nat \/ tr_status (errorReply e) = 500%nat)
  /\ tr_success (errorReply e) = false.
Proof.
  unfold errorReply. destruct (error_response e) as [[st detail]|].
  - destruct (st =? 422)%nat eqn:E; cbn.
    + apply Nat.eqb_eq in E. subst. split; [|auto].
      split; [eauto | reflexivity].
    + apply Nat.eqb_neq in E. split; [|auto].
      split; [discriminate|]. intros [d H]. congruence.
  - cbn. split; [|auto]. split; [discriminate | intros [d H]; discriminate].
Qed.

Lemma manual_prefix (tag : string) : String.prefix "manual_" ("manual_" ++ tag) = true.
Proof. cbn. destruct tag; reflexivity. Qed.

(** X17.  [POST /trade] with a body that fails validation is answered with
    400 after one warning, without any request to the broker.  A body that
    passes has a symbol of one to ten capital letters (after trimming), a
    quantity of at least 0.01, the side [buy] or [sell], and a type and a
    time in force from the lists, [market] and [day] when left out; the
    upper-casing of the symbol and the lower-casing of the side then change
    nothing. *)
Theorem post_trade_validation {D : Type} (P : Platform)
    (trim : string -> string) (desk : Desk D) (body : TradeBody) (now : Z)
    (r : Q) (s : Session D) :
  (validateTradeOrder trim body = None ->
   post_trade P trim desk body now r s
   = (Answered {| tr_status := 400; tr_success := false;
                  tr_error := Some "Validation failed";
                  tr_message := None; tr_order_id := None;
                  tr_required := None |},
      {| desk_state := desk_state s;
         journal := (journal s
                     ++ [DkLog Warn "Trade order validation failed:"])%list |}))
  /\ (forall order, validateTradeOrder trim body = Some order ->
        all_capitals (to_symbol order) = true
        /\ (1 <= String.length (to_symbol order) <= 10)%nat
        /\ 1 # 100 <= to_qty order
        /\ (to_side order = "buy" \/ to_side order = "sell")
        /\ In (to_type order) ["market"; "limit"; "stop"; "stop_limit"]
        /\ In (to_time_in_force order) ["day"; "gtc"; "ioc"; "fok"]
        /\ (trade_type body = None -> to_type order = "market")
        /\ (trade_time_in_force body = None -> to_time_in_force order = "day")
        /\ String_toUpperCase (to_symbol order) = to_symbol order
        /\ String_toLowerCase (to_side order) = to_side order).
Proof.
  split.
  - intro H. unfold post_trade, tryT. rewrite H. reflexivity.
  - intros order H.
    destruct (validateTradeOrder_sound trim body order H)
      as (_ & _ & _ & H1 & H2 & H3 & H4 & H5 & H6 & H7 & H8).
    repeat (split; [assumption|]).
    unfold validateTradeOrder in H.
    destruct (trade_symbol body), (trade_qty body), (trade_side body);
      try discriminate.
    destruct (_ && _) in H; [|discriminate]. injection H as <-.
    cbn [to_type to_time_in_force].
    split; [intros ->; reflexivity|].
    split; [intros ->; reflexivity|]. split; assumption.
Qed.

Lemma post_trade_validation_example :
  fst (post_trade flat_runtime (fun s => s) (ledger_desk (Some 500))
         {| trade_symbol := Some "aapl"; trade_qty := Some 1;
            trade_side := Some "buy"; trade_type := None;
            trade_time_in_force := None |} 0 0 (open_session small_ledger))
  = Answered {| tr_status := 400; tr_success := false;
                tr_error := Some "Validation failed";
                tr_message := None; tr_order_id := None;
                tr_required := None |}.
Proof.
  rewrite (proj1 (post_trade_validation flat_runtime (fun s => s)
                    (ledger_desk (Some 500))
                    {| trade_symbol := Some "aapl"; trade_qty := Some 1;
                       trade_side := Some "buy"; trade_type := None;
                       trade_time_in_force := None |} 0 0
                    (open_session small_ledger)) eq_refl).
  reflexivity.
Defined.

Ltac in_tail :=
  repeat first [ left; reflexivity | apply in_or_app; right | right ].

Section TradeFacts.
Context {D : Type} (P : Platform) (desk : Desk D).

(** The consequences of [placeOrder_run] that do not depend on what the
    broker answered. *)
Lemma placeOrder_outcomes (order : TradeOrder) (now : Z) (r : Q)
    (s : Session D) :
  String_toUpperCase (to_symbol order) = to_symbol order ->
  exists (reply : TradeReply) (s' : Session D) (seg : list desk_event),
    tryT (placeOrder P desk order now r) (trade_error (D:=D)) s
    = (Answered reply, s')
    /\ journal s' = (journal s ++ seg)%list
    /\ (tr_status reply = 201%nat \/ tr_status reply = 400%nat
        \/ tr_status reply = 500%nat)
    /\ (tr_status reply = 201%nat <-> tr_success reply = true)
    /\ (List.length (submitted seg) <= 1)%nat
    /\ Forall (manual_order P order) (submitted seg)
    /\ (tr_status reply = 201%nat ->
        exists od before placed,
          seg = (before ++ [DkCall (AskSubmit od) None; DkLog Info placed])%list
          /\ submitted before = [])
    /\ (to_side order <> "buy" -> account_readings seg = 0%nat)
    /\ (account_readings seg <= 1)%nat
    /\ (forall req e, In (DkCall req (Some e)) seg ->
          (exists id, req = AskCancel id) \/ reply = errorReply e)
    /\ (tr_status reply = 500%nat ->
        exists req e, In (DkCall req (Some e)) seg /\ reply = errorReply e).
Proof.
  intro Hup.
  destruct (placeOrder_run P desk order now r s)
    as (reply & s' & seg & E & Hj & placing & Hcase).
  exists reply, s', seg. split; [exact E|]. split; [exact Hj|].
  rewrite Hup in Hcase.
  assert (forall cancels req e,
            Forall cancel_event cancels -> In (DkCall req (Some e)) cancels ->
            exists id, req = AskCancel id) as Hcancel.
  { intros cancels req e Hq Hin. rewrite Forall_forall in Hq.
    specialize (Hq _ Hin). destruct req; cbn in Hq; try contradiction.
    eexists. reflexivity. }
  assert (forall tag, manual_order P order
            {| mo_symbol := to_symbol order;
               mo_qty := Number_toString P (to_qty order);
               mo_side := to_side order; mo_type := to_type order;
               mo_time_in_force := to_time_in_force order;
               mo_client_order_id := "manual_" ++ tag |}) as Hod.
  { intro tag. repeat split. apply manual_prefix. }
  destruct Hcase as [(e & d1 & _ & -> & ->)
    | (orders & d1 & cancels & d2 & _ & _ & Hq & Hrest)].
  { destruct (errorReply_status e) as (_ & Hst & Hs).
    split; [tauto|]. split; [rewrite Hs; split; [|discriminate];
                              destruct Hst as [H|H]; rewrite H; discriminate|].
    cbn. split; [lia|]. split; [constructor|].
    split; [destruct Hst as [H|H]; rewrite H; discriminate|].
    split; [reflexivity|]. split; [lia|]. split.
    - intros req e' [H|[H|[H|[]]]]; try discriminate.
      injection H as _ <-. right. reflexivity.
    - intros _. do 2 eexists. split; [right; left; reflexivity | reflexivity]. }
  destruct (cancel_events_quiet cancels Hq) as [Hsub Hacc].
  cbv zeta in Hrest.
  assert (forall tail, submitted (([DkLog Info placing;
                         DkCall (AskOpenOrders (to_symbol order)) None]
                        ++ cancels) ++ tail)%list = submitted tail) as Hsubs.
  { intro tail. unfold submitted in *. rewrite flat_map_app.
    cbn [app flat_map]. rewrite Hsub. reflexivity. }
  assert (forall tail, account_readings (([DkLog Info placing;
                         DkCall (AskOpenOrders (to_symbol order)) None]
                        ++ cancels) ++ tail)%list = account_readings tail)
    as Haccs.
  { intro tail. unfold account_readings in *. rewrite filter_app, length_app.
    cbn [app filter]. rewrite Hacc. reflexivity. }
  assert (forall tail req e,
            In (DkCall req (Some e))
               (([DkLog Info placing;
                  DkCall (AskOpenOrders (to_symbol order)) None]
                 ++ cancels) ++ tail)%list ->
            (exists id, req = AskCancel id) \/ In (DkCall req (Some e)) tail)
    as Hins.
  { intros tail req e Hin. apply in_app_or in Hin. destruct Hin as [Hin|Hin];
      [|right; exact Hin].
    cbn [app] in Hin. destruct Hin as [H|[H|Hin]]; try discriminate.
    left. eapply Hcancel; eassumption. }
  destruct Hrest as [(e & d3 & Hside & _ & -> & ->)
    | [(available & d3 & Hside & _ & _ & -> & ->)
      | (acct & d3 & Hacct & Hsubmit)]].
  - destruct (errorReply_status e) as (_ & Hst & Hs).
    rewrite Hsubs, Haccs.
    split; [tauto|]. split; [rewrite Hs; split; [|discriminate];
                              destruct Hst as [H|H]; rewrite H; discriminate|].
    unfold submitted, account_readings.
    cbn [flat_map app filter List.length]. split; [lia|]. split; [constructor|].
    split; [destruct Hst as [H|H]; rewrite H; discriminate|].
    split; [intro; contradiction|]. split; [lia|]. split.
    + intros req e' Hin. apply Hins in Hin. destruct Hin as [H|Hin]; [auto|].
      right. destruct Hin as [H|[H|[]]]; try discriminate.
      injection H as _ <-. reflexivity.
    + intros _. exists AskAccount, e. split; [|reflexivity].
      in_tail.
  - rewrite Hsubs, Haccs. unfold submitted, account_readings.
    cbn [flat_map app filter List.length tr_status tr_success].
    split; [tauto|]. split; [split; discriminate|].
    split; [lia|]. split; [constructor|]. split; [discriminate|].
    split; [intro; contradiction|]. split; [lia|]. split.
    + intros req e' Hin. apply Hins in Hin. destruct Hin as [H|Hin]; [auto|].
      destruct Hin as [H|[H|[]]]; discriminate.
    + discriminate.
  - assert (submitted acct = [] /\ (account_readings acct <= 1)%nat
            /\ (to_side order <> "buy" -> account_readings acct = 0%nat)
            /\ forall req e, ~ In (DkCall req (Some e)) acct)
      as (Ha1 & Ha2 & Ha3 & Ha4).
    { destruct Hacct as [(Hside & -> & _) | (Hside & av & _ & _ & ->)].
      - cbn. repeat split; auto.
      - cbn. repeat split; auto; try contradiction.
        intros req e [H|[]]. discriminate. }
    assert (forall tail, submitted (acct ++ tail) = submitted tail) as Hsubs2.
    { intro tail. unfold submitted in *. rewrite flat_map_app, Ha1.
      reflexivity. }
    destruct Hsubmit as [(e & d4 & _ & -> & ->)
      | (id & d4 & placed & _ & -> & H201 & Hsucc & _)].
    + destruct (errorReply_status e) as (_ & Hst & Hs).
      rewrite Hsubs, Haccs, Hsubs2.
      split; [tauto|]. split; [rewrite Hs; split; [|discriminate];
                                destruct Hst as [H|H]; rewrite H; discriminate|].
      cbn [submitted flat_map app List.length].
      split; [lia|]. split; [repeat constructor; apply Hod|].
      split; [destruct Hst as [H|H]; rewrite H; discriminate|].
      unfold account_readings in *. rewrite filter_app, length_app.
      cbn [filter List.length].
      split; [intro Hs'; rewrite (Ha3 Hs'); reflexivity|].
      split; [lia|]. split.
      * intros req e' Hin. apply Hins in Hin.
        destruct Hin as [H|Hin]; [auto|].
        apply in_app_or in Hin. destruct Hin as [Hin|Hin];
          [exfalso; eapply Ha4; exact Hin|].
        right. destruct Hin as [H|[H|[]]]; try discriminate.
        injection H as _ <-. reflexivity.
      * intros _. exists (AskSubmit
          {| mo_symbol := to_symbol order;
             mo_qty := Number_toString P (to_qty order);
             mo_side := to_side order; mo_type := to_type order;
             mo_time_in_force := to_time_in_force order;
             mo_client_order_id := "manual_" ++ unique_suffix P now r |}), e.
        split; [|reflexivity].
        in_tail.
    + rewrite Hsubs, Haccs, Hsubs2. rewrite H201, Hsucc.
      split; [tauto|]. split; [tauto|].
      cbn [submitted flat_map app List.length].
      split; [lia|]. split; [repeat constructor; apply Hod|].
      split.
      { intros _. eexists.
        exists (([DkLog Info placing;
                  DkCall (AskOpenOrders (to_symbol order)) None]
                 ++ cancels) ++ acct)%list, placed.
        split; [cbn [app]; rewrite <- ?app_assoc; reflexivity|].
        rewrite Hsubs. exact Ha1. }
      unfold account_readings in *. rewrite filter_app, length_app.
      cbn [filter List.length].
      split; [intro Hs'; rewrite (Ha3 Hs'); reflexivity|].
      split; [lia|]. split.
      * intros req e' Hin. apply Hins in Hin.
        destruct Hin as [H|Hin]; [auto|].
        apply in_app_or in Hin. destruct Hin as [Hin|Hin];
          [exfalso; eapply Ha4; exact Hin|].
        destruct Hin as [H|[H|[]]]; discriminate.
      * discriminate.
Qed.

End TradeFacts.

(** X18.  [POST /trade] always answers, with 201, 400 or 500, and 201 is
    the only answer that reports success.  It submits at most one order;
    a 201 means the last request was a submission the broker accepted.  The
    order submitted is the validated body's (symbol, quantity as a string,
    side, type, time in force) under an id that starts with [manual_].  The
    account is read at most once, and never for a sell. *)
Theorem post_trade_answers {D : Type} (P : Platform) (trim : string -> string)
    (desk : Desk D) (body : TradeBody) (now : Z) (r : Q) (s : Session D) :
  exists (reply : TradeReply) (s' : Session D) (seg : list desk_event),
    post_trade P trim desk body now r s = (Answered reply, s')
    /\ journal s' = (journal s ++ seg)%list
    /\ (tr_status reply = 201%nat \/ tr_status reply = 400%nat
        \/ tr_status reply = 500%nat)
    /\ (tr_status reply = 201%nat <-> tr_success reply = true)
    /\ (List.length (submitted seg) <= 1)%nat
    /\ (tr_status reply = 201%nat ->
        exists od before placed,
          seg = (before ++ [DkCall (AskSubmit od) None; DkLog Info placed])%list
          /\ submitted before = [])
    /\ (account_readings seg <= 1)%nat
    /\ (forall order, validateTradeOrder trim body = Some order ->
          Forall (manual_order P order) (submitted seg)
          /\ (to_side order = "sell" -> account_readings seg = 0%nat)).
Proof.
  destruct (validateTradeOrder trim body) as [order|] eqn:Hv.
  - destruct (validateTradeOrder_sound trim body order Hv)
      as (_ & _ & _ & _ & _ & _ & _ & _ & _ & Hup & _).
    destruct (placeOrder_outcomes P desk order now r s Hup)
      as (reply & s' & seg & E & Hj & H1 & H2 & H3 & H4 & H5 & H6 & H7 & _).
    exists reply, s', seg. unfold post_trade. rewrite Hv.
    repeat (split; [assumption|]).
    intros order' Ho. injection Ho as <-. split; [exact H4|].
    intro Hsell. apply H6. rewrite Hsell. discriminate.
  - do 3 eexists. unfold post_trade, tryT. rewrite Hv.
    split; [reflexivity|]. cbn [journal]. split; [reflexivity|].
    cbn. split; [tauto|]. split; [split; discriminate|].
    split; [lia|]. split; [discriminate|]. split; [lia|].
    intros order Ho. discriminate.
Qed.



(** X20.  A buying power that is not a number passes the check of
    [POST /trade]: [NaN < cost] is false, so the buy is submitted. *)
Theorem unreadable_buying_power_lets_a_buy_through {D : Type} (P : Platform)
    (trim : string -> string) (desk : Desk D) (body : TradeBody)
    (order : TradeOrder) (now : Z) (r : Q) (s : Session D)
    (orders : list BrokerOrder) (d1 : D)
    (Hvalid : validateTradeOrder trim body = Some order)
    (Hbuy : to_side order = "buy")
    (Hlist : desk_open_orders desk (to_symbol order) (desk_state s)
             = (Answered orders, d1))
    (Hnan : forall d, fst (desk_account desk d) = Answered None) :
  exists (reply : TradeReply) (s' : Session D) (seg : list desk_event)
         (od : ManualOrder),
    post_trade P trim desk body now r s = (Answered reply, s')
    /\ journal s' = (journal s ++ seg)%list
    /\ account_readings seg = 1%nat
    /\ submitted seg = [od]
    /\ manual_order P order od
    /\ mo_qty od = Number_toString P (to_qty order).
Proof.
  destruct (validateTradeOrder_sound trim body order Hvalid)
    as (_ & _ & _ & _ & _ & _ & _ & _ & _ & Hup & Hlow').
  destruct (placeOrder_run P desk order now r s)
    as (reply & s' & seg & E & Hj & placing & Hcase).
  rewrite Hup, Hlist, Hlow', Hbuy in Hcase.
  exists reply, s', seg. unfold post_trade. rewrite Hvalid.
  destruct Hcase as [(e & d1' & Habs & _) | (orders' & d1' & cancels & d2
                                            & Ho & Hc & Hq & Hrest)];
    [discriminate|].
  destruct (cancel_events_quiet cancels Hq) as [Hsub Hread].
  destruct Hrest as [(e & d3 & _ & Ha & _)
    | [(av & d3 & _ & Ha & Hb & _)
      | (acct & d3 & [(Hside & _) | (_ & av & Ha & Hb & ->)] & Hsubmit)]].
  - specialize (Hnan d2). rewrite Ha in Hnan. discriminate.
  - specialize (Hnan d2). rewrite Ha in Hnan. cbn in Hnan.
    injection Hnan as ->. discriminate.
  - contradiction.
  - assert (forall tail,
              account_readings
                (([DkLog Info placing;
                   DkCall (AskOpenOrders (to_symbol order)) None] ++ cancels)
                 ++ [DkCall AskAccount None] ++ tail)%list
              = S (account_readings tail)) as Hreads.
    { intro tail. unfold account_readings in *.
      rewrite !filter_app, !length_app. cbn [filter List.length app].
      rewrite Hread. reflexivity. }
    assert (forall tail,
              submitted
                (([DkLog Info placing;
                   DkCall (AskOpenOrders (to_symbol order)) None] ++ cancels)
                 ++ [DkCall AskAccount None] ++ tail)%list
              = submitted tail) as Hsubs.
    { intro tail. unfold submitted in *.
      rewrite !flat_map_app. cbn [flat_map app]. rewrite Hsub. reflexivity. }
    eexists. split; [exact E|]. split; [exact Hj|].
    destruct Hsubmit as [(e & d4 & _ & -> & _)
                        | (id & d4 & placed & _ & -> & _)];
      rewrite Hreads, Hsubs;
      (split; [reflexivity|]); (split; [reflexivity|]);
      (split; [|reflexivity]); repeat split; cbn [mo_side];
      rewrite ?Hbuy; try reflexivity; apply manual_prefix.
Qed.

Lemma unreadable_buying_power_example :
  exists reply s' seg od,
    post_trade flat_runtime (fun s => s) (ledger_desk None)
      {| trade_symbol := Some "AAPL"; trade_qty := Some 1000000;
         trade_side := Some "buy"; trade_type := None;
         trade_time_in_force := None |} 0 0
      (open_session {| ledger_orders := []; ledger_locked := [];
                       ledger_rejects := None |})
    = (Answered reply, s')
    /\ journal s' = seg
    /\ submitted seg = [od]
    /\ mo_qty od = "#".
Proof.
  destruct (unreadable_buying_power_lets_a_buy_through flat_runtime
              (fun s => s) (ledger_desk None)
              {| trade_symbol := Some "AAPL"; trade_qty := Some 1000000;
                 trade_side := Some "buy"; trade_type := None;
                 trade_time_in_force := None |}
              {| to_symbol := "AAPL"; to_qty := 1000000; to_side := "buy";
                 to_type := "market"; to_time_in_force := "day" |}
              0 0
              (open_session {| ledger_orders := []; ledger_locked := [];
                               ledger_rejects := None |})
              [] {| ledger_orders := []; ledger_locked := [];
                    ledger_rejects := None |})
    as (reply & s' & seg & od & E & Hj & _ & Hs & _ & Hq);
    try reflexivity.
  exists reply, s', seg, od. repeat split; assumption.
Defined.

(** X21.  Errors of the broker in [POST /trade]: a refused cancellation
    never fails the request; any other refused request ends it with the
    answer of the [catch] block, 400 "Invalid order parameters" when the
    error's response has status 422 and 500 otherwise, whichever request it
    was.  A 500 is never answered without such an error. *)
Theorem post_trade_errors {D : Type} (P : Platform) (trim : string -> string)
    (desk : Desk D) (body : TradeBody) (now : Z) (r : Q) (s : Session D) :
  exists (reply : TradeReply) (s' : Session D) (seg : list desk_event),
    post_trade P trim desk body now r s = (Answered reply, s')
    /\ journal s' = (journal s ++ seg)%list
    /\ (forall req e, In (DkCall req (Some e)) seg ->
          (exists id, req = AskCancel id)
          \/ (reply = errorReply e
              /\ (tr_status reply = 400%nat
                  <-> exists detail, error_response e = Some (422%nat, detail))
              /\ (tr_status reply = 500%nat
                  <-> forall detail,
                        error_response e <> Some (422%nat, detail))))
    /\ (tr_status reply = 500%nat ->
        exists req e, In (DkCall req (Some e)) seg /\ reply = errorReply e).
Proof.
  assert (forall e,
            (tr_status (errorReply e) = 400%nat
             <-> exists detail, error_response e = Some (422%nat, detail))
            /\ (tr_status (errorReply e) = 500%nat
                <-> forall detail, error_response e <> Some (422%nat, detail)))
    as Hmap.
  { intro e. destruct (errorReply_status e) as ([H1 H2] & [H|H] & _).
    - split; [split; assumption|]. split.
      + rewrite H. discriminate.
      + intro Hno. destruct (H1 H) as [d Hd]. destruct (Hno d Hd).
    - split; [split; assumption|]. split; [|auto].
      intros _ d Hd. rewrite H2 in H by eauto. discriminate. }
  destruct (validateTradeOrder trim body) as [order|] eqn:Hv.
  - destruct (validateTradeOrder_sound trim body order Hv)
      as (_ & _ & _ & _ & _ & _ & _ & _ & _ & Hup & _).
    destruct (placeOrder_outcomes P desk order now r s Hup)
      as (reply & s' & seg & E & Hj & _ & _ & _ & _ & _ & _ & _ & H8 & H9).
    exists reply, s', seg. unfold post_trade. rewrite Hv.
    split; [exact E|]. split; [exact Hj|]. split; [|exact H9].
    intros req e Hin. destruct (H8 req e Hin) as [H| ->]; [left; exact H|].
    right. split; [reflexivity | apply Hmap].
  - do 3 eexists. unfold post_trade, tryT. rewrite Hv.
    split; [reflexivity|]. cbn [journal]. split; [reflexivity|]. split.
    + intros req e [H|[]]. discriminate.
    + discriminate.
Qed.

Lemma tagged_apart (order : BrokerOrder) :
  tagged "automation_" order = true -> tagged "manual_" order = false.
Proof.
  unfold tagged. destruct (bo_client_order_id order) as [id|]; [|reflexivity].
  destruct id as [|c id]; cbn [prefix]; [intro; discriminate|].
  destruct (ascii_dec "a" c) as [<-|]; [|intro; discriminate].
  intros _. reflexivity.
Qed.

(** X22.  The two routes that look at the origin of an order agree:
    [DELETE /orders?source=automation] selects exactly the orders that
    [GET /orders] labels [automation], and likewise for [manual]; a label is
    one of [automation], [manual] and [legacy].  An order of the automated
    trader is labelled [automation] and one of [POST /trade] [manual].  Any
    other value of [source] that is neither empty nor [all] (such as the
    label [legacy]) selects every open order. *)
Theorem order_sources_agree (P : Platform) :
  (forall order,
     (selected "automation" order = true
      <-> order_source order = "automation")
     /\ (selected "manual" order = true <-> order_source order = "manual")
     /\ (order_source order = "automation" \/ order_source order = "manual"
         \/ order_source order = "legacy"))
  /\ (forall t s od id sym side,
        automation_order t s od ->
        order_source {| bo_id := id; bo_symbol := sym; bo_side := side;
                        bo_client_order_id := Some (od_client_order_id od) |}
        = "automation")
  /\ (forall order od id sym side,
        manual_order P order od ->
        order_source {| bo_id := id; bo_symbol := sym; bo_side := side;
                        bo_client_order_id := Some (mo_client_order_id od) |}
        = "manual")
  /\ (forall source orders,
        source <> "" -> source <> "all" -> source <> "automation" ->
        source <> "manual" ->
        ordersToCancel (Some source) orders = orders)
  /\ (forall orders,
        ordersToCancel None orders = orders
        /\ ordersToCancel (Some "") orders = orders
        /\ ordersToCancel (Some "all") orders = orders).
Proof.
  split; [|split; [|split; [|split]]].
  - intro order. unfold selected, order_source. cbn [String.eqb Ascii.eqb].
    cbn -[tagged].
    destruct (tagged "automation_" order) eqn:Ea.
    + rewrite (tagged_apart order Ea).
      repeat split; auto; discriminate.
    + destruct (tagged "manual_" order);
        repeat split; auto; discriminate.
  - intros t s od id sym side (_ & _ & _ & _ & _ & Hp).
    unfold order_source, tagged. cbn [bo_client_order_id]. rewrite Hp.
    reflexivity.
  - intros order od id sym side (_ & _ & _ & _ & _ & Hp).
    assert (tagged "manual_"
              {| bo_id := id; bo_symbol := sym; bo_side := side;
                 bo_client_order_id := Some (mo_client_order_id od) |} = true)
      as Hm by exact Hp.
    unfold order_source. rewrite Hm.
    destruct (tagged "automation_" _) eqn:Ea; [|reflexivity].
    apply tagged_apart in Ea. congruence.
  - intros source orders H1 H2 H3 H4. unfold ordersToCancel.
    apply String.eqb_neq in H1, H2, H3, H4. rewrite H1, H2. cbn [negb andb].
    unfold selected. rewrite H3, H4.
    induction orders as [|o l IH]; cbn; [reflexivity|]. rewrite IH.
    reflexivity.
  - intro orders. repeat split.
Qed.

Section CancelRuns.
Context {D : Type} (P : Platform) (desk : Desk D).

Lemma cancelListed_run (o : BrokerOrder) (s : Session D) :
  exists (result : option string) (s' : Session D) (evs : list desk_event),
    cancelListed desk o s = (Answered result, s')
    /\ journal s' = (journal s ++ evs)%list
    /\ cancellations evs = [bo_id o]
    /\ Forall cancel_event evs
    /\ ((if has_error result then 1 else 0)
        <= List.length (filter (fun e => match e with
                                          | DkCall (AskCancel _) (Some _) => true
                                          | _ => false
                                          end) evs))%nat.
Proof.
  unfold cancelListed, tryT, bindT, ask.
  destruct (desk_cancel desk (bo_id o) (desk_state s)) as [[[]|e] d1].
  - do 3 eexists. split; [reflexivity|]. cbn [journal].
    split; [reflexivity|]. split; [reflexivity|].
    split; [repeat constructor | cbn; lia].
  - do 3 eexists. split; [reflexivity|]. cbn [journal].
    rewrite <- app_assoc. split; [reflexivity|]. split; [reflexivity|].
    split; [repeat constructor|].
    cbn. destruct (negb _); lia.
Qed.

Lemma cancelListed_all (orders : list BrokerOrder) :
  forall s : Session D,
  exists (results : list (option string)) (s' : Session D)
         (evs : list desk_event),
    map_allT orders (cancelListed desk) s = (Answered results, s')
    /\ journal s' = (journal s ++ evs)%list
    /\ List.length results = List.length orders
    /\ cancellations evs = map bo_id orders
    /\ Forall cancel_event evs
    /\ (List.length (filter has_error results)
        <= List.length (filter (fun e => match e with
                                          | DkCall (AskCancel _) (Some _) => true
                                          | _ => false
                                          end) evs))%nat.
Proof.
  induction orders as [|o rest IH]; intro s.
  - exists [], s, []. cbn. rewrite app_nil_r. repeat split; constructor.
  - destruct (cancelListed_run o s)
      as (result & s1 & evs1 & E1 & Hj1 & Hc1 & Hq1 & Hf1).
    destruct (IH s1) as (results & s' & evs & E & Hj & Hl & Hc & Hq & Hf).
    exists (result :: results), s', (evs1 ++ evs)%list.
    cbn [map_allT]. unfold bindT at 1. rewrite E1.
    unfold bindT at 1. rewrite E.
    split; [reflexivity|].
    split; [rewrite Hj, Hj1, app_assoc; reflexivity|].
    split; [cbn; congruence|].
    split; [unfold cancellations in *; rewrite flat_map_app, Hc1, Hc;
            reflexivity|].
    split; [apply Forall_app; split; assumption|].
    rewrite filter_app, length_app. cbn [filter].
    destruct (has_error result); cbn [List.length]; lia.
Qed.

End CancelRuns.

Lemma partition_length {A} (f : A -> bool) (l : list A) :
  (List.length (filter (fun x => negb (f x)) l) + List.length (filter f l)
   = List.length l)%nat.
Proof.
  induction l as [|x l IH]; cbn; [reflexivity|].
  destruct (f x); cbn; lia.
Qed.

(** X23.  [DELETE /orders]: when the broker lists its open orders, the
    answer is 200 whatever happens to the cancellations; a cancel request
    goes to every selected order, in order, and to no other; [total] is
    their number and [cancelled + failed = total].  A cancellation only
    counts as failed if the broker refused it.  When the listing is
    refused the answer is 500 and nothing is cancelled. *)
Theorem delete_orders_counts {D : Type} (P : Platform) (desk : Desk D)
    (source : option string) (s : Session D) :
  exists (reply : CancelReply) (s' : Session D) (seg : list desk_event),
    delete_orders P desk source s = (Answered reply, s')
    /\ journal s' = (journal s ++ seg)%list
    /\ submitted seg = []
    /\ (forall orders d1,
          desk_all_open_orders desk (desk_state s) = (Answered orders, d1) ->
          cr_status reply = 200%nat
          /\ cancellations seg = map bo_id (ordersToCancel source orders)
          /\ exists cancelled failed,
               cr_cancelled reply = Some cancelled
               /\ cr_failed reply = Some failed
               /\ cr_total reply
                  = Some (List.length (ordersToCancel source orders))
               /\ (cancelled + failed
                   = List.length (ordersToCancel source orders))%nat
               /\ (failed
                   <= List.length
                        (filter (fun e => match e with
                                          | DkCall (AskCancel _) (Some _) => true
                                          | _ => false
                                          end) seg))%nat)
    /\ (forall e d1,
          desk_all_open_orders desk (desk_state s) = (Refused e, d1) ->
          cr_status reply = 500%nat /\ cancellations seg = []).
Proof.
  unfold delete_orders, tryT. unfold bindT at 1, ask at 1.
  destruct (desk_all_open_orders desk (desk_state s)) as [[orders|e] d1].
  - cbv beta iota zeta.
    destruct (cancelListed_all desk (ordersToCancel source orders)
                {| desk_state := d1;
                   journal := (journal s
                               ++ [DkCall AskAllOpenOrders None])%list |})
      as (results & s1 & evs & E & Hj & Hl & Hc & Hq & Hf).
    unfold bindT at 1. rewrite E. unfold bindT, logT, record, retT.
    do 3 eexists. split; [reflexivity|]. cbn [journal] in *.
    rewrite Hj, <- !app_assoc. cbn [app]. split; [reflexivity|].
    destruct (cancel_events_quiet evs Hq) as [Hsub _].
    split.
    { unfold submitted in *. cbn [flat_map app]. rewrite flat_map_app, Hsub.
      reflexivity. }
    split; [|intros e d2 H; discriminate].
    intros orders' d2 H. injection H as <- <-. cbn [cr_status].
    split; [reflexivity|]. split.
    { unfold cancellations in *. cbn [flat_map app].
      rewrite flat_map_app, Hc. cbn. apply app_nil_r. }
    do 2 eexists. cbn [cr_cancelled cr_failed cr_total].
    split; [reflexivity|]. split; [reflexivity|]. split; [reflexivity|].
    split; [rewrite partition_length; exact Hl|].
    cbn [filter]. rewrite filter_app, length_app. cbn [filter List.length].
    rewrite Nat.add_0_r. etransitivity; [exact Hf|].
    clear - Hq. induction Hq as [|ev l Hev _ IH]; [reflexivity|].
    cbn [filter]. destruct ev as [| [] [] |]; cbn in *; try contradiction; lia.
  - unfold bindT, logT, record, retT.
    do 3 eexists. split; [reflexivity|]. cbn [journal].
    rewrite <- !app_assoc. cbn [app]. split; [reflexivity|].
    split; [reflexivity|]. split; [intros o d2 H; discriminate|].
    intros e' d2 _. split; reflexivity.
Qed.

Lemma delete_orders_legacy_example :
  exists reply s',
    delete_orders flat_runtime (ledger_desk None) (Some "legacy")
      (open_session small_ledger) = (Answered reply, s')
    /\ cancellations (journal s') = ["a1"; "m1"; "l1"]
    /\ cr_total reply = Some 3%nat.
Proof.
  destruct (delete_orders_counts flat_runtime (ledger_desk None)
              (Some "legacy") (open_session small_ledger))
    as (reply & s' & seg & E & Hj & _ & H & _).
  destruct (H (ledger_orders small_ledger) small_ledger eq_refl)
    as (_ & Hc & c & f & _ & _ & Ht & _).
  exists reply, s'. rewrite Hj. split; [exact E|].
  split; [exact Hc | exact Ht].
Defined.

(** ** The brokerage client *)

Lemma checkEnv_spec (env : string -> option string) (vars : list string) :
  (checkEnv env vars = None <-> Forall (fun v => env_set env v = true) vars)
  /\ (forall message, checkEnv env vars = Some message ->
        exists before v after,
          vars = (before ++ v :: after)%list
          /\ Forall (fun v => env_set env v = true) before
          /\ env_set env v = false
          /\ message = "Missing required environment variable: " ++ v).
Proof.
  induction vars as [|v rest [IH1 IH2]]; cbn [checkEnv].
  - split; [split; auto|]. intros m H. discriminate.
  - destruct (env_set env v) eqn:E; cbn [negb].
    + split.
      * rewrite IH1. split; intro H; [constructor; assumption|].
        inversion H; assumption.
      * intros m H. destruct (IH2 m H) as (b & x & a & -> & Hb & Hx & Hm).
        exists (v :: b), x, a. repeat split; auto.
    + split.
      * split; [discriminate|]. intro H. inversion H; congruence.
      * intros m H. injection H as <-. exists [], v, rest.
        repeat split; auto.
Qed.

(** X26.  The brokerage client is only built when all three variables are
    set to something other than the empty string; otherwise loading the
    module throws, and the message names the first variable that is missing
    in the order key, secret, base URL.  The client built carries exactly
    the three values. *)
Theorem load_alpaca_needs_all_three (env : string -> option string) :
  ((exists client, load_alpaca env = inr client)
   <-> (exists key secret url,
          env "ALPACA_API_KEY" = Some key /\ key <> ""
          /\ env "ALPACA_SECRET_KEY" = Some secret /\ secret <> ""
          /\ env "ALPACA_BASE_URL" = Some url /\ url <> ""))
  /\ (forall client, load_alpaca env = inr client ->
        env "ALPACA_API_KEY" = Some (key_id client)
        /\ env "ALPACA_SECRET_KEY" = Some (secret_key client)
        /\ env "ALPACA_BASE_URL" = Some (baseURL client))
  /\ (forall message, load_alpaca env = inl message ->
        exists before v after,
          requiredEnvVars = (before ++ v :: after)%list
          /\ Forall (fun v => env_set env v = true) before
          /\ env_set env v = false
          /\ message = "Missing required environment variable: " ++ v).
Proof.
  assert (forall v, env_set env v = true
                    <-> exists value, env v = Some value /\ value <> "")
    as Hset.
  { intro v. unfold env_set. destruct (env v) as [value|].
    - rewrite negb_true_iff, String.eqb_neq. split.
      + intro H. exists value. auto.
      + intros (x & E & H). injection E as ->. exact H.
    - split; [discriminate|]. intros (x & E & _). discriminate. }
  split; [|split].
  - unfold load_alpaca. split.
    + intros [client H].
      destruct (checkEnv env requiredEnvVars) eqn:E; [discriminate|].
      apply (proj1 (checkEnv_spec env requiredEnvVars)) in E. unfold requiredEnvVars in E.
      inversion E as [|? ? Ha E1]; subst.
      inversion E1 as [|? ? Hb E2]; subst.
      inversion E2 as [|? ? Hc _]; subst.
      apply Hset in Ha, Hb, Hc.
      destruct Ha as (k & ? & ?), Hb as (s & ? & ?), Hc as (u & ? & ?).
      exists k, s, u. auto 10.
    + intros (k & s & u & Ek & Hk & Es & Hs & Eu & Hu).
      assert (checkEnv env requiredEnvVars = None) as E.
      { apply (proj1 (checkEnv_spec env requiredEnvVars)). repeat constructor; apply Hset; eauto. }
      rewrite E. eexists. reflexivity.
  - intros client H. unfold load_alpaca in H.
    destruct (checkEnv env requiredEnvVars) eqn:E; [discriminate|].
    apply (proj1 (checkEnv_spec env requiredEnvVars)) in E. unfold requiredEnvVars in E.
    inversion E as [|? ? Ha E1]; subst.
    inversion E1 as [|? ? Hb E2]; subst.
    inversion E2 as [|? ? Hc _]; subst.
    apply Hset in Ha, Hb, Hc.
    destruct Ha as (k & Ek & ?), Hb as (s & Es & ?), Hc as (u & Eu & ?).
    rewrite Ek, Es, Eu in H. injection H as <-. cbn. auto.
  - intros message H. unfold load_alpaca in H.
    destruct (checkEnv env requiredEnvVars) eqn:E; [|discriminate].
    injection H as ->.
    apply (proj2 (checkEnv_spec env requiredEnvVars)). exact E.
Qed.
